(** * Analizador de programas sociales: modelo y verificación

    Shallow embedding of the analytical core of
    [src/backend/analizador_optimizado.py]: the term dictionary and the
    query translator ([AnalizadorUnidimensional]), the population filter
    ([DelimitadorPoblacional]), the demographic profiler
    ([AnalizadorDemografico]), the eligibility and intensity analysers
    ([AnalizadorProgramasSociales]) and the age binning of the
    cross-tabulation engine.

    Conventions.
    - A Python [str] is a sequence of Unicode code points ([PyStr.str]);
      [len] counts code points, so the phrase ordering of the translator
      is computed on code points, not on UTF-8 bytes.
    - A pandas DataFrame is its list of column names and its list of rows.
    - A call that raises is [None] (or, where the source catches the
      exception, the constructor of its [except] branch).  An instance
      of [AnalizadorProgramasSociales] is the record of the attributes
      that the analyses read; an attribute that was never assigned is
      [None] and reading it raises.  The methods that read [self.df]
      alone take the table.
    - Rates are computed by the source on binary floating point and then
      rounded to one or two decimals.  The model computes them on exact
      rationals and represents a value rounded to [k] decimals by the
      integer number of units of [10^-k] (tenths, hundredths). *)

From Stdlib Require Import ZArith NArith List Bool Lia String Ascii DecimalString Sorted Permutation.
Import ListNotations.

(* ================================================================= *)
(** ** Python strings *)

Module PyStr.

Definition str := list N.

Definition bytes_of (s : string) : list N :=
  map N_of_ascii (list_ascii_of_string s).

(** UTF-8 decoding of the bytes of a literal of this file. *)
Fixpoint utf8_decode (bs : list N) : str :=
  match bs with
  | [] => []
  | b :: t =>
      if (b <? 128)%N then b :: utf8_decode t
      else if (b <? 224)%N then
        match t with
        | b1 :: t1 => ((b - 192) * 64 + (b1 - 128))%N :: utf8_decode t1
        | _ => []
        end
      else if (b <? 240)%N then
        match t with
        | b1 :: b2 :: t2 =>
            ((b - 224) * 4096 + (b1 - 128) * 64 + (b2 - 128))%N
              :: utf8_decode t2
        | _ => []
        end
      else
        match t with
        | b1 :: b2 :: b3 :: t3 =>
            ((b - 240) * 262144 + (b1 - 128) * 4096
             + (b2 - 128) * 64 + (b3 - 128))%N :: utf8_decode t3
        | _ => []
        end
  end.

(** The Python string written by the literal [s]. *)
Definition py (s : string) : str := utf8_decode (bytes_of s).

Fixpoint eqb (a b : str) : bool :=
  match a, b with
  | [], [] => true
  | x :: a', y :: b' => (x =? y)%N && eqb a' b'
  | _, _ => false
  end.

Definition eq_dec : forall a b : str, {a = b} + {a <> b} :=
  list_eq_dec N.eq_dec.

(** [s.startswith(prefix)] *)
Fixpoint startswith (s prefix : str) {struct prefix} : bool :=
  match prefix, s with
  | [], _ => true
  | p :: prefix', c :: s' => (p =? c)%N && startswith s' prefix'
  | _ :: _, [] => false
  end.

(** [sub in s] *)
Fixpoint contains (sub s : str) : bool :=
  startswith s sub
  || match s with
     | [] => false
     | _ :: s' => contains sub s'
     end.

(** [x in l] for a list of strings. *)
Definition mem (x : str) (l : list str) : bool := existsb (eqb x) l.

(** [s.lower()] on Basic Latin and Latin-1 Supplement, the alphabet of
    the queries; other code points are left as they are. *)
Definition lower_cp (c : N) : N :=
  if ((65 <=? c) && (c <=? 90))%N then (c + 32)%N
  else if ((192 <=? c) && (c <=? 222) && negb (c =? 215))%N then (c + 32)%N
  else c.

Definition lower (s : str) : str := map lower_cp s.

Fixpoint replace_from (old new : str) (skip : nat) (s : str) : str :=
  match s with
  | [] => []
  | c :: t =>
      match skip with
      | S k => replace_from old new k t
      | O =>
          if startswith s old
          then new ++ replace_from old new (List.length old - 1) t
          else c :: replace_from old new 0 t
      end
  end.

(** [s.replace(old, new)] for a non-empty [old]: every occurrence,
    left to right, without overlap. *)
Definition replace (s old new : str) : str := replace_from old new 0 s.

(** Truthiness of an optional string: the key is there and its value
    is not the empty string. *)
Definition dado (o : option str) : option str :=
  match o with
  | Some (_ :: _ as s) => o
  | _ => None
  end.

End PyStr.

Import PyStr.

(* ================================================================= *)
(** ** Criteria sets and the term dictionary *)

(** The criteria dictionary, one optional field per key the code reads
    or writes.  A deprivation key is [true] when it is present with a
    truthy value. *)
Record Criterios := mkCriterios {
  rango_edad : option (Z * Z);
  sexo : option str;
  ubicacion : option str;
  carencia_salud : bool;
  carencia_educacion : bool;
  carencia_seguridad_social : bool;
  programa_social : option str;
  segmentacion_geografica : option str;
  ordenamiento : option str
}.

(** The empty dictionary [{}]. *)
Definition criterios_vacios : Criterios :=
  mkCriterios None None None false false false None None None.

(** [bool(criterios)] for a dictionary built by the translator. *)
Definition hay_criterios (c : Criterios) : bool :=
  match rango_edad c, sexo c, ubicacion c, programa_social c,
        segmentacion_geografica c, ordenamiento c with
  | None, None, None, None, None, None =>
      carencia_salud c || carencia_educacion c || carencia_seguridad_social c
  | _, _, _, _, _, _ => true
  end.

(** A directive of the term dictionary, by its ['tipo']. *)
Inductive Mapeo :=
| RangoEdad (valor : Z * Z)
| Sexo (valor : str)
| Columna (valor : str) (filtro : option str)
| MultipleCarencias (valor : Z)
| Programa (valor : str)
| ConceptoElegibilidad (valor : str).

Open Scope string_scope.
Open Scope Z_scope.

(** [_mapear_grupos_poblacionales], in the insertion order of the
    dictionary literal. *)
Definition _mapear_grupos_poblacionales : list (str * Mapeo) :=
  [
    (* GRUPOS POR EDAD *)
    (py "niños", RangoEdad (0, 12));
    (py "niñas", RangoEdad (0, 12));
    (py "infantes", RangoEdad (0, 3));
    (py "bebés", RangoEdad (0, 3));
    (py "adolescentes", RangoEdad (13, 18));
    (py "jóvenes", RangoEdad (19, 30));
    (py "adultos", RangoEdad (31, 50));
    (py "adultos mayores", RangoEdad (65, 100));
    (py "mayores de 65", RangoEdad (65, 100));
    (py "tercera edad", RangoEdad (65, 100));
    (py "adulto mayor", RangoEdad (65, 100));
    (* GRUPOS POR SEXO *)
    (py "mujeres", Sexo (py "Mujer"));
    (py "hombres", Sexo (py "Hombre"));
    (py "mujer", Sexo (py "Mujer"));
    (py "hombre", Sexo (py "Hombre"));
    (* CARENCIAS (VALORES REALES: yes/no) *)
    (py "carencia de salud", Columna (py "presencia_carencia_salud_persona") (Some (py "yes")));
    (py "carencia salud", Columna (py "presencia_carencia_salud_persona") (Some (py "yes")));
    (py "salud", Columna (py "presencia_carencia_salud_persona") (Some (py "yes")));
    (py "sin salud", Columna (py "presencia_carencia_salud_persona") (Some (py "yes")));
    (py "acceso a salud", Columna (py "presencia_carencia_salud_persona") (Some (py "yes")));
    (py "carencia de acceso a salud", Columna (py "presencia_carencia_salud_persona") (Some (py "yes")));
    (py "carencia acceso a salud", Columna (py "presencia_carencia_salud_persona") (Some (py "yes")));
    (py "sin cobertura de salud", Columna (py "presencia_carencia_salud_persona") (Some (py "yes")));
    (py "sin servicios médicos", Columna (py "presencia_carencia_salud_persona") (Some (py "yes")));
    (py "carencia de educación", Columna (py "presencia_rezago_educativo_persona") (Some (py "yes")));
    (py "carencia educación", Columna (py "presencia_rezago_educativo_persona") (Some (py "yes")));
    (py "rezago educativo", Columna (py "presencia_rezago_educativo_persona") (Some (py "yes")));
    (py "educación", Columna (py "presencia_rezago_educativo_persona") (Some (py "yes")));
    (py "sin educación", Columna (py "presencia_rezago_educativo_persona") (Some (py "yes")));
    (py "sin asistir a la escuela", Columna (py "presencia_rezago_educativo_persona") (Some (py "yes")));
    (py "no asiste a la escuela", Columna (py "presencia_rezago_educativo_persona") (Some (py "yes")));
    (py "inasistencia escolar", Columna (py "presencia_rezago_educativo_persona") (Some (py "yes")));
    (py "carencia de seguridad social", Columna (py "presencia_carencia_seguridad_social_persona") (Some (py "yes")));
    (py "carencia seguridad social", Columna (py "presencia_carencia_seguridad_social_persona") (Some (py "yes")));
    (py "seguridad social", Columna (py "presencia_carencia_seguridad_social_persona") (Some (py "yes")));
    (py "sin seguridad social", Columna (py "presencia_carencia_seguridad_social_persona") (Some (py "yes")));
    (py "carencia social", Columna (py "presencia_carencia_seguridad_social_persona") (Some (py "yes")));
    (py "sin afiliación", Columna (py "presencia_carencia_seguridad_social_persona") (Some (py "yes")));
    (py "sin acceso a seguridad social", Columna (py "presencia_carencia_seguridad_social_persona") (Some (py "yes")));
    (py "no afiliadas", Columna (py "presencia_carencia_seguridad_social_persona") (Some (py "yes")));
    (* CARENCIAS COMPLEJAS *)
    (py "carencia máxima", MultipleCarencias 3);
    (py "múltiples carencias", MultipleCarencias 3);
    (py "carencia extrema", MultipleCarencias 3);
    (py "vulnerabilidad extrema", MultipleCarencias 3);
    (py "mayor carencia", MultipleCarencias 3);
    (py "pobreza extrema", MultipleCarencias 3);
    (py "más vulnerables", MultipleCarencias 3);
    (* VARIABLES DEMOGRÁFICAS *)
    (py "edad", Columna (py "edad_persona") None);
    (py "años", Columna (py "edad_persona") None);
    (py "parentesco", Columna (py "parentesco_persona") None);
    (py "tipo de persona", Columna (py "tipo_persona") None);
    (py "apoyos sociales", Columna (py "recibe_apoyos_sociales") None);
    (py "recibe apoyos", Columna (py "recibe_apoyos_sociales") None);
    (py "beneficiario", Columna (py "recibe_apoyos_sociales") None);
    (* PROGRAMAS SOCIALES (NOMBRES EXACTOS) *)
    (py "pensión adultos mayores", Programa (py "pension_adultos_mayores"));
    (py "pensión mujeres", Programa (py "pension_mujeres_bienestar"));
    (py "mujeres bienestar", Programa (py "pension_mujeres_bienestar"));
    (py "becas", Programa (py "beca_rita_cetina"));
    (py "beca rita cetina", Programa (py "beca_rita_cetina"));
    (py "benito juárez", Programa (py "beca_benito_juarez"));
    (py "jóvenes escribiendo futuro", Programa (py "jovenes_escribiendo_el_futuro"));
    (py "jóvenes construyendo futuro", Programa (py "jovenes_construyendo_futuro"));
    (py "desde la cuna", Programa (py "desde_la_cuna"));
    (py "mi beca para empezar", Programa (py "mi_beca_para_empezar"));
    (py "imss bienestar", Programa (py "imss_bienestar"));
    (py "inea", Programa (py "inea"));
    (py "leche bienestar", Programa (py "leche_bienestar"));
    (py "seguro desempleo", Programa (py "seguro_desempleo_cdmx"));
    (py "ingreso ciudadano", Programa (py "ingreso_ciudadano_universal"));
    (* GEOGRÁFICAS *)
    (py "colonia", Columna (py "colonia") None);
    (py "colonias", Columna (py "colonia") None);
    (py "ageb", Columna (py "ageb") None);
    (py "agebs", Columna (py "ageb") None);
    (py "manzana", Columna (py "manzana") None);
    (py "manzanas", Columna (py "manzana") None);
    (py "ubicación", Columna (py "ubicacion") None);
    (py "zona", Columna (py "ubicacion") None);
    (py "localidad", Columna (py "ubicacion") None);
    (* TÉRMINOS DE ELEGIBILIDAD *)
    (py "elegibles", ConceptoElegibilidad (py "elegibilidad"));
    (py "elegible", ConceptoElegibilidad (py "elegibilidad"));
    (py "pueden recibir", ConceptoElegibilidad (py "elegibilidad"));
    (py "califican para", ConceptoElegibilidad (py "elegibilidad"));
    (py "personas que pueden", ConceptoElegibilidad (py "elegibilidad"))
  ].

Close Scope Z_scope.
Close Scope string_scope.

(* ================================================================= *)
(** ** Query translator ([AnalizadorUnidimensional]) *)

(** [str(n)] for an integer. *)
Definition str_of_Z (n : Z) : str :=
  bytes_of (DecimalString.NilZero.string_of_int (Z.to_int n)).

(** One step of [sorted(..., key=len, reverse=True)]: the sort is
    stable, so a phrase goes after the strictly longer ones and before
    the phrases of its own length that followed it in the dictionary. *)
Fixpoint insertar_por_longitud (x : str * Mapeo) (l : list (str * Mapeo))
  : list (str * Mapeo) :=
  match l with
  | [] => [x]
  | y :: l' =>
      if (List.length (fst x) <? List.length (fst y))%nat
      then y :: insertar_por_longitud x l'
      else x :: l
  end.

Definition ordenar_por_longitud (d : list (str * Mapeo)) : list (str * Mapeo) :=
  fold_right insertar_por_longitud [] d.

(** [terminos_ordenados], each phrase with its directive
    ([mapeo_completo[termino_natural]]). *)
Definition terminos_ordenados : list (str * Mapeo) :=
  ordenar_por_longitud _mapear_grupos_poblacionales.

(** The three accumulators of [traducir_consulta_natural]. *)
Record Acumulado := mkAcumulado {
  ac_criterios : Criterios;
  ac_variables : list str;
  ac_terminos : list (str * Mapeo)
}.

Definition con_rango_edad (c : Criterios) (v : Z * Z) : Criterios :=
  mkCriterios (Some v) (sexo c) (ubicacion c) (carencia_salud c)
    (carencia_educacion c) (carencia_seguridad_social c) (programa_social c)
    (segmentacion_geografica c) (ordenamiento c).

Definition con_sexo (c : Criterios) (v : str) : Criterios :=
  mkCriterios (rango_edad c) (Some v) (ubicacion c) (carencia_salud c)
    (carencia_educacion c) (carencia_seguridad_social c) (programa_social c)
    (segmentacion_geografica c) (ordenamiento c).

Definition con_carencia_salud (c : Criterios) : Criterios :=
  mkCriterios (rango_edad c) (sexo c) (ubicacion c) true
    (carencia_educacion c) (carencia_seguridad_social c) (programa_social c)
    (segmentacion_geografica c) (ordenamiento c).

Definition con_carencia_educacion (c : Criterios) : Criterios :=
  mkCriterios (rango_edad c) (sexo c) (ubicacion c) (carencia_salud c)
    true (carencia_seguridad_social c) (programa_social c)
    (segmentacion_geografica c) (ordenamiento c).

Definition con_carencia_seguridad_social (c : Criterios) : Criterios :=
  mkCriterios (rango_edad c) (sexo c) (ubicacion c) (carencia_salud c)
    (carencia_educacion c) true (programa_social c)
    (segmentacion_geografica c) (ordenamiento c).

Definition con_programa_social (c : Criterios) (v : option str) : Criterios :=
  mkCriterios (rango_edad c) (sexo c) (ubicacion c) (carencia_salud c)
    (carencia_educacion c) (carencia_seguridad_social c) v
    (segmentacion_geografica c) (ordenamiento c).

Definition con_segmentacion_geografica (c : Criterios) (v : str) : Criterios :=
  mkCriterios (rango_edad c) (sexo c) (ubicacion c) (carencia_salud c)
    (carencia_educacion c) (carencia_seguridad_social c) (programa_social c)
    (Some v) (ordenamiento c).

Definition con_ordenamiento (c : Criterios) (v : str) : Criterios :=
  mkCriterios (rango_edad c) (sexo c) (ubicacion c) (carencia_salud c)
    (carencia_educacion c) (carencia_seguridad_social c) (programa_social c)
    (segmentacion_geografica c) (Some v).

Open Scope string_scope.

(** The automatic deprivation filter of a ['columna'] directive that
    carries a ['filtro']: chosen by the words of the phrase itself. *)
Definition aplicar_filtro_carencia (termino_natural : str) (c : Criterios)
  : Criterios :=
  if contains (py "salud") termino_natural then con_carencia_salud c
  else if contains (py "educación") termino_natural
          || contains (py "educacion") termino_natural
          || contains (py "rezago") termino_natural
  then con_carencia_educacion c
  else if contains (py "seguridad_social") termino_natural
          || contains (py "social") termino_natural
  then con_carencia_seguridad_social c
  else c.

(** The body of the loop for a phrase found in the text. *)
Definition aplicar_mapeo (termino_natural : str) (mapeo : Mapeo) (a : Acumulado)
  : Acumulado :=
  let c := ac_criterios a in
  let vars := ac_variables a in
  let terminos := (ac_terminos a ++ [(termino_natural, mapeo)])%list in
  match mapeo with
  | RangoEdad valor =>
      match rango_edad c with
      | None =>
          mkAcumulado (con_rango_edad c valor)
            (vars ++ [py "rango_edad_" ++ str_of_Z (fst valor)
                        ++ py "_" ++ str_of_Z (snd valor)])%list
            terminos
      | Some _ => mkAcumulado c vars terminos
      end
  | Sexo valor =>
      mkAcumulado (con_sexo c valor) (vars ++ [py "sexo_persona"])%list terminos
  | Columna valor filtro =>
      mkAcumulado
        (match filtro with
         | Some _ => aplicar_filtro_carencia termino_natural c
         | None => c
         end)
        (vars ++ [valor])%list terminos
  | Programa valor =>
      mkAcumulado (con_programa_social c (Some valor))
        (vars ++ [py "es_elegible_" ++ valor])%list terminos
  | MultipleCarencias _ | ConceptoElegibilidad _ => mkAcumulado c vars terminos
  end.

Definition paso_termino (texto_consulta : str) (a : Acumulado)
  (t : str * Mapeo) : Acumulado :=
  if contains (fst t) texto_consulta then aplicar_mapeo (fst t) (snd t) a else a.

Definition buscar_terminos (texto_consulta : str) (ts : list (str * Mapeo))
  (a : Acumulado) : Acumulado :=
  fold_left (paso_termino texto_consulta) ts a.

Definition detectar_segmentacion (texto_consulta : str) (c : Criterios)
  : Criterios :=
  if existsb (fun geo => contains geo texto_consulta)
       [py "por ageb"; py "por colonia"; py "por ubicación"; py "por zona"]
  then
    if contains (py "ageb") texto_consulta
    then con_segmentacion_geografica c (py "ageb")
    else if contains (py "colonia") texto_consulta
    then con_segmentacion_geografica c (py "colonia")
    else if contains (py "ubicación") texto_consulta
            || contains (py "zona") texto_consulta
    then con_segmentacion_geografica c (py "ubicacion")
    else c
  else c.

Definition detectar_ordenamiento (texto_consulta : str) (c : Criterios)
  : Criterios :=
  if existsb (fun orden => contains orden texto_consulta)
       [py "mayor"; py "más"; py "top"; py "principal"]
  then con_ordenamiento c (py "descendente")
  else if existsb (fun orden => contains orden texto_consulta)
            [py "menor"; py "menos"]
  then con_ordenamiento c (py "ascendente")
  else c.

(** The result of a translation.  [variables_detectadas] is
    [list(set(...))]: the variables without repetition. *)
Record Traduccion := mkTraduccion {
  consulta_original : str;
  criterios_demograficos : Criterios;
  variables_detectadas : list str;
  terminos_mapeados : list (str * Mapeo);
  estado : str
}.

(** [traducir_consulta_natural].  Every operation of the body is total
    on strings, so the [except] branch is never taken. *)
Definition traducir_consulta_natural (consulta : str) : Traduccion :=
  let texto_consulta := lower consulta in
  let a :=
    buscar_terminos texto_consulta terminos_ordenados
      (mkAcumulado criterios_vacios [] []) in
  let criterios :=
    detectar_ordenamiento texto_consulta
      (detectar_segmentacion texto_consulta (ac_criterios a)) in
  mkTraduccion consulta criterios
    (nodup eq_dec (ac_variables a))
    (ac_terminos a)
    (if hay_criterios criterios then py "éxito"
     else py "sin_criterios_detectados").

Close Scope string_scope.

(* ================================================================= *)
(** ** The flat table *)

(** One row of the table.  [id_hogar] and [edad_persona] are integer
    columns, the three geographic columns may hold a missing value
    ([None]), and [otras] holds the remaining string columns by name,
    among them the eligibility columns [es_elegible_<programa>]. *)
Module Col.
Record Persona := mkPersona {
  id_hogar : Z;
  edad_persona : Z;
  sexo_persona : str;
  colonia : option str;
  ageb : option str;
  ubicacion : option str;
  presencia_carencia_salud_persona : str;
  presencia_rezago_educativo_persona : str;
  presencia_carencia_seguridad_social_persona : str;
  otras : list (str * str)
}.
End Col.

Abbreviation Persona := Col.Persona.

(** A DataFrame: its column names and its rows. *)
Record DataFrame := mkDataFrame {
  columns : list str;
  filas : list Persona
}.

(** [len(df)] *)
Definition len (df : DataFrame) : Z := Z.of_nat (List.length (filas df)).

(** [df[mask]]: the rows that satisfy the mask, same columns. *)
Definition seleccionar (mask : Persona -> bool) (df : DataFrame) : DataFrame :=
  mkDataFrame (columns df) (filter mask (filas df)).

Fixpoint buscar (col : str) (l : list (str * str)) : option str :=
  match l with
  | [] => None
  | (k, v) :: l' => if eqb k col then Some v else buscar col l'
  end.

Open Scope string_scope.

(** [valor == 'yes'] *)
Definition es_yes (valor : str) : bool := eqb valor (py "yes").

(** [df[col] == 'yes'] on a row, for a column of [otras]; a missing
    value compares unequal. *)
Definition otra_es_yes (col : str) (p : Persona) : bool :=
  match buscar col (Col.otras p) with
  | Some v => es_yes v
  | None => false
  end.

(** [f"es_elegible_{programa}"] *)
Definition columna_de_programa (programa : str) : str :=
  (py "es_elegible_" ++ programa)%list.

(** [(df['edad_persona'] >= edad_min) & (df['edad_persona'] <= edad_max)] *)
Definition en_rango_edad (r : Z * Z) (p : Persona) : bool :=
  ((fst r <=? Col.edad_persona p) && (Col.edad_persona p <=? snd r))%Z.

(** [sexo_map.get(sexo, sexo)] *)
Definition sexo_map (s : str) : str :=
  if eqb s (py "Mujer") then py "Mujer"
  else if eqb s (py "Hombre") then py "Hombre"
  else if eqb s (py "M") then py "Mujer"
  else if eqb s (py "H") then py "Hombre"
  else s.

Definition es_sexo (sexo_valor : str) (p : Persona) : bool :=
  eqb (Col.sexo_persona p) sexo_valor.

(* ----------------------------------------------------------------- *)
(** *** Counting and rounding *)

Section Conteos.
Context {A : Type}.
Variable eqbA : A -> A -> bool.

Fixpoint incrementar (x : A) (l : list (A * nat)) : list (A * nat) :=
  match l with
  | [] => [(x, 1%nat)]
  | (y, n) :: l' =>
      if eqbA y x then (y, S n) :: l' else (y, n) :: incrementar x l'
  end.

(** Occurrences of each value, values in order of first appearance. *)
Definition contar (l : list A) : list (A * nat) :=
  fold_left (fun acc x => incrementar x acc) l [].

Fixpoint insertar_por_conteo (x : A * nat) (l : list (A * nat))
  : list (A * nat) :=
  match l with
  | [] => [x]
  | y :: l' =>
      if (snd x <? snd y)%nat then y :: insertar_por_conteo x l'
      else x :: l
  end.

(** [Series.value_counts()]: most frequent first, ties in order of
    first appearance. *)
Definition value_counts (l : list A) : list (A * nat) :=
  fold_right insertar_por_conteo [] (contar l).

(** [list(index).index(x)], from 0; [None] is the [ValueError]. *)
Fixpoint index_of (x : A) (l : list A) : option nat :=
  match l with
  | [] => None
  | y :: l' =>
      if eqbA y x then Some O else option_map S (index_of x l')
  end.

Fixpoint buscar_conteo (x : A) (l : list (A * nat)) : option nat :=
  match l with
  | [] => None
  | (y, n) :: l' => if eqbA y x then Some n else buscar_conteo x l'
  end.

(** [Series.nunique()] *)
Definition nunique (l : list A) : Z := Z.of_nat (List.length (contar l)).
End Conteos.

(** The values of a column that are not missing. *)
Fixpoint presentes {A : Type} (l : list (option A)) : list A :=
  match l with
  | [] => []
  | Some x :: l' => x :: presentes l'
  | None :: l' => presentes l'
  end.

Open Scope Z_scope.

Definition suma (xs : list Z) : Z := fold_right Z.add 0 xs.

(** The quotient [num / den] ([den > 0]) rounded to the nearest
    integer, ties to the even one. *)
Definition round_half_even (num den : Z) : Z :=
  let q := num / den in
  let r := num mod den in
  if 2 * r <? den then q
  else if den <? 2 * r then q + 1
  else if Z.even q then q else q + 1.

(** [round(num / den, k)], in units of [10^-k]. *)
Definition redondear (k : Z) (num den : Z) : Z :=
  round_half_even (num * 10 ^ k) den.

(** [round(num / den * 100, k)], in units of [10^-k]. *)
Definition porcentaje_de (k : Z) (num den : Z) : Z :=
  round_half_even (num * 100 * 10 ^ k) den.

(** [Series.mean()] of an integer column as the pair (sum, count);
    [None] is the NaN of an empty column. *)
Definition mean (xs : list Z) : option (Z * Z) :=
  match xs with
  | [] => None
  | _ :: _ => Some (suma xs, Z.of_nat (List.length xs))
  end.

(** [round(m, k)] of a mean; NaN stays NaN. *)
Definition round_mean (k : Z) (m : option (Z * Z)) : option Z :=
  match m with
  | Some (s, n) => Some (redondear k s n)
  | None => None
  end.

Definition edades (df : DataFrame) : list Z := map Col.edad_persona (filas df).

Fixpoint minimo (x : Z) (xs : list Z) : Z :=
  match xs with
  | [] => x
  | y :: xs' => minimo (Z.min x y) xs'
  end.

Fixpoint maximo (x : Z) (xs : list Z) : Z :=
  match xs with
  | [] => x
  | y :: xs' => maximo (Z.max x y) xs'
  end.

Close Scope Z_scope.
Close Scope string_scope.

(* ================================================================= *)
(** ** Result dictionaries of the eligibility and intensity analyses *)

Module Conteo.
(** A count with its percentage, in hundredths. *)
Record t := mk {
  cantidad : Z;
  porcentaje : Z
}.
End Conteo.

Module PoblacionElegible.
(** Section 1; both rates in hundredths. *)
Record t := mk {
  total_elegibles : Z;
  tasa_elegibilidad : Z;
  hogares_afectados : Z;
  porcentaje_del_total_estudio : Z
}.
End PoblacionElegible.

Module PerfilElegibles.
(** Section 2; the mean age and the percentages in tenths. *)
Record t := mk {
  edad_promedio : Z;
  edad_minima : Z;
  edad_maxima : Z;
  distribucion_sexo : list (str * Z);
  distribucion_sexo_porcentaje : list (str * Z)
}.
End PerfilElegibles.

Module Ranking.
Record t := mk {
  posicion : Z;
  de_total : Z;
  poblacion : Z
}.
End Ranking.

Module Caracteristicas.
Record t := mk {
  nivel_vulnerabilidad : str;
  carencias_principales : list (str * Z)
}.
End Caracteristicas.

Module Contexto.
(** Section 4.  [edad_promedio] in tenths, [None] for NaN; an empty
    dictionary is [None] in [ranking_colonias] and [caracteristicas]. *)
Record t := mk {
  poblacion_total : Z;
  hogares_totales : Z;
  edad_promedio : option Z;
  ranking_colonias : option Ranking.t;
  caracteristicas : option Caracteristicas.t
}.
End Contexto.

Module FilaComparativa.
(** One entry of [comparativa_data]; [tasa] in tenths. *)
Record t := mk {
  colonia : str;
  elegibles : Z;
  tasa : Z
}.
End FilaComparativa.

Module Comparativa.
(** Section 5. *)
Record t := mk {
  top_colonias : list FilaComparativa.t;
  posicion_colonia_actual : option Z;
  total_colonias_comparadas : Z
}.
End Comparativa.

Module CriteriosAplicados.
Record t := mk {
  rango_edad : option (Z * Z);
  ubicacion : option str;
  sexo : option str;
  carencia : option str
}.
End CriteriosAplicados.

Module Elegibilidad.
(** The dictionary [resultado] of a completed eligibility analysis;
    sections 4 and 5 are [None] when they are the empty dictionary. *)
Record t := mk {
  programa : str;
  nombre_programa : str;
  criterios_aplicados : CriteriosAplicados.t;
  seccion_1_poblacion_elegible : PoblacionElegible.t;
  seccion_2_perfil_elegibles : PerfilElegibles.t;
  seccion_3_carencias_detectadas : list (str * Conteo.t);
  seccion_4_contexto_colonia : option Contexto.t;
  seccion_5_comparativa : option Comparativa.t
}.
End Elegibilidad.

(** What [analizar_elegibilidad_programa] returns: one of its two error
    dictionaries, or the five sections. *)
Inductive ResultadoElegibilidad :=
| ErrorProgramaNoEncontrado
    (error : str) (programas_disponibles columnas_reales : list str)
| ErrorSinPersonas (error : str)
| ResultadoElegibilidadOk (resultado : Elegibilidad.t).

(** ["error" in resultado] *)
Definition tiene_error (r : ResultadoElegibilidad) : bool :=
  match r with
  | ResultadoElegibilidadOk _ => false
  | _ => true
  end.

Module Intensidad.
Record t := mk {
  sin_carencias : Conteo.t;
  una_carencia : Conteo.t;
  dos_carencias : Conteo.t;
  tres_carencias : Conteo.t;
  poblacion_vulnerabilidad_extrema : Conteo.t
}.
End Intensidad.

(** What [analizar_intensidad_carencias] returns: the distribution, or
    the error dictionary of its [except] branch. *)
Inductive ResultadoIntensidad :=
| IntensidadOk (resultado : Intensidad.t)
| IntensidadError.

Open Scope string_scope.

(** The attributes of an instance of [AnalizadorProgramasSociales] that
    the analyses read.  An attribute that was never assigned is [None]:
    reading it raises AttributeError. *)
Module AnalizadorProgramasSociales.
Record t := mk {
  df : DataFrame;
  programas_disponibles : option (list str);
  programas_nombres : option (list str);
  mapeo_programas : option (list (str * str))
}.
End AnalizadorProgramasSociales.

(** The body of the class defines [__init__] twice: at line 571, with
    the parameter [df_completo], and at line 1312, with the parameters
    [df_completo] and [api_key]. *)
Inductive DefinicionInit :=
| InitLinea571
| InitLinea1312.

(** The definitions of [__init__] in the order of the class body. *)
Definition definiciones_de_init : list DefinicionInit :=
  [InitLinea571; InitLinea1312].

(** A class keeps the last function that its body binds to a name. *)
Definition init_de_la_clase : option DefinicionInit :=
  fold_left (fun _ d => Some d) definiciones_de_init None.

(** The first [__init__] (lines 571-594): [self] when it returns. *)
Definition init_linea_571 (df_completo : DataFrame)
  : AnalizadorProgramasSociales.t :=
  let programas_disponibles :=
    filter (fun col => startswith col (py "es_elegible_"))
      (columns df_completo) in
  let programas_nombres :=
    map (fun col => replace col (py "es_elegible_") []) programas_disponibles in
  let mapeo_programas :=
    [ (py "imss_bienestar", py "IMSS Bienestar");
      (py "pension_adultos_mayores", py "Pensión Adultos Mayores");
      (py "pension_mujeres_bienestar", py "Pensión Mujeres Bienestar");
      (py "beca_benito_juarez", py "Beca Benito Juárez");
      (py "beca_rita_cetina", py "Beca Rita Cetina");
      (py "jovenes_escribiendo_el_futuro", py "Jóvenes Escribiendo el Futuro");
      (py "jovenes_construyendo_futuro", py "Jóvenes Construyendo el Futuro");
      (py "desde_la_cuna", py "Desde la Cuna");
      (py "mi_beca_para_empezar", py "Mi Beca para Empezar");
      (py "seguro_desempleo_cdmx", py "Seguro de Desempleo CDMX");
      (py "ingreso_ciudadano_universal", py "Ingreso Ciudadano Universal");
      (py "inea", py "INEA");
      (py "leche_bienestar", py "Leche Bienestar") ] in
  AnalizadorProgramasSociales.mk df_completo (Some programas_disponibles)
    (Some programas_nombres) (Some mapeo_programas).

(** The second [__init__] (lines 1312-1354) assigns [df], [analizador],
    [client] and [messages]: of the attributes that the analyses read,
    [df] alone.  This is [self] after its assignments. *)
Definition init_linea_1312 (df_completo : DataFrame)
  : AnalizadorProgramasSociales.t :=
  AnalizadorProgramasSociales.mk df_completo None None None.

(** [AnalizadorProgramasSociales(df_completo)], the call of the
    coordinator (line 2105) and of the scripts; [None] when the call
    raises TypeError: the [__init__] of the class takes one more
    argument, or the class has none and takes no argument. *)
Definition construir (df_completo : DataFrame)
  : option AnalizadorProgramasSociales.t :=
  match init_de_la_clase with
  | Some InitLinea571 => Some (init_linea_571 df_completo)
  | Some InitLinea1312 => None
  | None => None
  end.

(** The column read for a deprivation name of [_aplicar_filtros_basicos]. *)
Definition carencia_map (carencia : str) : option (Persona -> str) :=
  if eqb carencia (py "salud")
  then Some Col.presencia_carencia_salud_persona
  else if eqb carencia (py "educacion")
  then Some Col.presencia_rezago_educativo_persona
  else if eqb carencia (py "seguridad_social")
  then Some Col.presencia_carencia_seguridad_social_persona
  else None.

Open Scope Z_scope.

(** [_clasificar_vulnerabilidad]: the mean prevalence
    [sum / len / total * 100] against 60, 45 and 30, on exact rationals. *)
Definition _clasificar_vulnerabilidad (carencias : list (str * Z)) (total : Z)
  : str :=
  if total =? 0 then py "Sin datos"
  else
    let s := suma (map snd carencias) * 100 in
    let d := Z.of_nat (List.length carencias) * total in
    if 60 * d <? s then py "Muy Alta"
    else if 45 * d <? s then py "Alta"
    else if 30 * d <? s then py "Moderada"
    else py "Baja".

(** Rows of [df] whose value in the column read by [f] is ['yes']. *)
Definition cuantos_yes (f : Persona -> str) (df : DataFrame) : Z :=
  Z.of_nat (List.length (filter (fun p => es_yes (f p)) (filas df))).

(** [_caracterizar_colonia] *)
Definition _caracterizar_colonia (df_colonia : DataFrame)
  : option Caracteristicas.t :=
  if 0 <? len df_colonia then
    let carencias_col :=
      [ (py "salud", cuantos_yes Col.presencia_carencia_salud_persona df_colonia);
        (py "educacion",
         cuantos_yes Col.presencia_rezago_educativo_persona df_colonia);
        (py "seguridad_social",
         cuantos_yes Col.presencia_carencia_seguridad_social_persona
           df_colonia) ] in
    Some (Caracteristicas.mk
            (_clasificar_vulnerabilidad carencias_col (len df_colonia))
            carencias_col)
  else None.

(** The neighbourhoods of the rows that have one. *)
Definition colonias (df : DataFrame) : list str :=
  presentes (map Col.colonia (filas df)).

(** [_obtener_ranking_colonia]: the position of [ubicacion] in the
    index of [value_counts], by equality of strings; [None] is the
    empty dictionary of the [except] branch. *)
Definition _obtener_ranking_colonia (df : DataFrame) (ubicacion : str)
  : option Ranking.t :=
  let colonias_ranking := value_counts eqb (colonias df) in
  match index_of eqb ubicacion (map fst colonias_ranking) with
  | Some i =>
      match buscar_conteo eqb ubicacion colonias_ranking with
      | Some poblacion_colonia =>
          Some (Ranking.mk (Z.of_nat i + 1)
                  (Z.of_nat (List.length colonias_ranking))
                  (Z.of_nat poblacion_colonia))
      | None => None
      end
  | None => None
  end.

Close Scope Z_scope.
Close Scope string_scope.

(* ----------------------------------------------------------------- *)
(** *** Inter-neighbourhood comparison *)

Open Scope Z_scope.

(** [a < b] on strings: lexicographic on code points. *)
Fixpoint str_ltb (a b : str) : bool :=
  match a, b with
  | _, [] => false
  | [], _ :: _ => true
  | x :: a', y :: b' => (x <? y)%N || ((x =? y)%N && str_ltb a' b')
  end.

Fixpoint insertar_por_clave (x : str * nat) (l : list (str * nat))
  : list (str * nat) :=
  match l with
  | [] => [x]
  | y :: l' =>
      if str_ltb (fst y) (fst x) then y :: insertar_por_clave x l'
      else x :: l
  end.

(** [df.groupby('colonia')]: the groups with their sizes, keys in
    ascending order; rows without a neighbourhood belong to no group. *)
Definition grupos_por_colonia (df : DataFrame) : list (str * nat) :=
  fold_right insertar_por_clave [] (contar eqb (colonias df)).

Definition en_colonia (nombre : str) (p : Persona) : bool :=
  match Col.colonia p with
  | Some c => eqb c nombre
  | None => false
  end.

Fixpoint insertar_por_elegibles (x : FilaComparativa.t)
  (l : list FilaComparativa.t) : list FilaComparativa.t :=
  match l with
  | [] => [x]
  | y :: l' =>
      if FilaComparativa.elegibles x <? FilaComparativa.elegibles y
      then y :: insertar_por_elegibles x l'
      else x :: l
  end.

(** [next((i+1 for i, x in enumerate(data) if cond(x)), None)], with
    the first position numbered [desde]. *)
Fixpoint primera_posicion (cond : FilaComparativa.t -> bool) (desde : Z)
  (data : list FilaComparativa.t) : option Z :=
  match data with
  | [] => None
  | x :: data' =>
      if cond x then Some desde else primera_posicion cond (desde + 1) data'
  end.

(** [_generar_comparativa]; [None] when the call raises.  Without a
    group, [groupby('colonia').apply] gives an empty table, whose items
    are its columns, and reading [datos['total']] raises KeyError; with
    a group, the function applied reads the column of the program,
    which raises KeyError when the table does not have it.
    [str_lower] is [str.lower]. *)
Definition _generar_comparativa (str_lower : str -> str)
  (programa ubicacion : str) (df_filtrado : DataFrame)
  : option Comparativa.t :=
  let columna_programa := columna_de_programa programa in
  match grupos_por_colonia df_filtrado with
  | [] => None
  | _ :: _ =>
      if negb (mem columna_programa (columns df_filtrado)) then None
      else
      let comparativa_data :=
        map (fun g =>
               let elegibles :=
                 Z.of_nat (List.length
                             (filter (fun p => en_colonia (fst g) p
                                               && otra_es_yes columna_programa p)
                                (filas df_filtrado))) in
               FilaComparativa.mk (fst g) elegibles
                 (porcentaje_de 1 elegibles (Z.of_nat (snd g))))
            (filter (fun g => (0 <? snd g)%nat)
               (grupos_por_colonia df_filtrado)) in
      let comparativa_data :=
        fold_right insertar_por_elegibles [] comparativa_data in
      Some (Comparativa.mk
              (firstn 5 comparativa_data)
              (primera_posicion
                 (fun x => eqb (str_lower (FilaComparativa.colonia x))
                             (str_lower ubicacion))
                 1 comparativa_data)
              (Z.of_nat (List.length comparativa_data)))
  end.

Open Scope string_scope.

(** The deprivation columns with the names section 3 reports them by. *)
Definition carencias : list (str * (Persona -> str) * str) :=
  [ (py "presencia_carencia_salud_persona",
     Col.presencia_carencia_salud_persona, py "Salud");
    (py "presencia_rezago_educativo_persona",
     Col.presencia_rezago_educativo_persona, py "Educación");
    (py "presencia_carencia_seguridad_social_persona",
     Col.presencia_carencia_seguridad_social_persona,
     py "Seguridad Social") ].

(** [total_carencias] of a row: how many of the deprivation columns
    that the table has are ['yes']. *)
Definition total_carencias (cols : list str) (p : Persona) : Z :=
  suma (map (fun c => if es_yes (snd (fst c) p) then 1 else 0)
          (filter (fun c => mem (fst (fst c)) cols) carencias)).

(** [len(df[df['total_carencias'] == k])] *)
Definition personas_con (k : Z) (df : DataFrame) : Z :=
  Z.of_nat (List.length
              (filter (fun p => (total_carencias (columns df) p =? k)%Z) (filas df))).

Close Scope string_scope.
Close Scope Z_scope.

(* ================================================================= *)
(** ** Cross-tabulation engine *)

Open Scope string_scope.
Open Scope Z_scope.

Definition bins : list Z := [0; 18; 30; 45; 60; 75; 120].

Definition labels : list str :=
  [ py "0-17 años"; py "18-29 años"; py "30-44 años"; py "45-59 años";
    py "60-74 años"; py "75+ años" ].

(** [bins.searchsorted(x, side='right')] on ascending edges: how many
    edges are at most [x]. *)
Fixpoint searchsorted_right (edges : list Z) (x : Z) : nat :=
  match edges with
  | [] => O
  | b :: edges' => if b <=? x then S (searchsorted_right edges' x) else O
  end.

(** [pd.cut(x, bins=edges, labels=names, right=False)] of one value.
    A value below the first edge or not below the last one falls in no
    interval and becomes missing ([None]). *)
Definition cut (edges : list Z) (names : list str) (x : Z) : option str :=
  let ids := searchsorted_right edges x in
  if ((ids =? 0) || (ids =? List.length edges))%nat then None
  else nth_error names (ids - 1).

(** The group that [_agrupar_edades] writes in place of an age. *)
Definition edad_grupo (edad : Z) : option str := cut bins labels edad.

(** [_agrupar_edades]: every row with the group that replaces its
    [edad_persona]. *)
Definition _agrupar_edades (df : DataFrame) : list (Persona * option str) :=
  map (fun p => (p, edad_grupo (Col.edad_persona p))) (filas df).

(** [_aplicar_filtros_tabla_cruzada]; the sex is compared as given and
    there is no location key. *)
Definition _aplicar_filtros_tabla_cruzada (df : DataFrame) (filtros : Criterios)
  : DataFrame :=
  let paso (aplica : bool) (mask : Persona -> bool) (d : DataFrame) :=
    if aplica then seleccionar mask d else d in
  let d := paso (carencia_salud filtros)
             (fun p => es_yes (Col.presencia_carencia_salud_persona p)) df in
  let d := paso (carencia_educacion filtros)
             (fun p => es_yes (Col.presencia_rezago_educativo_persona p)) d in
  let d := paso (carencia_seguridad_social filtros)
             (fun p => es_yes (Col.presencia_carencia_seguridad_social_persona p))
             d in
  let d := match rango_edad filtros with
           | Some r => seleccionar (en_rango_edad r) d
           | None => d
           end in
  let d := match dado (sexo filtros) with
           | Some s => seleccionar (es_sexo s) d
           | None => d
           end in
  match dado (programa_social filtros) with
  | Some programa =>
      let columna_programa := columna_de_programa programa in
      if mem columna_programa (columns d)
      then seleccionar (otra_es_yes columna_programa) d
      else d
  | None => d
  end.

(** The label of a row in a column, as the table prints it; [None] is a
    missing value. *)
Definition valor_columna (col : str) (p : Persona) : option str :=
  if eqb col (py "id_hogar") then Some (str_of_Z (Col.id_hogar p))
  else if eqb col (py "edad_persona") then Some (str_of_Z (Col.edad_persona p))
  else if eqb col (py "sexo_persona") then Some (Col.sexo_persona p)
  else if eqb col (py "colonia") then Col.colonia p
  else if eqb col (py "ageb") then Col.ageb p
  else if eqb col (py "ubicacion") then Col.ubicacion p
  else if eqb col (py "presencia_carencia_salud_persona")
  then Some (Col.presencia_carencia_salud_persona p)
  else if eqb col (py "presencia_rezago_educativo_persona")
  then Some (Col.presencia_rezago_educativo_persona p)
  else if eqb col (py "presencia_carencia_seguridad_social_persona")
  then Some (Col.presencia_carencia_seguridad_social_persona p)
  else buscar col (Col.otras p).

(** The label of a row in a column after [_agrupar_edades]. *)
Definition valor_agrupado (col : str) (pg : Persona * option str)
  : option str :=
  if eqb col (py "edad_persona") then snd pg else valor_columna col (fst pg).

(** The rows that [pd.crosstab] counts, as (row label, column label):
    a row with a missing value on either axis is left out of the cells
    and of the margins. *)
Fixpoint pares_contados (l : list (option str * option str))
  : list (str * str) :=
  match l with
  | [] => []
  | (Some f, Some c) :: l' => (f, c) :: pares_contados l'
  | _ :: l' => pares_contados l'
  end.

(** What [analizar_tabla_cruzada] returns: one of its error
    dictionaries, the table, given by the label pairs it counts, or the
    error dictionary of its [except] branch. *)
Inductive ResultadoTabla :=
| ErrorTabla (error : str)
| TablaCruzada (pares : list (str * str))
| ExcepcionTabla.

(** [tabla_conteos[fila][col]] *)
Definition conteo_celda (pares : list (str * str)) (fila col : str) : Z :=
  Z.of_nat (List.length
              (filter (fun fc => eqb (fst fc) fila && eqb (snd fc) col) pares)).

(** [tabla_conteos[fila]['Total']] *)
Definition total_fila (pares : list (str * str)) (fila : str) : Z :=
  Z.of_nat (List.length (filter (fun fc => eqb (fst fc) fila) pares)).

(** [resumen['total_registros']], the cell ['Total', 'Total']. *)
Definition total_registros (pares : list (str * str)) : Z :=
  Z.of_nat (List.length pares).

(** The result for the label pairs counted.  Without a pair the table
    has no ['Total'] cell: the body raises and the [except] branch
    returns its error dictionary. *)
Definition tabla_de (pares : list (str * str)) : ResultadoTabla :=
  match pares with
  | [] => ExcepcionTabla
  | _ :: _ => TablaCruzada pares
  end.

(** [analizar_tabla_cruzada].  [filtros] is [None] for a missing or
    empty dictionary. *)
Definition analizar_tabla_cruzada (df : DataFrame)
  (variable_filas variable_columnas : str) (filtros : option Criterios)
  (agrupar_edad : bool) : ResultadoTabla :=
  if negb (mem variable_filas (columns df)) then
    ErrorTabla (py "Variable '" ++ variable_filas
                  ++ py "' no existe en el dataset")%list
  else if negb (mem variable_columnas (columns df)) then
    ErrorTabla (py "Variable '" ++ variable_columnas
                  ++ py "' no existe en el dataset")%list
  else
    let df_filtrado :=
      match filtros with
      | Some f => _aplicar_filtros_tabla_cruzada df f
      | None => df
      end in
    if len df_filtrado =? 0 then
      ErrorTabla (py "No hay registros después de aplicar los filtros")
    else if (eqb variable_filas (py "edad_persona")
             || eqb variable_columnas (py "edad_persona")) && agrupar_edad
    then
      tabla_de
        (pares_contados
           (map (fun pg => (valor_agrupado variable_filas pg,
                            valor_agrupado variable_columnas pg))
              (_agrupar_edades df_filtrado)))
    else
      tabla_de
        (pares_contados
           (map (fun p => (valor_columna variable_filas p,
                           valor_columna variable_columnas p))
              (filas df_filtrado))).

Close Scope Z_scope.
Close Scope string_scope.

(* ================================================================= *)
(** ** Demographic profiler ([AnalizadorDemografico]) *)

Open Scope Z_scope.

Module Perfil.
(** The profile dictionary; [edad_promedio] in tenths,
    [personas_por_hogar] in hundredths. *)
Record t := mk {
  total_personas : Z;
  edad_promedio : Z;
  distribucion_sexo : list (str * Z);
  hogares_afectados : Z;
  personas_por_hogar : Z
}.
End Perfil.

Definition a_enteros {A : Type} (l : list (A * nat)) : list (A * Z) :=
  map (fun kv => (fst kv, Z.of_nat (snd kv))) l.

(** [generar_perfil_segmento]; [None] is the empty dictionary [{}]
    returned for an empty segment. *)
Definition generar_perfil_segmento (df_segmento : DataFrame)
  : option Perfil.t :=
  if len df_segmento =? 0 then None
  else
    let edad_prom := mean (edades df_segmento) in
    let personas_hogar_prom :=
      mean (map (fun g => Z.of_nat (snd g))
              (contar Z.eqb (map Col.id_hogar (filas df_segmento)))) in
    let distrib_sexo :=
      value_counts eqb (map Col.sexo_persona (filas df_segmento)) in
    Some (Perfil.mk
            (len df_segmento)
            (match round_mean 1 edad_prom with Some r => r | None => 0 end)
            (a_enteros distrib_sexo)
            (nunique Z.eqb (map Col.id_hogar (filas df_segmento)))
            (match round_mean 2 personas_hogar_prom with
             | Some r => r
             | None => 0
             end)).

Close Scope Z_scope.

(* ================================================================= *)
(** ** Regular expressions of the location filter

    [Series.str.contains(pat, case=False, na=False)] compiles [pat] with
    Python's [re] under [re.IGNORECASE] before it looks at any row, and
    raises [re.error] on a malformed pattern; a row matches when
    [search] finds the pattern in its value, and a missing value does not
    match.  The engine is a parameter of the development. *)

Section Analizador.

Context {Regex : Type}.
(** [re.compile(pat, re.IGNORECASE)]; [None] when it raises. *)
Variable re_compile : str -> option Regex.
(** [regex.search(valor) is not None] *)
Variable re_search : Regex -> str -> bool.
(** [str.lower], applied by the comparison between neighbourhoods to
    the names of the table. *)
Variable str_lower : str -> str.

Definition str_contains (r : Regex) (valor : option str) : bool :=
  match valor with
  | Some s => re_search r s
  | None => false
  end.

(** The mask over [colonia], [ageb] and [ubicacion]. *)
Definition mascara_ubicacion (r : Regex) (p : Persona) : bool :=
  str_contains r (Col.colonia p)
  || str_contains r (Col.ageb p)
  || str_contains r (Col.ubicacion p).

(* --------------------------------------------------------------- *)
(** ** Population filter ([DelimitadorPoblacional]) *)

Open Scope string_scope.

Definition condicion_edad (criterios : Criterios) : list (Persona -> bool) :=
  match rango_edad criterios with
  | Some r => [en_rango_edad r]
  | None => []
  end.

Definition condicion_sexo (criterios : Criterios) : list (Persona -> bool) :=
  match dado (sexo criterios) with
  | Some s => [es_sexo (sexo_map s)]
  | None => []
  end.

(** [None] when compiling the location pattern raises. *)
Definition condicion_ubicacion (criterios : Criterios)
  : option (list (Persona -> bool)) :=
  match dado (ubicacion criterios) with
  | Some pat =>
      match re_compile pat with
      | Some r => Some [mascara_ubicacion r]
      | None => None
      end
  | None => Some []
  end.

Definition condiciones_carencias (criterios : Criterios)
  : list (Persona -> bool) :=
  ((if carencia_salud criterios
    then [fun p => es_yes (Col.presencia_carencia_salud_persona p)]
    else [])
   ++ (if carencia_educacion criterios
       then [fun p => es_yes (Col.presencia_rezago_educativo_persona p)]
       else [])
   ++ (if carencia_seguridad_social criterios
       then [fun p =>
               es_yes (Col.presencia_carencia_seguridad_social_persona p)]
       else []))%list.

(** The program criterion is appended only when its eligibility
    column is a column of the table. *)
Definition condicion_programa (cols : list str) (criterios : Criterios)
  : list (Persona -> bool) :=
  match dado (programa_social criterios) with
  | Some programa =>
      let programa_columna := columna_de_programa programa in
      if mem programa_columna cols then [otra_es_yes programa_columna]
      else []
  | None => []
  end.

(** The list [condiciones] at the end of [aplicar_filtros]. *)
Definition condiciones (cols : list str) (criterios : Criterios)
  : option (list (Persona -> bool)) :=
  match condicion_ubicacion criterios with
  | Some cu =>
      Some (condicion_edad criterios ++ condicion_sexo criterios ++ cu
            ++ condiciones_carencias criterios
            ++ condicion_programa cols criterios)%list
  | None => None
  end.

(** [mascara_final]: the conjunction of the masks, in order. *)
Definition mascara_final (c0 : Persona -> bool) (cs : list (Persona -> bool))
  : Persona -> bool :=
  fold_left (fun m cond p => m p && cond p) cs c0.

(** [aplicar_filtros]; [None] when the call raises. *)
Definition aplicar_filtros (df : DataFrame) (criterios : Criterios)
  : option DataFrame :=
  match condiciones (columns df) criterios with
  | None => None
  | Some [] => Some df
  | Some (c0 :: cs) => Some (seleccionar (mascara_final c0 cs) df)
  end.

Close Scope string_scope.

(* --------------------------------------------------------------- *)
(** ** Eligibility analysis ([AnalizadorProgramasSociales]) *)

Open Scope string_scope.
Open Scope Z_scope.

(** [_aplicar_filtros_basicos]; [None] when the call raises. *)
Definition _aplicar_filtros_basicos (df : DataFrame)
  (rango_edad : option (Z * Z)) (ubicacion sexo carencia : option str)
  : option DataFrame :=
  let df_filtrado :=
    match rango_edad with
    | Some r => seleccionar (en_rango_edad r) df
    | None => df
    end in
  let df_filtrado :=
    match dado sexo with
    | Some s => seleccionar (es_sexo (sexo_map s)) df_filtrado
    | None => df_filtrado
    end in
  let df_filtrado :=
    match dado ubicacion with
    | Some pat =>
        match re_compile pat with
        | Some r => Some (seleccionar (mascara_ubicacion r) df_filtrado)
        | None => None
        end
    | None => Some df_filtrado
    end in
  match df_filtrado with
  | Some df_filtrado =>
      Some match dado carencia with
           | Some c =>
               match carencia_map c with
               | Some columna =>
                   seleccionar (fun p => es_yes (columna p)) df_filtrado
               | None => df_filtrado
               end
           | None => df_filtrado
           end
  | None => None
  end.

(** [_obtener_contexto_colonia]; [None] when the call raises. *)
Definition _obtener_contexto_colonia (df : DataFrame) (ubicacion : str)
  : option Contexto.t :=
  match re_compile ubicacion with
  | Some r =>
      let df_colonia := seleccionar (mascara_ubicacion r) df in
      Some (Contexto.mk
              (len df_colonia)
              (nunique Z.eqb (map Col.id_hogar (filas df_colonia)))
              (round_mean 1 (mean (edades df_colonia)))
              (_obtener_ranking_colonia df ubicacion)
              (_caracterizar_colonia df_colonia))
  | None => None
  end.

Definition seccion_1 (df df_filtrado df_elegibles : DataFrame)
  : PoblacionElegible.t :=
  let total_elegibles := len df_elegibles in
  let total_poblacion := len df_filtrado in
  PoblacionElegible.mk
    total_elegibles
    (if 0 <? total_poblacion
     then porcentaje_de 2 total_elegibles total_poblacion else 0)
    (if 0 <? total_elegibles
     then nunique Z.eqb (map Col.id_hogar (filas df_elegibles)) else 0)
    (if 0 <? len df
     then porcentaje_de 2 total_elegibles (len df) else 0).

Definition seccion_2 (df_elegibles : DataFrame) : PerfilElegibles.t :=
  let total_elegibles := len df_elegibles in
  match edades df_elegibles with
  | e :: es =>
      let conteo_sexo :=
        value_counts eqb (map Col.sexo_persona (filas df_elegibles)) in
      PerfilElegibles.mk
        (redondear 1 (suma (e :: es)) total_elegibles)
        (minimo e es)
        (maximo e es)
        (a_enteros conteo_sexo)
        (map (fun kv =>
                (fst kv, porcentaje_de 1 (Z.of_nat (snd kv)) total_elegibles))
           conteo_sexo)
  | [] => PerfilElegibles.mk 0 0 0 [] []
  end.

Definition seccion_3 (df_elegibles : DataFrame) : list (str * Conteo.t) :=
  let total_elegibles := len df_elegibles in
  map (fun c =>
         let total_con_carencia := cuantos_yes (snd (fst c)) df_elegibles in
         (snd c,
          Conteo.mk total_con_carencia
            (if 0 <? total_elegibles
             then porcentaje_de 2 total_con_carencia total_elegibles
             else 0)))
    (filter (fun c => mem (fst (fst c)) (columns df_elegibles)) carencias).

(** [mapeo.get(programa, programa)] *)
Definition nombre_de_programa (mapeo : list (str * str)) (programa : str)
  : str :=
  match buscar programa mapeo with
  | Some nombre => nombre
  | None => programa
  end.

(** [analizar_elegibilidad_programa]; [None] when the call raises: in
    the filters, in the context or the comparison of a location, or
    when it reads an attribute that [self] does not have.  The
    parameters [incluir_brecha] and [segmentacion_geografica] are not
    read by the body. *)
Definition analizar_elegibilidad_programa
  (self : AnalizadorProgramasSociales.t) (programa : str)
  (rango_edad : option (Z * Z)) (ubicacion sexo carencia : option str)
  : option ResultadoElegibilidad :=
  let df := AnalizadorProgramasSociales.df self in
  let columna_programa := columna_de_programa programa in
  if negb (mem columna_programa (columns df)) then
    match AnalizadorProgramasSociales.programas_nombres self,
          AnalizadorProgramasSociales.programas_disponibles self with
    | Some programas_nombres, Some programas_disponibles =>
        Some (ErrorProgramaNoEncontrado
                (py "Programa '" ++ programa ++ py "' no encontrado")%list
                programas_nombres programas_disponibles)
    | _, _ => None
    end
  else
    match _aplicar_filtros_basicos df rango_edad ubicacion sexo carencia with
    | None => None
    | Some df_filtrado =>
        if len df_filtrado =? 0 then
          Some (ErrorSinPersonas
                  (py "No hay personas que cumplan los criterios especificados"))
        else
          let df_elegibles :=
            seleccionar (otra_es_yes columna_programa) df_filtrado in
          let resultado contexto_colonia comparativa :=
            match AnalizadorProgramasSociales.mapeo_programas self with
            | Some mapeo_programas =>
                Some (ResultadoElegibilidadOk
                        (Elegibilidad.mk programa
                           (nombre_de_programa mapeo_programas programa)
                           (CriteriosAplicados.mk rango_edad ubicacion sexo
                              carencia)
                           (seccion_1 df df_filtrado df_elegibles)
                           (seccion_2 df_elegibles)
                           (seccion_3 df_elegibles)
                           contexto_colonia comparativa))
            | None => None
            end in
          match dado ubicacion with
          | Some u =>
              match _obtener_contexto_colonia df u with
              | Some contexto =>
                  match _generar_comparativa str_lower programa u
                          df_filtrado with
                  | Some comparativa =>
                      resultado (Some contexto) (Some comparativa)
                  | None => None
                  end
              | None => None
              end
          | None => resultado None None
          end
    end.

(* --------------------------------------------------------------- *)
(** ** Intensity of deprivations *)

(** The subset [df_analisis] that the intensity analysis counts over;
    [None] when filtering raises. *)
Definition subconjunto_intensidad (df : DataFrame)
  (rango_edad : option (Z * Z)) (ubicacion : option str)
  : option DataFrame :=
  let df_analisis :=
    match rango_edad with
    | Some r => seleccionar (en_rango_edad r) df
    | None => df
    end in
  match dado ubicacion with
  | Some pat =>
      match re_compile pat with
      | Some r => Some (seleccionar (mascara_ubicacion r) df_analisis)
      | None => None
      end
  | None => Some df_analisis
  end.

Definition conteo_intensidad (personas total_personas : Z) : Conteo.t :=
  Conteo.mk personas
    (if 0 <? total_personas
     then porcentaje_de 2 personas total_personas else 0).

(** [analizar_intensidad_carencias]: an exception of the body is
    caught and turned into the error dictionary. *)
Definition analizar_intensidad_carencias (df : DataFrame)
  (rango_edad : option (Z * Z)) (ubicacion : option str)
  : ResultadoIntensidad :=
  match subconjunto_intensidad df rango_edad ubicacion with
  | Some df_analisis =>
      let total_personas := len df_analisis in
      IntensidadOk
        (Intensidad.mk
           (conteo_intensidad (personas_con 0 df_analisis) total_personas)
           (conteo_intensidad (personas_con 1 df_analisis) total_personas)
           (conteo_intensidad (personas_con 2 df_analisis) total_personas)
           (conteo_intensidad (personas_con 3 df_analisis) total_personas)
           (conteo_intensidad (personas_con 3 df_analisis) total_personas))
  | None => IntensidadError
  end.

Close Scope Z_scope.
Close Scope string_scope.

End Analizador.

(* ================================================================= *)
(** ** What the translator is expected to keep, per category *)

Definition valor_rango_edad (m : Mapeo) : option (Z * Z) :=
  match m with RangoEdad v => Some v | _ => None end.

Definition valor_sexo (m : Mapeo) : option str :=
  match m with Sexo v => Some v | _ => None end.

Definition valor_programa (m : Mapeo) : option str :=
  match m with Programa v => Some v | _ => None end.

(** The value of the first phrase of a category found in the text, in
    the order the phrases are evaluated. *)
Fixpoint primer_valor {V : Type} (extrae : Mapeo -> option V) (texto : str)
  (ts : list (str * Mapeo)) : option V :=
  match ts with
  | [] => None
  | t :: ts' =>
      match (if contains (fst t) texto then extrae (snd t) else None) with
      | Some v => Some v
      | None => primer_valor extrae texto ts'
      end
  end.

(** The value of the last phrase of a category found in the text. *)
Fixpoint ultimo_valor {V : Type} (extrae : Mapeo -> option V) (texto : str)
  (ts : list (str * Mapeo)) : option V :=
  match ts with
  | [] => None
  | t :: ts' =>
      match ultimo_valor extrae texto ts' with
      | Some v => Some v
      | None => if contains (fst t) texto then extrae (snd t) else None
      end
  end.

(* ================================================================= *)
(** ** A literal engine and a small table, to run the analyses *)

(** Patterns without metacharacters: the pattern is found when its text
    occurs in the value, letter case aside. *)
Definition literal_compile (pat : str) : option str := Some (lower pat).

Definition literal_search (r : str) (valor : str) : bool :=
  contains r (lower valor).

Open Scope string_scope.
Open Scope Z_scope.

Definition columnas_ejemplo : list str :=
  [ py "id_hogar"; py "edad_persona"; py "sexo_persona"; py "colonia";
    py "ageb"; py "ubicacion";
    py "presencia_carencia_salud_persona";
    py "presencia_rezago_educativo_persona";
    py "presencia_carencia_seguridad_social_persona";
    py "es_elegible_pension_adultos_mayores";
    py "es_elegible_imss_bienestar" ].

Definition persona_ejemplo (hogar edad : Z) (sexo colonia : string)
  (salud educacion seguridad pension imss : string) : Persona :=
  Col.mkPersona hogar edad (py sexo) (Some (py colonia)) (Some (py "0123"))
    (Some (py "Zona Norte")) (py salud) (py educacion) (py seguridad)
    [ (py "es_elegible_pension_adultos_mayores", py pension);
      (py "es_elegible_imss_bienestar", py imss) ].

Definition tabla_ejemplo : DataFrame :=
  mkDataFrame columnas_ejemplo
    [ persona_ejemplo 1 70 "Mujer" "Centro" "yes" "no" "yes" "yes" "no";
      persona_ejemplo 1 34 "Hombre" "Centro" "no" "no" "yes" "no" "yes";
      persona_ejemplo 2 8 "Mujer" "Centro" "no" "no" "no" "no" "no";
      persona_ejemplo 3 120 "Mujer" "San Pedro" "yes" "yes" "yes" "yes" "yes";
      persona_ejemplo 4 66 "Hombre" "San Pedro" "no" "yes" "no" "no" "no" ].

(** The same columns and no row. *)
Definition tabla_vacia : DataFrame := mkDataFrame columnas_ejemplo [].

Definition solo_rango_edad (r : Z * Z) : Criterios :=
  mkCriterios (Some r) None None false false false None None None.

(** The four counts of a distribution, added. *)
Definition suma_cantidades (r : Intensidad.t) : Z :=
  Conteo.cantidad (Intensidad.sin_carencias r)
  + Conteo.cantidad (Intensidad.una_carencia r)
  + Conteo.cantidad (Intensidad.dos_carencias r)
  + Conteo.cantidad (Intensidad.tres_carencias r).

(** The four percentages of a distribution, added (hundredths). *)
Definition suma_porcentajes (r : Intensidad.t) : Z :=
  Conteo.porcentaje (Intensidad.sin_carencias r)
  + Conteo.porcentaje (Intensidad.una_carencia r)
  + Conteo.porcentaje (Intensidad.dos_carencias r)
  + Conteo.porcentaje (Intensidad.tres_carencias r).

Close Scope Z_scope.
Close Scope string_scope.

(* ================================================================= *)
(** ** Criteria validator ([validar_variables_mejorado]) *)

Open Scope string_scope.
Open Scope Z_scope.

(** The loop over the detected variables: a column of the table is
    valid; a name that starts with [rango_edad_] or contains
    [multiple_carencias] is a concept and goes to neither list; any
    other name is invalid.  The pair is (validas, invalidas). *)
Fixpoint clasificar_variables (cols : list str) (variables : list str)
  : list str * list str :=
  match variables with
  | [] => ([], [])
  | var :: resto =>
      let vi := clasificar_variables cols resto in
      if mem var cols then (var :: fst vi, snd vi)
      else if startswith var (py "rango_edad_") then vi
      else if contains (py "multiple_carencias") var then vi
      else (fst vi, var :: snd vi)
  end.

Module Validacion.
Record t := mk {
  criterios : Criterios;
  variables_validas : list str;
  variables_invalidas : list str;
  criterios_validos : bool;
  columnas_validas : bool;
  ejecutable : bool
}.
End Validacion.

(** [validar_variables_mejorado], on the result of a translation. *)
Definition validar_variables_mejorado (df : DataFrame) (traduccion : Traduccion)
  : Validacion.t :=
  let criterios := criterios_demograficos traduccion in
  let vi := clasificar_variables (columns df) (variables_detectadas traduccion) in
  let criterios_validos := hay_criterios criterios in
  let sin_invalidas := match snd vi with [] => true | _ :: _ => false end in
  Validacion.mk criterios (fst vi) (snd vi) criterios_validos sin_invalidas
    (criterios_validos && sin_invalidas).

(** The column names that the directives of the dictionary put among
    the detected variables. *)
Definition columnas_referidas : list str :=
  flat_map (fun t =>
              match snd t with
              | Sexo _ => [py "sexo_persona"]
              | Columna valor _ => [valor]
              | Programa valor => [columna_de_programa valor]
              | _ => []
              end)
    _mapear_grupos_poblacionales.

(* ================================================================= *)
(** ** Slices and sorted lists *)

(** [l[:n]] and [Series.head(n)]: the first [n] elements, or all but
    the last [-n] when [n] is negative. *)
Definition hasta {A : Type} (n : Z) (l : list A) : list A :=
  if n <? 0 then firstn (List.length l - Z.to_nat (- n)) l
  else firstn (Z.to_nat n) l.

Fixpoint insertar_desc {A : Type} (clave : A -> Z) (x : A) (l : list A)
  : list A :=
  match l with
  | [] => [x]
  | y :: l' =>
      if clave x <? clave y then y :: insertar_desc clave x l' else x :: l
  end.

(** [sorted(l, key=clave, reverse=True)]: stable, largest key first. *)
Definition ordenar_desc {A : Type} (clave : A -> Z) (l : list A) : list A :=
  fold_right (insertar_desc clave) [] l.

Fixpoint insertar_asc {A : Type} (clave : A -> Z) (x : A) (l : list A)
  : list A :=
  match l with
  | [] => [x]
  | y :: l' =>
      if clave y <? clave x then y :: insertar_asc clave x l' else x :: l
  end.

(** Stable sort, smallest key first. *)
Definition ordenar_asc {A : Type} (clave : A -> Z) (l : list A) : list A :=
  fold_right (insertar_asc clave) [] l.

(** The labels of a column over the rows, missing values left out
    ([df[col].dropna()]). *)
Definition etiquetas (col : str) (df : DataFrame) : list str :=
  presentes (map (valor_columna col) (filas df)).

Module Zona.
(** A label with its count and its percentage, in hundredths. *)
Record t := mk {
  zona : str;
  conteo : Z;
  porcentaje : Z
}.
End Zona.

(** Counts with their percentage of [total]. *)
Definition con_porcentaje (total : Z) (conteos : list (str * nat))
  : list Zona.t :=
  map (fun kv => Zona.mk (fst kv) (Z.of_nat (snd kv))
                   (porcentaje_de 2 (Z.of_nat (snd kv)) total))
    conteos.

(* ================================================================= *)
(** ** Geographic distribution of a segment ([AnalizadorDemografico]) *)

Module DistribucionGeografica.
(** [top_colonias] holds [nombres], [conteos] and [porcentajes] side by
    side. *)
Record t := mk {
  top_colonias : list Zona.t;
  total_colonias_afectadas : Z
}.
End DistribucionGeografica.

(** [analizar_distribucion_geografica]; [None] is the empty dictionary
    of an empty segment.  The percentages are over all the rows of the
    segment. *)
Definition analizar_distribucion_geografica (df_segmento : DataFrame)
  (top_n : Z) : option DistribucionGeografica.t :=
  if len df_segmento =? 0 then None
  else
    let ranking_colonias := hasta top_n (value_counts eqb (colonias df_segmento)) in
    Some (DistribucionGeografica.mk
            (con_porcentaje (len df_segmento) ranking_colonias)
            (nunique eqb (colonias df_segmento))).

(* ================================================================= *)
(** ** Coverage by geographic level ([analizar_cobertura_geografica]) *)

Module CoberturaGeografica.
Record t := mk {
  programa : str;
  nivel_geografico : str;
  total_elegibles_analizados : Z;
  total_zonas_afectadas : Z;
  top_zonas : list Zona.t
}.
End CoberturaGeografica.



(* ================================================================= *)
(** ** Deprivations without coverage and program gaps: results *)

(** [_obtener_programas_por_carencia] *)
Definition _obtener_programas_por_carencia (carencia : str) : list str :=
  if eqb carencia (py "salud") then
    [py "imss_bienestar"; py "seguro_desempleo_cdmx";
     py "pension_adultos_mayores"]
  else if eqb carencia (py "educacion") then
    [py "mi_beca_para_empezar"; py "beca_rita_cetina"; py "beca_benito_juarez";
     py "jovenes_escribiendo_el_futuro"; py "inea"; py "desde_la_cuna"]
  else if eqb carencia (py "seguridad_social") then
    [py "pension_adultos_mayores"; py "pension_mujeres_bienestar";
     py "ingreso_ciudadano_universal"; py "seguro_desempleo_cdmx";
     py "imss_bienestar"]
  else [].

(** The name of the column that [carencia_map] reads for a
    deprivation. *)
Definition nombre_columna_carencia (carencia : str) : option str :=
  if eqb carencia (py "salud")
  then Some (py "presencia_carencia_salud_persona")
  else if eqb carencia (py "educacion")
  then Some (py "presencia_rezago_educativo_persona")
  else if eqb carencia (py "seguridad_social")
  then Some (py "presencia_carencia_seguridad_social_persona")
  else None.

(** [mascara_elegible]: eligible for some related program among those
    that have a column in the table; [None] when none has. *)
Definition mascara_elegible (cols : list str) (programas : list str)
  : option (Persona -> bool) :=
  fold_left
    (fun mascara programa =>
       let columna_programa := columna_de_programa programa in
       if mem columna_programa cols then
         match mascara with
         | None => Some (otra_es_yes columna_programa)
         | Some m => Some (fun p => m p || otra_es_yes columna_programa p)
         end
       else mascara)
    programas None.

Module PerfilBrecha.
(** The profile of a gap population; [edad_promedio] in tenths. *)
Record t := mk {
  edad_promedio : Z;
  edad_minima : Z;
  edad_maxima : Z;
  distribucion_sexo : list (str * Z);
  hogares_afectados : Z
}.
End PerfilBrecha.

(** [perfil_brecha]: the empty dictionary ([None]) for no row. *)
Definition perfil_brecha (df_brecha : DataFrame) : option PerfilBrecha.t :=
  match edades df_brecha with
  | e :: es =>
      Some (PerfilBrecha.mk
              (redondear 1 (suma (e :: es)) (len df_brecha))
              (minimo e es) (maximo e es)
              (a_enteros (value_counts eqb
                            (map Col.sexo_persona (filas df_brecha))))
              (nunique Z.eqb (map Col.id_hogar (filas df_brecha))))
  | [] => None
  end.

Module SinCobertura.
(** [tasa_brecha] in hundredths. *)
Record t := mk {
  carencia : str;
  total_personas_con_carencia : Z;
  total_personas_sin_cobertura : Z;
  tasa_brecha : Z;
  programas_relacionados_analizados : list str;
  perfil_brecha : option PerfilBrecha.t
}.
End SinCobertura.

(** What [identificar_carencias_sin_cobertura] returns: an error
    dictionary written by the body, the error dictionary of the
    [except] branch, or the result. *)
Inductive ResultadoSinCobertura :=
| ErrorSinCobertura (error : str)
| ExcepcionSinCobertura
| SinCoberturaOk (resultado : SinCobertura.t).

Module BrechaPrograma.
(** [tasa_brecha] in hundredths. *)
Record t := mk {
  programa : str;
  total_elegibles : Z;
  total_brecha : Z;
  tasa_brecha : Z;
  perfil_brecha : option PerfilBrecha.t
}.
End BrechaPrograma.

Inductive ResultadoBrecha :=
| ErrorBrecha (error : str)
| ExcepcionBrecha
| BrechaOk (resultado : BrechaPrograma.t).

(** [df['recibe_apoyos_sociales'] == 'no'] on a row. *)
Definition no_recibe_apoyos (p : Persona) : bool :=
  match buscar (py "recibe_apoyos_sociales") (Col.otras p) with
  | Some v => eqb v (py "no")
  | None => false
  end.

(* ================================================================= *)
(** ** Several programs at once: results *)

Module Comparativo.
Record t := mk {
  programa_mayor_elegibilidad : option str;
  ranking_elegibles : list str
}.
End Comparativo.

Module Multiple.
(** [analisis_comparativo] is [None] when it is the empty
    dictionary. *)
Record t := mk {
  analisis_individual : list (str * Elegibilidad.t);
  analisis_comparativo : option Comparativo.t;
  total_programas_analizados : Z;
  total_elegibles_todos : Z
}.
End Multiple.

(** [d[k] = v] on a dictionary kept in insertion order. *)
Fixpoint asignar {V : Type} (k : str) (v : V) (d : list (str * V))
  : list (str * V) :=
  match d with
  | [] => [(k, v)]
  | (k', v') :: d' =>
      if eqb k' k then (k', v) :: d' else (k', v') :: asignar k v d'
  end.

(** [total_elegibles] of an entry of [analisis_individual]. *)
Definition elegibles_de (kv : str * Elegibilidad.t) : Z :=
  PoblacionElegible.total_elegibles
    (Elegibilidad.seccion_1_poblacion_elegible (snd kv)).

(* ================================================================= *)
(** ** Complete flow: results *)

Module AnalisisGeografico.
Record t := mk {
  columna_geografica : str;
  total_ubicaciones : Z;
  top_ubicaciones : list Zona.t
}.
End AnalisisGeografico.

Module Flujo.
(** [porcentaje_poblacion_total] in hundredths; [error] is [None] when
    the key is absent, and so are the two analyses. *)
Record t := mk {
  criterios_aplicados : Criterios;
  total_personas_segmento : Z;
  porcentaje_poblacion_total : Z;
  error : option str;
  analisis_geografico : option AnalisisGeografico.t;
  perfil_demografico : option (option Perfil.t)
}.
End Flujo.

(** What [analizar_flujo_completo] returns: the dictionary
    [resultados], or the error dictionary of the [except] branch. *)
Inductive ResultadoFlujo :=
| FlujoOk (resultados : Flujo.t)
| ExcepcionFlujo.

(** [a or b] on optional strings. *)
Definition o_bien (a b : option str) : option str :=
  match dado a with
  | Some _ => a
  | None => b
  end.

(** The geographic analysis of the flow.  [sort_values] is taken as
    stable: equal counts stay in the order of [value_counts]. *)
Definition analisis_geografico_de (df_segmento : DataFrame) (geo_col : str)
  (orden : str) (limite : Z) : AnalisisGeografico.t :=
  let conteo_geografico := value_counts eqb (etiquetas geo_col df_segmento) in
  let conteo_geografico :=
    if eqb orden (py "descendente")
    then ordenar_desc (fun kv => Z.of_nat (snd kv)) conteo_geografico
    else ordenar_asc (fun kv => Z.of_nat (snd kv)) conteo_geografico in
  AnalisisGeografico.mk geo_col
    (Z.of_nat (List.length conteo_geografico))
    (con_porcentaje (len df_segmento) (hasta limite conteo_geografico)).

Close Scope Z_scope.
Close Scope string_scope.

Section AnalizadorComplementario.

Context {Regex : Type}.
Variable re_compile : str -> option Regex.
Variable re_search : Regex -> str -> bool.
Variable str_lower : str -> str.

Open Scope string_scope.
Open Scope Z_scope.

(** The people with the deprivation, after the age and location
    filters of [identificar_carencias_sin_cobertura]; [None] when
    filtering raises. *)
Definition poblacion_con_carencia (df : DataFrame) (columna : Persona -> str)
  (rango_edad : option (Z * Z)) (ubicacion : option str)
  : option DataFrame :=
  let df_con_carencia := seleccionar (fun p => es_yes (columna p)) df in
  let df_con_carencia :=
    match rango_edad with
    | Some r => seleccionar (en_rango_edad r) df_con_carencia
    | None => df_con_carencia
    end in
  match dado ubicacion with
  | Some pat =>
      match re_compile pat with
      | Some r => Some (seleccionar (mascara_ubicacion re_search r) df_con_carencia)
      | None => None
      end
  | None => Some df_con_carencia
  end.

(** [personas_sin_cobertura]: the people with the deprivation who are
    eligible for none of the related programs. *)
Definition personas_sin_cobertura (df df_con_carencia : DataFrame)
  (carencia : str) : DataFrame :=
  match mascara_elegible (columns df) (_obtener_programas_por_carencia carencia) with
  | None => df_con_carencia
  | Some m => seleccionar (fun p => negb (m p)) df_con_carencia
  end.

(** [identificar_carencias_sin_cobertura] *)
Definition identificar_carencias_sin_cobertura (df : DataFrame)
  (carencia : str) (rango_edad : option (Z * Z)) (ubicacion : option str)
  : ResultadoSinCobertura :=
  match carencia_map carencia, nombre_columna_carencia carencia with
  | Some columna, Some columna_carencia =>
      if negb (mem columna_carencia (columns df)) then
        ErrorSinCobertura
          (py "Columna de carencia no encontrada: " ++ columna_carencia)%list
      else if len (seleccionar (fun p => es_yes (columna p)) df) =? 0 then
        ErrorSinCobertura (py "No hay personas con carencia de " ++ carencia)%list
      else
        match poblacion_con_carencia df columna rango_edad ubicacion with
        | None => ExcepcionSinCobertura
        | Some df_con_carencia =>
            let total_con_carencia := len df_con_carencia in
            let programas_relacionados :=
              _obtener_programas_por_carencia carencia in
            match programas_relacionados with
            | [] =>
                ErrorSinCobertura
                  (py "No hay programas relacionados con carencia de "
                     ++ carencia)%list
            | _ :: _ =>
                let sin_cobertura :=
                  personas_sin_cobertura df df_con_carencia carencia in
                let total_sin_cobertura := len sin_cobertura in
                SinCoberturaOk
                  (SinCobertura.mk carencia total_con_carencia
                     total_sin_cobertura
                     (if 0 <? total_con_carencia
                      then porcentaje_de 2 total_sin_cobertura total_con_carencia
                      else 0)
                     programas_relacionados
                     (if 0 <? total_sin_cobertura
                      then perfil_brecha sin_cobertura else None))
            end
        end
  | _, _ =>
      ErrorSinCobertura
        (py "Carencia '" ++ carencia
           ++ py "' no reconocida. Válidas: ['salud', 'educacion', 'seguridad_social']")%list
  end.

(** [analizar_brechas_programa_grupo] *)
Definition analizar_brechas_programa_grupo (df : DataFrame) (programa : str)
  (rango_edad : option (Z * Z)) (ubicacion : option str) : ResultadoBrecha :=
  let columna_programa := columna_de_programa programa in
  if negb (mem columna_programa (columns df)) then
    ErrorBrecha (py "Programa '" ++ programa ++ py "' no encontrado")%list
  else
    match _aplicar_filtros_basicos re_compile re_search df rango_edad ubicacion
            None None with
    | None => ExcepcionBrecha
    | Some df_filtrado =>
        if len df_filtrado =? 0 then
          ErrorBrecha (py "No hay personas que cumplan los criterios iniciales")
        else
          let df_elegibles :=
            seleccionar (otra_es_yes columna_programa) df_filtrado in
          let total_elegibles := len df_elegibles in
          if total_elegibles =? 0 then
            BrechaOk (BrechaPrograma.mk programa 0 0 0 None)
          else if negb (mem (py "recibe_apoyos_sociales") (columns df_elegibles))
          then
            ErrorBrecha
              (py "Columna 'recibe_apoyos_sociales' no encontrada para calcular la brecha")
          else
            let df_brecha := seleccionar no_recibe_apoyos df_elegibles in
            let total_brecha := len df_brecha in
            BrechaOk
              (BrechaPrograma.mk programa total_elegibles total_brecha
                 (if 0 <? total_elegibles
                  then porcentaje_de 2 total_brecha total_elegibles else 0)
                 (if 0 <? total_brecha then perfil_brecha df_brecha else None))
    end.

(** The loop of [analizar_elegibilidad_multiple]: the results without
    an "error" key, by program; [None] when a call raises. *)
Fixpoint analizar_cada (self : AnalizadorProgramasSociales.t)
  (programas : list str)
  (rango_edad : option (Z * Z)) (ubicacion : option str)
  (resultados : list (str * Elegibilidad.t))
  : option (list (str * Elegibilidad.t)) :=
  match programas with
  | [] => Some resultados
  | programa :: resto =>
      match analizar_elegibilidad_programa re_compile re_search str_lower
              self programa rango_edad ubicacion None None with
      | None => None
      | Some (ResultadoElegibilidadOk resultado) =>
          analizar_cada self resto rango_edad ubicacion
            (asignar programa resultado resultados)
      | Some _ => analizar_cada self resto rango_edad ubicacion resultados
      end
  end.

(** [analizar_elegibilidad_multiple]; [None] when the call raises. *)
Definition analizar_elegibilidad_multiple
  (self : AnalizadorProgramasSociales.t)
  (programas : list str) (rango_edad : option (Z * Z))
  (ubicacion : option str) (top_n : Z) : option Multiple.t :=
  match analizar_cada self programas rango_edad ubicacion [] with
  | None => None
  | Some resultados =>
      let analisis_comparativo :=
        match resultados with
        | [] => None
        | _ :: _ =>
            let programas_ordenados :=
              map fst (ordenar_desc elegibles_de resultados) in
            Some (Comparativo.mk (hd_error programas_ordenados)
                    (hasta top_n programas_ordenados))
        end in
      Some (Multiple.mk resultados analisis_comparativo
              (Z.of_nat (List.length resultados))
              (suma (map elegibles_de resultados)))
  end.

(** [analizar_flujo_completo] *)
Definition analizar_flujo_completo (df : DataFrame)
  (criterios_demograficos : Criterios) (segmentacion : option str)
  (orden_defecto : str) (limite : Z) : ResultadoFlujo :=
  match aplicar_filtros re_compile re_search df criterios_demograficos with
  | None => ExcepcionFlujo
  | Some df_segmento =>
      let total_segmento := len df_segmento in
      let porcentaje :=
        if 0 <? len df then porcentaje_de 2 total_segmento (len df) else 0 in
      if total_segmento =? 0 then
        FlujoOk
          (Flujo.mk criterios_demograficos total_segmento porcentaje
             (Some (py "No se encontraron personas con los criterios especificados"))
             None None)
      else
        let geo_col :=
          o_bien segmentacion
            (segmentacion_geografica criterios_demograficos) in
        let orden :=
          match ordenamiento criterios_demograficos with
          | Some o => o
          | None => orden_defecto
          end in
        FlujoOk
          (Flujo.mk criterios_demograficos total_segmento porcentaje None
             (match dado geo_col with
              | Some g =>
                  if mem g (columns df_segmento)
                  then Some (analisis_geografico_de df_segmento g orden limite)
                  else None
              | None => None
              end)
             (Some (generar_perfil_segmento df_segmento)))
  end.

Close Scope Z_scope.
Close Scope string_scope.

End AnalizadorComplementario.

(* ================================================================= *)
(** ** Notions used to state the properties *)

(** The counts of a [value_counts], added. *)
Definition total_conteos {A : Type} (l : list (A * nat)) : nat :=
  fold_right (fun kv s => (snd kv + s)%nat) O l.

(** How many times a value occurs in a column. *)
Definition veces (x : str) (l : list str) : nat :=
  List.length (filter (eqb x) l).

(** The criteria set that says what the arguments of
    [_aplicar_filtros_basicos] say. *)
Definition criterios_basicos (rango : option (Z * Z))
  (ubic sexo_dado carencia : option str) : Criterios :=
  let es c :=
    match dado carencia with
    | Some v => eqb v c
    | None => false
    end in
  mkCriterios rango sexo_dado ubic
    (es (PyStr.py "salud"%string))
    (es (PyStr.py "educacion"%string))
    (es (PyStr.py "seguridad_social"%string))
    None None None.

(** A table with every column that the dictionary refers to. *)
Definition tabla_esquema : DataFrame :=
  mkDataFrame (PyStr.py "id_hogar"%string :: PyStr.py "edad_persona"%string
               :: columnas_referidas) [].

(** The example table with a column [recibe_apoyos_sociales]: only the
    first person receives support. *)
Definition tabla_apoyos : DataFrame :=
  mkDataFrame (PyStr.py "recibe_apoyos_sociales"%string :: columnas_ejemplo)
    (map (fun p =>
            Col.mkPersona (Col.id_hogar p) (Col.edad_persona p)
              (Col.sexo_persona p) (Col.colonia p) (Col.ageb p)
              (Col.ubicacion p) (Col.presencia_carencia_salud_persona p)
              (Col.presencia_rezago_educativo_persona p)
              (Col.presencia_carencia_seguridad_social_persona p)
              ((PyStr.py "recibe_apoyos_sociales"%string,
                if (Col.edad_persona p =? 70)%Z then PyStr.py "yes"%string
                else PyStr.py "no"%string) :: Col.otras p))
       (filas tabla_ejemplo)).

(** Whether a row has a label on an axis of the cross-tabulation: a
    grouped age has one when it lies in [0,120), any other value when
    it is not missing. *)
Definition etiqueta_presente (agrupar_edad : bool) (col : str) (p : Persona)
  : bool :=
  if eqb col (PyStr.py "edad_persona"%string) && agrupar_edad
  then (0 <=? Col.edad_persona p)%Z && (Col.edad_persona p <? 120)%Z
  else match valor_columna col p with
       | Some _ => true
       | None => false
       end.

(** The program names that the dictionary can put in the criteria. *)
Definition programas_del_diccionario : list str :=
  flat_map (fun t =>
              match snd t with
              | Programa valor => [valor]
              | _ => []
              end)
    _mapear_grupos_poblacionales.

(** Whether a phrase found in the text turns on a deprivation filter,
    by the test of [aplicar_filtro_carencia] that it passes: 0 for
    health, 1 for education, 2 for social security. *)
Definition filtro_de_termino (t : str * Mapeo) : option nat :=
  match snd t with
  | Columna _ (Some _) =>
      if contains (PyStr.py "salud"%string) (fst t) then Some 0%nat
      else if contains (PyStr.py "educación"%string) (fst t)
              || contains (PyStr.py "educacion"%string) (fst t)
              || contains (PyStr.py "rezago"%string) (fst t)
      then Some 1%nat
      else if contains (PyStr.py "seguridad_social"%string) (fst t)
              || contains (PyStr.py "social"%string) (fst t)
      then Some 2%nat
      else None
  | _ => None
  end.

(** Whether a term is found in the text and turns on the deprivation
    filter numbered [k]. *)
Definition enciende (texto : str) (k : nat) (t : str * Mapeo) : bool :=
  contains (fst t) texto
  && match filtro_de_termino t with
     | Some j => (j =? k)%nat
     | None => false
     end.

(** A detected variable that is an age-range concept or a column the
    dictionary refers to. *)
Definition variable_conocida (v : str) : Prop :=
  startswith v (PyStr.py "rango_edad_"%string) = true
  \/ In v columnas_referidas.

(** The program of the criteria, when there is one, is a program of
    the dictionary and its column is among the variables. *)
Definition programa_anotado (a : Acumulado) : Prop :=
  forall p, programa_social (ac_criterios a) = Some p ->
            In (columna_de_programa p) (ac_variables a)
            /\ In p programas_del_diccionario.

(* ================================================================= *)
(** ** Legacy validator, categorical distribution and gaps of several
       programs *)

Open Scope string_scope.
Open Scope Z_scope.

Module ValidacionLegacy.
Record t := mk {
  validas : list str;
  invalidas : list str;
  todas_validas : bool
}.
End ValidacionLegacy.

(** [validar_variables]: [validar_variables_mejorado] on the variables
    given and on a criteria dictionary that holds one placeholder key,
    so that [criterios_validos] is [len(criterios) > 0 = True]; the
    result keeps the two lists and [ejecutable]. *)
Definition validar_variables (df : DataFrame) (variables : list str)
  : ValidacionLegacy.t :=
  let vi := clasificar_variables (columns df) variables in
  let criterios_validos := true in
  let sin_invalidas := match snd vi with [] => true | _ :: _ => false end in
  ValidacionLegacy.mk (fst vi) (snd vi) (criterios_validos && sin_invalidas).

Module DistribucionCategorica.
(** [distribucion] holds [categorias], [conteos] and [porcentajes]
    side by side. *)
Record t := mk {
  columna : str;
  total_registros : Z;
  categorias_unicas : Z;
  distribucion : list Zona.t
}.
End DistribucionCategorica.

Inductive ResultadoCategorica :=
| ErrorCategorica (error : str)
| CategoricaOk (resultado : DistribucionCategorica.t).

(** [analizar_distribucion_categorica] *)
Definition analizar_distribucion_categorica (df : DataFrame) (columna : str)
  (top_n : Z) : ResultadoCategorica :=
  if negb (mem columna (columns df)) then
    ErrorCategorica (py "Columna " ++ columna ++ py " no encontrada")%list
  else
    let datos := etiquetas columna df in
    let conteo := value_counts eqb datos in
    CategoricaOk
      (DistribucionCategorica.mk columna
         (Z.of_nat (List.length datos))
         (Z.of_nat (List.length conteo))
         (con_porcentaje (Z.of_nat (List.length datos)) (hasta top_n conteo))).

Module ComparativoBrechas.
Record t := mk {
  programa_mas_cobertura : option str;
  ranking_por_elegibles : list str
}.
End ComparativoBrechas.

Module BrechasMultiprograma.
(** [comparativa_resumida] holds, by program, [total_elegibles] and
    [tasa_elegibilidad] (hundredths); [analisis_comparativo] is [None]
    when it is the empty dictionary. *)
Record t := mk {
  resultados_por_programa : list (str * Elegibilidad.t);
  comparativa_resumida : list (str * (Z * Z));
  analisis_comparativo : option ComparativoBrechas.t;
  total_programas_analizados : Z;
  total_elegibles_agregado : Z
}.
End BrechasMultiprograma.

Inductive ResultadoBrechasMultiprograma :=
| BrechasMultiprogramaOk (resultado : BrechasMultiprograma.t)
| ExcepcionBrechasMultiprograma.

Section BrechasDeVariosProgramas.

Context {Regex : Type}.
Variable re_compile : str -> option Regex.
Variable re_search : Regex -> str -> bool.
Variable str_lower : str -> str.

(** [analizar_brechas_multiprograma]: the loop is the one of
    [analizar_elegibilidad_multiple], and [comparativa] has the keys of
    [resultados_programas] in the same order. *)
Definition analizar_brechas_multiprograma
  (self : AnalizadorProgramasSociales.t)
  (programas : list str) (rango_edad : option (Z * Z))
  (ubicacion : option str) : ResultadoBrechasMultiprograma :=
  match analizar_cada re_compile re_search str_lower self programas
          rango_edad ubicacion [] with
  | None => ExcepcionBrechasMultiprograma
  | Some resultados_programas =>
      let comparativa :=
        map (fun kv =>
               let metricas :=
                 Elegibilidad.seccion_1_poblacion_elegible (snd kv) in
               (fst kv, (PoblacionElegible.total_elegibles metricas,
                         PoblacionElegible.tasa_elegibilidad metricas)))
          resultados_programas in
      let analisis_comparativo :=
        match comparativa with
        | [] => None
        | _ :: _ =>
            let programas_ordenados :=
              map fst (ordenar_desc (fun kv => fst (snd kv)) comparativa) in
            Some (ComparativoBrechas.mk (hd_error programas_ordenados)
                    programas_ordenados)
        end in
      BrechasMultiprogramaOk
        (BrechasMultiprograma.mk resultados_programas comparativa
           analisis_comparativo
           (Z.of_nat (List.length resultados_programas))
           (suma (map (fun kv => fst (snd kv)) comparativa)))
  end.

End BrechasDeVariosProgramas.

Close Scope Z_scope.
Close Scope string_scope.

(* ================================================================= *)
(** * Properties *)

(** ** Strings *)

Lemma eqb_eq (a b : str) : eqb a b = true <-> a = b.
Proof.
  revert b; induction a as [|x a IH]; intros [|y b]; simpl;
    try (split; [discriminate | discriminate]); try tauto.
  rewrite andb_true_iff, N.eqb_eq, IH.
  split.
  - intros [-> ->]; reflexivity.
  - intros H; injection H; auto.
Qed.

Lemma eqb_refl (a : str) : eqb a a = true.
Proof. apply eqb_eq; reflexivity. Qed.

Lemma eqb_neq (a b : str) : eqb a b = false <-> a <> b.
Proof.
  rewrite <- eqb_eq. destruct (eqb a b); split; congruence.
Qed.

Lemma mem_In (x : str) (l : list str) : mem x l = true <-> In x l.
Proof.
  unfold mem. rewrite existsb_exists. split.
  - intros [y [Hy Heq]]. apply eqb_eq in Heq. subst; assumption.
  - intros H. exists x. split; [assumption | apply eqb_refl].
Qed.

Lemma startswith_app (prefix s : str) : startswith (prefix ++ s) prefix = true.
Proof.
  induction prefix as [|c prefix IH]; simpl; [reflexivity|].
  rewrite N.eqb_refl. exact IH.
Qed.

Lemma replace_from_skip (old new l s : str) :
  replace_from old new (List.length l) (l ++ s) = replace_from old new 0 s.
Proof.
  induction l as [|c l IH]; simpl; [reflexivity | exact IH].
Qed.

(** Removing a prefix with [replace]: the occurrence at the start is
    dropped and the replacement goes on in the rest. *)
Lemma replace_prefix (old s : str) :
  old <> [] -> replace (old ++ s) old [] = replace s old [].
Proof.
  intros Hold. destruct old as [|c old]; [congruence|].
  unfold replace.
  change ((c :: old) ++ s) with (c :: (old ++ s)).
  cbn [replace_from].
  change (c :: old ++ s) with ((c :: old) ++ s).
  rewrite startswith_app. cbn [app List.length].
  replace (S (List.length old) - 1)%nat with (List.length old) by lia.
  apply replace_from_skip.
Qed.

(* ================================================================= *)
(** ** Query translator *)

Section Traductor.

Variable texto : str.

Lemma rango_edad_filtro_carencia t c :
  rango_edad (aplicar_filtro_carencia t c) = rango_edad c.
Proof.
  unfold aplicar_filtro_carencia.
  repeat match goal with |- context [if ?b then _ else _] => destruct b end;
    reflexivity.
Qed.

Lemma sexo_filtro_carencia t c :
  sexo (aplicar_filtro_carencia t c) = sexo c.
Proof.
  unfold aplicar_filtro_carencia.
  repeat match goal with |- context [if ?b then _ else _] => destruct b end;
    reflexivity.
Qed.

Lemma programa_filtro_carencia t c :
  programa_social (aplicar_filtro_carencia t c) = programa_social c.
Proof.
  unfold aplicar_filtro_carencia.
  repeat match goal with |- context [if ?b then _ else _] => destruct b end;
    reflexivity.
Qed.

(** The age range after the loop: what was there before it, or else
    the first age phrase found. *)
Lemma rango_edad_buscar_terminos ts a :
  rango_edad (ac_criterios (buscar_terminos texto ts a)) =
  match rango_edad (ac_criterios a) with
  | Some v => Some v
  | None => primer_valor valor_rango_edad texto ts
  end.
Proof.
  revert a; induction ts as [|[t m] ts IH]; intros a.
  - simpl. destruct (rango_edad (ac_criterios a)); reflexivity.
  - unfold buscar_terminos in *. cbn [fold_left primer_valor fst snd].
    rewrite IH. unfold paso_termino. cbn [fst snd].
    destruct (contains t texto).
    + destruct m as [v|v|v f|v|v|v]; cbn [aplicar_mapeo valor_rango_edad];
        try (destruct (rango_edad (ac_criterios a)) eqn:E; cbn; rewrite ?E;
             reflexivity).
      cbn [ac_criterios]. destruct f.
      * rewrite rango_edad_filtro_carencia.
        destruct (rango_edad (ac_criterios a)); reflexivity.
      * destruct (rango_edad (ac_criterios a)); reflexivity.
    + destruct (rango_edad (ac_criterios a)); reflexivity.
Qed.

(** The sex after the loop: the last sex phrase found, or else what
    was there before it. *)
Lemma sexo_buscar_terminos ts a :
  sexo (ac_criterios (buscar_terminos texto ts a)) =
  match ultimo_valor valor_sexo texto ts with
  | Some v => Some v
  | None => sexo (ac_criterios a)
  end.
Proof.
  revert a; induction ts as [|[t m] ts IH]; intros a.
  - reflexivity.
  - unfold buscar_terminos in *. cbn [fold_left ultimo_valor fst snd].
    rewrite IH. destruct (ultimo_valor valor_sexo texto ts); [reflexivity|].
    unfold paso_termino. cbn [fst snd].
    destruct (contains t texto); [|reflexivity].
    destruct m as [v|v|v f|v|v|v]; cbn [aplicar_mapeo valor_sexo];
      try reflexivity.
    + destruct (rango_edad (ac_criterios a)); reflexivity.
    + cbn [ac_criterios]. destruct f; [apply sexo_filtro_carencia|reflexivity].
Qed.

(** The program after the loop: the last program phrase found, or
    else what was there before it. *)
Lemma programa_buscar_terminos ts a :
  programa_social (ac_criterios (buscar_terminos texto ts a)) =
  match ultimo_valor valor_programa texto ts with
  | Some v => Some v
  | None => programa_social (ac_criterios a)
  end.
Proof.
  revert a; induction ts as [|[t m] ts IH]; intros a.
  - reflexivity.
  - unfold buscar_terminos in *. cbn [fold_left ultimo_valor fst snd].
    rewrite IH.
    destruct (ultimo_valor valor_programa texto ts); [reflexivity|].
    unfold paso_termino. cbn [fst snd].
    destruct (contains t texto); [|reflexivity].
    destruct m as [v|v|v f|v|v|v]; cbn [aplicar_mapeo valor_programa];
      try reflexivity.
    + destruct (rango_edad (ac_criterios a)); reflexivity.
    + cbn [ac_criterios].
      destruct f; [apply programa_filtro_carencia|reflexivity].
Qed.

Lemma detectar_conserva c :
  let c' := detectar_ordenamiento texto (detectar_segmentacion texto c) in
  rango_edad c' = rango_edad c /\ sexo c' = sexo c
  /\ programa_social c' = programa_social c.
Proof.
  unfold detectar_ordenamiento, detectar_segmentacion.
  repeat match goal with |- context [if ?b then _ else _] => destruct b end;
    repeat split.
Qed.

End Traductor.

(** X1.  For every query the age range is the one of the first age phrase
    found, phrases taken longest first. *)
Theorem rango_edad_primera_coincidencia (consulta : str) :
  rango_edad (criterios_demograficos (traducir_consulta_natural consulta)) =
  primer_valor valor_rango_edad (lower consulta) terminos_ordenados.
Proof.
  unfold traducir_consulta_natural. cbn [criterios_demograficos].
  destruct (detectar_conserva (lower consulta)
              (ac_criterios (buscar_terminos (lower consulta) terminos_ordenados
                               (mkAcumulado criterios_vacios [] []))))
    as [-> _].
  rewrite rango_edad_buscar_terminos. reflexivity.
Qed.

(** X2.  For every query the sex is the one of the last sex phrase found:
    every sex phrase found overwrites the value. *)
Theorem sexo_ultima_coincidencia (consulta : str) :
  sexo (criterios_demograficos (traducir_consulta_natural consulta)) =
  ultimo_valor valor_sexo (lower consulta) terminos_ordenados.
Proof.
  unfold traducir_consulta_natural. cbn [criterios_demograficos].
  destruct (detectar_conserva (lower consulta)
              (ac_criterios (buscar_terminos (lower consulta) terminos_ordenados
                               (mkAcumulado criterios_vacios [] []))))
    as (_ & -> & _).
  rewrite sexo_buscar_terminos.
  destruct (ultimo_valor valor_sexo (lower consulta) terminos_ordenados);
    reflexivity.
Qed.

(** X3.  For every query the program is the one of the last program phrase
    found, that is, of the shortest one. *)
Theorem programa_ultima_coincidencia (consulta : str) :
  programa_social (criterios_demograficos (traducir_consulta_natural consulta)) =
  ultimo_valor valor_programa (lower consulta) terminos_ordenados.
Proof.
  unfold traducir_consulta_natural. cbn [criterios_demograficos].
  destruct (detectar_conserva (lower consulta)
              (ac_criterios (buscar_terminos (lower consulta) terminos_ordenados
                               (mkAcumulado criterios_vacios [] []))))
    as (_ & _ & ->).
  rewrite programa_buscar_terminos.
  destruct (ultimo_valor valor_programa (lower consulta) terminos_ordenados);
    reflexivity.
Qed.

(** The phrases are evaluated longest first. *)
Lemma insertar_por_longitud_ordenado x l :
  StronglySorted (fun a b => (List.length (fst b) <= List.length (fst a))%nat) l ->
  StronglySorted (fun a b => (List.length (fst b) <= List.length (fst a))%nat)
    (insertar_por_longitud x l)
  /\ forall y, In y (insertar_por_longitud x l) <-> y = x \/ In y l.
Proof.
  induction 1 as [|y l Hs IH Hall]; simpl.
  - split.
    + constructor; constructor.
    + intros y; simpl; split; [intros [<-|[]]; auto | intros [->|[]]; auto].
  - destruct (_ <? _)%nat eqn:H;
      [apply Nat.ltb_lt in H | apply Nat.ltb_ge in H].
    + destruct IH as [IHs IHin]. split.
      * constructor; [assumption|].
        rewrite Forall_forall in *. intros z Hz. apply IHin in Hz.
        destruct Hz as [->|Hz]; [apply Nat.lt_le_incl; exact H | auto].
      * intros z. simpl. rewrite IHin. tauto.
    + split.
      * constructor; [constructor; assumption|].
        constructor; [exact H|].
        rewrite Forall_forall in *. intros z Hz. specialize (Hall z Hz).
        cbv beta in *. eapply Nat.le_trans; [exact Hall | exact H].
      * intros z. simpl. intuition congruence.
Qed.

Theorem terminos_ordenados_longitud_descendente :
  StronglySorted (fun a b => (List.length (fst b) <= List.length (fst a))%nat)
    terminos_ordenados
  /\ forall t, In t terminos_ordenados <-> In t _mapear_grupos_poblacionales.
Proof.
  unfold terminos_ordenados, ordenar_por_longitud.
  induction _mapear_grupos_poblacionales as [|x d [IHs IHin]]; simpl.
  - split; [constructor | tauto].
  - destruct (insertar_por_longitud_ordenado x _ IHs) as [Hs Hin].
    split; [assumption|]. intros t. rewrite Hin, IHin. intuition congruence.
Qed.

Open Scope string_scope.
Open Scope Z_scope.

(** C1 (as the code has it): "adultos mayores sin pensión" translates to
    the age range [65,100] and a descending order, because "mayor"
    occurs in the text, and to no program reference: no phrase of the
    dictionary that names a program occurs in the query.  The same
    criteria come out for any letter case of the query, and translating
    twice gives the same criteria. *)
Theorem traducir_adultos_mayores_sin_pension :
  let consulta := py "adultos mayores sin pensión" in
  criterios_demograficos (traducir_consulta_natural consulta) =
    mkCriterios (Some (65, 100)) None None false false false None None
      (Some (py "descendente"))
  /\ map fst (terminos_mapeados (traducir_consulta_natural consulta)) =
       [py "adultos mayores"; py "adultos"]
  /\ criterios_demograficos
       (traducir_consulta_natural (py "Adultos Mayores SIN PENSIÓN")) =
     criterios_demograficos (traducir_consulta_natural consulta)
  /\ (let primera := traducir_consulta_natural consulta in
      let segunda := traducir_consulta_natural consulta in
      criterios_demograficos primera = criterios_demograficos segunda).
Proof.
  vm_compute. repeat split.
Qed.

(** C1, as stated, fails: the criteria of "adultos mayores sin pensión"
    hold the age range [65,100] but no reference to the adult-pension
    program. *)
Lemma traducir_adultos_mayores_sin_programa :
  ~ (let c := criterios_demograficos
                (traducir_consulta_natural (py "adultos mayores sin pensión")) in
     rango_edad c = Some (65, 100)
     /\ programa_social c = Some (py "pension_adultos_mayores")).
Proof.
  vm_compute. intros [_ H]. discriminate H.
Qed.

(** C3 at two queries where the code departs from it.  In "becas benito
    juárez" the first program phrase found, longest first, is "benito
    juárez", yet the program kept is the one of "becas"; in "hombres y
    mujer" the first sex phrase found is "hombres", yet the sex kept is
    the one of "mujer".  Only the age range is guarded: in "adultos
    mayores" the later phrase "adultos" does not replace [65,100]. *)
Theorem primera_coincidencia_no_gana_en_sexo_ni_programa :
  (primer_valor valor_programa (lower (py "becas benito juárez"))
     terminos_ordenados = Some (py "beca_benito_juarez")
   /\ programa_social
        (criterios_demograficos
           (traducir_consulta_natural (py "becas benito juárez")))
      = Some (py "beca_rita_cetina"))
  /\ (primer_valor valor_sexo (lower (py "hombres y mujer")) terminos_ordenados
      = Some (py "Hombre")
      /\ sexo (criterios_demograficos
                 (traducir_consulta_natural (py "hombres y mujer")))
         = Some (py "Mujer"))
  /\ (map fst (terminos_mapeados (traducir_consulta_natural (py "adultos mayores")))
      = [py "adultos mayores"; py "adultos"]
      /\ rango_edad
           (criterios_demograficos (traducir_consulta_natural (py "adultos mayores")))
         = Some (65, 100)).
Proof.
  vm_compute. repeat split.
Qed.

Close Scope Z_scope.
Close Scope string_scope.

(* ================================================================= *)
(** ** Rounding and counting *)

Open Scope string_scope.
Open Scope Z_scope.

(** The rounded quotient is within half a unit of the quotient. *)
Lemma round_half_even_error (num den : Z) :
  0 < den -> 2 * Z.abs (den * round_half_even num den - num) <= den.
Proof.
  intros Hd. unfold round_half_even.
  pose proof (Z.div_mod num den ltac:(lia)) as Hdm.
  pose proof (Z.mod_pos_bound num den Hd) as Hr.
  destruct (Z.ltb_spec (2 * (num mod den)) den);
    [|destruct (Z.ltb_spec den (2 * (num mod den)));
      [|destruct (Z.even (num / den))]]; nia.
Qed.

(** Rounding keeps a quotient between the integers that bound it. *)
Lemma round_half_even_between (num den a b : Z) :
  0 < den -> a * den <= num <= b * den ->
  a <= round_half_even num den <= b.
Proof.
  intros Hd [Ha Hb]. unfold round_half_even.
  pose proof (Z.div_mod num den ltac:(lia)) as Hdm.
  pose proof (Z.mod_pos_bound num den Hd) as Hr.
  assert (a <= num / den) by (apply Z.div_le_lower_bound; lia).
  assert (num / den <= b) by (apply Z.div_le_upper_bound; lia).
  destruct (Z.ltb_spec (2 * (num mod den)) den);
    [lia|destruct (Z.ltb_spec den (2 * (num mod den)));
         [|destruct (Z.even (num / den))]];
    try lia; split; try lia;
    (assert (num / den <> b) by (intros E; rewrite E in Hdm; nia); lia).
Qed.

Lemma round_half_even_0 (den : Z) : 0 < den -> round_half_even 0 den = 0.
Proof.
  intros Hd.
  pose proof (round_half_even_between 0 den 0 0 Hd ltac:(lia)). lia.
Qed.

Lemma suma_entre (lo hi : Z) (xs : list Z) :
  (forall x, In x xs -> lo <= x <= hi) ->
  lo * Z.of_nat (List.length xs) <= suma xs <= hi * Z.of_nat (List.length xs).
Proof.
  induction xs as [|x xs IH]; intros H.
  - simpl. lia.
  - cbn [suma fold_right List.length].
    fold (suma xs).
    pose proof (H x (or_introl eq_refl)).
    specialize (IH (fun y Hy => H y (or_intror Hy))).
    lia.
Qed.

Lemma filter_idem {A : Type} (f : A -> bool) (l : list A) :
  filter f (filter f l) = filter f l.
Proof.
  induction l as [|x l IH]; simpl; [reflexivity|].
  destruct (f x) eqn:E; simpl; rewrite ?E, IH; reflexivity.
Qed.

(** Rows counted by the value of a function that takes the values 0 to
    3: the four counts add up to the number of rows. *)
Lemma particion_0_3 {A : Type} (f : A -> Z) (l : list A) :
  (forall x, In x l -> 0 <= f x <= 3) ->
  Z.of_nat (List.length (filter (fun x => f x =? 0) l))
  + Z.of_nat (List.length (filter (fun x => f x =? 1) l))
  + Z.of_nat (List.length (filter (fun x => f x =? 2) l))
  + Z.of_nat (List.length (filter (fun x => f x =? 3) l))
  = Z.of_nat (List.length l).
Proof.
  induction l as [|x l IH]; intros H; [reflexivity|].
  specialize (IH (fun y Hy => H y (or_intror Hy))).
  pose proof (H x (or_introl eq_refl)) as Hx.
  cbn [filter].
  destruct (Z.eqb_spec (f x) 0); destruct (Z.eqb_spec (f x) 1);
    destruct (Z.eqb_spec (f x) 2); destruct (Z.eqb_spec (f x) 3);
    cbn [List.length]; lia.
Qed.

Lemma total_carencias_0_3 (cols : list str) (p : Persona) :
  0 <= total_carencias cols p <= 3.
Proof.
  unfold total_carencias, carencias. cbn [filter fst snd].
  repeat match goal with
         | |- context [if mem ?c cols then _ else _] => destruct (mem c cols)
         end;
    cbn [map suma fold_right fst snd];
    repeat match goal with
           | |- context [if es_yes ?v then _ else _] => destruct (es_yes v)
           end; lia.
Qed.

(* ================================================================= *)
(** ** Age groups of the cross-tabulation *)

(** X5.  Below 120 the groups are the six intervals, each closed on the
    left and open on the right. *)
Theorem edad_grupo_intervalos (edad : Z) :
  0 <= edad < 120 ->
  edad_grupo edad =
  Some (if edad <? 18 then py "0-17 años"
        else if edad <? 30 then py "18-29 años"
        else if edad <? 45 then py "30-44 años"
        else if edad <? 60 then py "45-59 años"
        else if edad <? 75 then py "60-74 años"
        else py "75+ años").
Proof.
  intros H. unfold edad_grupo, cut, bins. cbn [searchsorted_right].
  repeat match goal with
         | |- context [?a <=? ?b] => destruct (Z.leb_spec a b); try lia
         end;
    repeat match goal with
           | |- context [?a <? ?b] => destruct (Z.ltb_spec a b); try lia
           end;
    reflexivity.
Qed.

(** X6.  Outside of [0,120) an age has no group: the last interval is open
    on the right like the others. *)
Theorem edad_grupo_fuera (edad : Z) :
  edad < 0 \/ 120 <= edad -> edad_grupo edad = None.
Proof.
  intros H. unfold edad_grupo, cut, bins. cbn [searchsorted_right].
  repeat match goal with
         | |- context [?a <=? ?b] => destruct (Z.leb_spec a b); try lia
         end;
    reflexivity.
Qed.

(** C4 at the age 120, which the code drops.  The age 120 gets no
    group, and in the cross-tabulation of the grouped age by sex over
    the example table, which has five rows and one person aged 120,
    the table counts four rows and the group of 75 and over is empty. *)
Theorem edad_120_sin_grupo :
  edad_grupo 120 = None
  /\ len tabla_ejemplo = 5
  /\ exists pares,
       analizar_tabla_cruzada tabla_ejemplo (py "edad_persona")
         (py "sexo_persona") None true = TablaCruzada pares
       /\ total_registros pares = 4
       /\ total_fila pares (py "75+ años") = 0.
Proof.
  split; [reflexivity|]. split; [reflexivity|].
  eexists. split; [vm_compute; reflexivity|].
  split; vm_compute; reflexivity.
Qed.

(* ================================================================= *)
(** ** Demographic profiler *)

(** C5 (as the code has it): for an empty subset the profiler returns
    the empty dictionary, with no mean age in it; for a non-empty subset
    the mean age reported is the mean of the ages rounded to one
    decimal, within half a tenth of the mean, and it lies in [0,120]
    when the ages do.  The mean age is in tenths. *)
Theorem perfil_edad_promedio (df_segmento : DataFrame) :
  (filas df_segmento = [] -> generar_perfil_segmento df_segmento = None)
  /\ (filas df_segmento <> [] ->
      exists perfil,
        generar_perfil_segmento df_segmento = Some perfil
        /\ Perfil.edad_promedio perfil
           = redondear 1 (suma (edades df_segmento)) (len df_segmento)
        /\ 2 * Z.abs (len df_segmento * Perfil.edad_promedio perfil
                      - 10 * suma (edades df_segmento))
           <= len df_segmento
        /\ ((forall p, In p (filas df_segmento) ->
                       0 <= Col.edad_persona p <= 120) ->
            0 <= Perfil.edad_promedio perfil <= 1200)).
Proof.
  unfold generar_perfil_segmento, len, edades.
  destruct df_segmento as [cols rows]. cbn [filas columns].
  split.
  - intros ->. reflexivity.
  - intros Hne. destruct rows as [|p rows]; [congruence|].
    set (l := p :: rows) in *.
    assert (Hn : 0 < Z.of_nat (List.length l)) by (subst l; simpl; lia).
    destruct (Z.eqb_spec (Z.of_nat (List.length l)) 0) as [E|_]; [lia|].
    eexists. split; [reflexivity|]. cbn [Perfil.edad_promedio].
    assert (Hm : mean (map Col.edad_persona l)
                 = Some (suma (map Col.edad_persona l),
                         Z.of_nat (List.length l))).
    { subst l. cbn [map mean List.length]. rewrite length_map. reflexivity. }
    rewrite Hm. cbn [round_mean].
    split; [reflexivity|]. split.
    + unfold redondear.
      pose proof (round_half_even_error
                    (suma (map Col.edad_persona l) * 10 ^ 1) _ Hn).
      change (10 ^ 1) with 10 in *. lia.
    + intros Hed. unfold redondear. change (10 ^ 1) with 10.
      apply round_half_even_between; [assumption|].
      pose proof (suma_entre 0 120 (map Col.edad_persona l)) as Hs.
      rewrite length_map in Hs.
      assert (forall x, In x (map Col.edad_persona l) -> 0 <= x <= 120).
      { intros x Hx. apply in_map_iff in Hx. destruct Hx as [q [<- Hq]].
        apply Hed, Hq. }
      specialize (Hs H). lia.
Qed.

Lemma perfil_edad_promedio_witness :
  exists perfil,
    generar_perfil_segmento tabla_ejemplo = Some perfil
    /\ Perfil.edad_promedio perfil
       = redondear 1 (suma (edades tabla_ejemplo)) (len tabla_ejemplo)
    /\ 2 * Z.abs (len tabla_ejemplo * Perfil.edad_promedio perfil
                  - 10 * suma (edades tabla_ejemplo))
       <= len tabla_ejemplo
    /\ ((forall p, In p (filas tabla_ejemplo) ->
                   0 <= Col.edad_persona p <= 120) ->
        0 <= Perfil.edad_promedio perfil <= 1200).
Proof.
  apply (proj2 (perfil_edad_promedio tabla_ejemplo)).
  vm_compute. discriminate.
Defined.

(** C5, as stated, fails on the empty subset: no profile with a mean
    age of 0.0 is returned. *)
Lemma perfil_vacio_sin_edad_promedio :
  ~ (exists perfil,
       generar_perfil_segmento tabla_vacia = Some perfil
       /\ Perfil.edad_promedio perfil = 0).
Proof.
  intros [perfil [H _]]. vm_compute in H. discriminate H.
Qed.

Close Scope Z_scope.
Close Scope string_scope.

(* ================================================================= *)
(** ** Value counts and positions *)

Section PropiedadesConteos.
Context {A : Type}.
Variable eqbA : A -> A -> bool.
Hypothesis eqbA_eq : forall a b, eqbA a b = true <-> a = b.

Lemma incrementar_claves (x k : A) (l : list (A * nat)) :
  In k (map fst (incrementar eqbA x l)) <-> k = x \/ In k (map fst l).
Proof.
  induction l as [|[y n] l IH]; simpl.
  - intuition congruence.
  - destruct (eqbA y x) eqn:E; simpl.
    + apply eqbA_eq in E. subst. intuition congruence.
    + rewrite IH. intuition congruence.
Qed.

Lemma contar_desde_claves (k : A) (l : list A) (acc : list (A * nat)) :
  In k (map fst (fold_left (fun acc x => incrementar eqbA x acc) l acc))
  <-> In k l \/ In k (map fst acc).
Proof.
  revert acc; induction l as [|x l IH]; intros acc; simpl.
  - tauto.
  - rewrite IH, incrementar_claves. intuition congruence.
Qed.

Lemma insertar_por_conteo_claves (x : A * nat) (k : A) (l : list (A * nat)) :
  In k (map fst (insertar_por_conteo x l)) <-> k = fst x \/ In k (map fst l).
Proof.
  induction l as [|y l IH]; simpl.
  - intuition congruence.
  - destruct (snd x <? snd y)%nat; simpl; [rewrite IH|];
      intuition congruence.
Qed.

(** The index of [value_counts] holds the values counted, and only
    them. *)
Lemma value_counts_claves (k : A) (l : list A) :
  In k (map fst (value_counts eqbA l)) <-> In k l.
Proof.
  unfold value_counts.
  assert (H : forall c,
             In k (map fst (fold_right (@insertar_por_conteo A) [] c))
             <-> In k (map fst c)).
  { induction c as [|x c IH]; simpl; [tauto|].
    rewrite insertar_por_conteo_claves, IH. intuition congruence. }
  rewrite H. unfold contar. rewrite contar_desde_claves. simpl. tauto.
Qed.

Lemma index_of_None (x : A) (l : list A) :
  ~ In x l -> index_of eqbA x l = None.
Proof.
  induction l as [|y l IH]; simpl; intros H; [reflexivity|].
  destruct (eqbA y x) eqn:E.
  - apply eqbA_eq in E. tauto.
  - rewrite IH; [reflexivity | tauto].
Qed.

Lemma index_of_Some (x : A) (l : list A) :
  In x l -> exists i, index_of eqbA x l = Some i.
Proof.
  induction l as [|y l IH]; simpl; intros H; [contradiction|].
  destruct (eqbA y x) eqn:E; [eexists; reflexivity|].
  destruct H as [H|H].
  - apply eqbA_eq in H. congruence.
  - destruct (IH H) as [i ->]. eexists; reflexivity.
Qed.

Lemma buscar_conteo_Some (x : A) (l : list (A * nat)) :
  In x (map fst l) -> exists n, buscar_conteo eqbA x l = Some n.
Proof.
  induction l as [|[y n] l IH]; simpl; intros H; [contradiction|].
  destruct (eqbA y x) eqn:E; [eexists; reflexivity|].
  destruct H as [H|H].
  - apply eqbA_eq in H. congruence.
  - exact (IH H).
Qed.
End PropiedadesConteos.

Lemma presentes_In {A : Type} (x : A) (l : list (option A)) :
  In x (presentes l) <-> In (Some x) l.
Proof.
  induction l as [|[y|] l IH]; simpl.
  - tauto.
  - rewrite IH. intuition congruence.
  - rewrite IH. intuition congruence.
Qed.

Lemma colonias_In (df : DataFrame) (c : str) :
  In c (colonias df) <-> exists p, In p (filas df) /\ Col.colonia p = Some c.
Proof.
  unfold colonias. rewrite presentes_In, in_map_iff.
  split; intros [p [H1 H2]]; exists p; tauto.
Qed.

(** A location string equal to the neighbourhood of some row has a
    rank. *)
Theorem ranking_con_igualdad_exacta (df : DataFrame) (ubicacion : str) :
  (exists p, In p (filas df) /\ Col.colonia p = Some ubicacion) ->
  exists r, _obtener_ranking_colonia df ubicacion = Some r.
Proof.
  intros H. apply colonias_In in H.
  apply (value_counts_claves eqb eqb_eq) in H.
  unfold _obtener_ranking_colonia.
  destruct (index_of_Some eqb eqb_eq _ _ H) as [i ->].
  destruct (buscar_conteo_Some eqb eqb_eq _ _ H) as [n ->].
  eexists; reflexivity.
Qed.

(* ================================================================= *)
(** ** Population filter and analyses, for any regular-expression engine *)

Section Propiedades.

Context {Regex : Type}.
Variable re_compile : str -> option Regex.
Variable re_search : Regex -> str -> bool.

Open Scope string_scope.
Open Scope Z_scope.

Lemma columns_seleccionar (mask : Persona -> bool) (df : DataFrame) :
  columns (seleccionar mask df) = columns df.
Proof. reflexivity. Qed.

Lemma seleccionar_idem (mask : Persona -> bool) (df : DataFrame) :
  seleccionar mask (seleccionar mask df) = seleccionar mask df.
Proof.
  unfold seleccionar. cbn [columns filas]. rewrite filter_idem. reflexivity.
Qed.

(** C6: the empty criteria set returns the table as it is, and
    filtering a filtered subset again with the same criteria returns
    the subset as it is. *)
Theorem aplicar_filtros_idempotente (df : DataFrame) (criterios : Criterios) :
  aplicar_filtros re_compile re_search df criterios_vacios = Some df
  /\ forall df_segmento,
       aplicar_filtros re_compile re_search df criterios = Some df_segmento ->
       aplicar_filtros re_compile re_search df_segmento criterios
       = Some df_segmento.
Proof.
  split; [reflexivity|].
  intros df_segmento. unfold aplicar_filtros.
  destruct (condiciones re_compile re_search (columns df) criterios)
    as [[|c0 cs]|] eqn:E; intros H; inversion H; subst; clear H.
  - rewrite E. reflexivity.
  - rewrite columns_seleccionar, E, seleccionar_idem. reflexivity.
Qed.

(** A call that raises does so on every table: the location pattern
    is compiled before any row is read. *)
Lemma aplicar_filtros_lanza (df df' : DataFrame) (criterios : Criterios) :
  aplicar_filtros re_compile re_search df criterios = None ->
  aplicar_filtros re_compile re_search df' criterios = None.
Proof.
  unfold aplicar_filtros, condiciones.
  destruct (condicion_ubicacion re_compile re_search criterios);
    [|reflexivity].
  cbv beta iota. intros H. exfalso. revert H.
  match goal with
  | |- context [match ?l with [] => _ | _ :: _ => _ end] => destruct l
  end; discriminate.
Qed.

(** C9 (as the code has it): when the criteria name a program whose
    eligibility column is not a column of the table, the filter leaves
    the program criterion out and returns what the other criteria
    select, the same as without a program criterion; nothing is
    reported. *)
Theorem programa_sin_columna_se_omite (df : DataFrame) (criterios : Criterios)
  (programa : str) :
  mem (columna_de_programa programa) (columns df) = false ->
  aplicar_filtros re_compile re_search df
    (con_programa_social criterios (Some programa))
  = aplicar_filtros re_compile re_search df
      (con_programa_social criterios None).
Proof.
  intros H. unfold aplicar_filtros, condiciones.
  replace (condicion_programa (columns df)
             (con_programa_social criterios (Some programa)))
    with (@nil (Persona -> bool)).
  - reflexivity.
  - unfold condicion_programa. cbn [programa_social con_programa_social].
    destruct programa as [|c programa]; [reflexivity|].
    cbn [dado]. rewrite H. reflexivity.
Qed.

Lemma basicos_compila (df df_filtrado : DataFrame)
  (rango_edad : option (Z * Z)) (ubicacion sexo carencia : option str)
  (u : str) :
  _aplicar_filtros_basicos re_compile re_search df rango_edad ubicacion sexo
    carencia = Some df_filtrado ->
  dado ubicacion = Some u ->
  exists r, re_compile u = Some r.
Proof.
  unfold _aplicar_filtros_basicos. intros H Hu. rewrite Hu in H.
  destruct (re_compile u) as [r|]; [eexists; reflexivity | discriminate].
Qed.

Lemma porcentaje_de_0 (k den : Z) :
  0 < den -> porcentaje_de k 0 den = 0.
Proof. intros H. unfold porcentaje_de. simpl. apply round_half_even_0, H. Qed.

(** C7 (as the code has it): a run that returns a distribution
    reports four counts that add up to the number of rows of the
    subset; when the subset has rows the four percentages add up to
    100 within 0.02, and when it has none they are all 0.0.  A run
    returns the error dictionary only when filtering raises.
    Percentages are in hundredths. *)
Theorem intensidad_conteos_y_porcentajes (df : DataFrame)
  (rango_edad : option (Z * Z)) (ubicacion : option str) :
  match analizar_intensidad_carencias re_compile re_search df rango_edad
          ubicacion with
  | IntensidadOk r =>
      exists df_analisis,
        subconjunto_intensidad re_compile re_search df rango_edad ubicacion
        = Some df_analisis
        /\ suma_cantidades r = len df_analisis
        /\ (0 < len df_analisis -> Z.abs (suma_porcentajes r - 10000) <= 2)
        /\ (len df_analisis = 0 ->
            Conteo.porcentaje (Intensidad.sin_carencias r) = 0
            /\ Conteo.porcentaje (Intensidad.una_carencia r) = 0
            /\ Conteo.porcentaje (Intensidad.dos_carencias r) = 0
            /\ Conteo.porcentaje (Intensidad.tres_carencias r) = 0)
  | IntensidadError =>
      subconjunto_intensidad re_compile re_search df rango_edad ubicacion
      = None
  end.
Proof.
  unfold analizar_intensidad_carencias.
  destruct (subconjunto_intensidad re_compile re_search df rango_edad
              ubicacion) as [d|]; [|reflexivity].
  exists d. split; [reflexivity|].
  unfold suma_cantidades, suma_porcentajes, conteo_intensidad.
  cbn [Intensidad.sin_carencias Intensidad.una_carencia
         Intensidad.dos_carencias Intensidad.tres_carencias
         Conteo.cantidad Conteo.porcentaje].
  assert (Hsum : personas_con 0 d + personas_con 1 d + personas_con 2 d
                 + personas_con 3 d = len d).
  { unfold personas_con, len.
    apply (particion_0_3 (total_carencias (columns d))).
    intros p _. apply total_carencias_0_3. }
  split; [exact Hsum|]. split.
  - intros Hpos.
    destruct (Z.ltb_spec 0 (len d)) as [_|]; [|lia].
    unfold porcentaje_de. change (100 * 10 ^ 2) with 10000.
    pose proof (round_half_even_error (personas_con 0 d * 100 * 10 ^ 2) _ Hpos).
    pose proof (round_half_even_error (personas_con 1 d * 100 * 10 ^ 2) _ Hpos).
    pose proof (round_half_even_error (personas_con 2 d * 100 * 10 ^ 2) _ Hpos).
    pose proof (round_half_even_error (personas_con 3 d * 100 * 10 ^ 2) _ Hpos).
    change (10 ^ 2) with 100 in *.
    set (r0 := round_half_even (personas_con 0 d * 100 * 100) (len d)) in *.
    set (r1 := round_half_even (personas_con 1 d * 100 * 100) (len d)) in *.
    set (r2 := round_half_even (personas_con 2 d * 100 * 100) (len d)) in *.
    set (r3 := round_half_even (personas_con 3 d * 100 * 100) (len d)) in *.
    assert (Hlo : len d * (r0 + r1 + r2 + r3 - 10000) <= 2 * len d) by lia.
    assert (Hhi : - (2 * len d) <= len d * (r0 + r1 + r2 + r3 - 10000))
      by lia.
    apply Z.abs_le. split; nia.
  - intros H0. rewrite H0. change (0 <? 0) with false. cbv iota.
    repeat split.
Qed.

End Propiedades.

(* ================================================================= *)
(** ** The analyses on the example table, with the literal engine *)

Open Scope string_scope.
Open Scope Z_scope.

(** The people of 60 and over of a zone whose name contains "san":
    filtering the two rows selected again selects the same two. *)
Lemma aplicar_filtros_idempotente_witness :
  let criterios :=
    mkCriterios (Some (60, 130)) None (Some (py "san")) false false false
      None None None in
  exists df_segmento,
    aplicar_filtros literal_compile literal_search tabla_ejemplo criterios
    = Some df_segmento
    /\ len df_segmento = 2
    /\ aplicar_filtros literal_compile literal_search df_segmento criterios
       = Some df_segmento.
Proof.
  intros criterios. eexists.
  split; [vm_compute; reflexivity|].
  split; [vm_compute; reflexivity|].
  apply (proj2 (aplicar_filtros_idempotente literal_compile literal_search
                  tabla_ejemplo criterios)).
  vm_compute. reflexivity.
Defined.

Lemma programa_sin_columna_se_omite_witness :
  aplicar_filtros literal_compile literal_search tabla_ejemplo
    (con_programa_social (solo_rango_edad (60, 130))
       (Some (py "programa_inexistente")))
  = aplicar_filtros literal_compile literal_search tabla_ejemplo
      (con_programa_social (solo_rango_edad (60, 130)) None).
Proof.
  apply (programa_sin_columna_se_omite literal_compile literal_search
           tabla_ejemplo (solo_rango_edad (60, 130))
           (py "programa_inexistente")).
  vm_compute. reflexivity.
Defined.

(** C9, as stated, fails: with a program criterion that names no column
    of the table the filter reports nothing and returns the three rows
    that the age range alone selects. *)
Lemma programa_sin_columna_no_se_reporta :
  let criterios :=
    mkCriterios (Some (60, 130)) None None false false false
      (Some (py "programa_inexistente")) None None in
  mem (columna_de_programa (py "programa_inexistente")) (columns tabla_ejemplo)
  = false
  /\ exists df_segmento,
       aplicar_filtros literal_compile literal_search tabla_ejemplo criterios
       = Some df_segmento
       /\ len df_segmento = 3
       /\ aplicar_filtros literal_compile literal_search tabla_ejemplo
            (solo_rango_edad (60, 130))
          = Some df_segmento.
Proof.
  intros criterios. split; [vm_compute; reflexivity|].
  eexists. split; [vm_compute; reflexivity|].
  split; vm_compute; reflexivity.
Qed.

Lemma intensidad_conteos_y_porcentajes_witness :
  exists r,
    analizar_intensidad_carencias literal_compile literal_search tabla_ejemplo
      None None = IntensidadOk r
    /\ suma_cantidades r = 5
    /\ Z.abs (suma_porcentajes r - 10000) <= 2.
Proof.
  generalize (intensidad_conteos_y_porcentajes literal_compile literal_search
                tabla_ejemplo None None).
  destruct (analizar_intensidad_carencias literal_compile literal_search
              tabla_ejemplo None None) as [r|].
  - intros [d [Hd [Hc [Hp _]]]]. exists r.
    cbn in Hd. injection Hd as <-.
    split; [reflexivity|]. split; [exact Hc|].
    apply Hp. reflexivity.
  - intros H. cbn in H. discriminate H.
Defined.

(** C7, as stated, fails on an empty subset: with an age range that no
    row satisfies the four counts are 0 and the four percentages are
    0.0, which add up to 0 and not to 100. *)
Lemma intensidad_subconjunto_vacio :
  exists r,
    analizar_intensidad_carencias literal_compile literal_search tabla_ejemplo
      (Some (200, 300)) None = IntensidadOk r
    /\ suma_cantidades r = 0
    /\ suma_porcentajes r = 0
    /\ ~ Z.abs (suma_porcentajes r - 10000) <= 2.
Proof.
  eexists. split; [vm_compute; reflexivity|].
  split; [reflexivity|]. split; [reflexivity|].
  vm_compute. intros H. apply H. reflexivity.
Qed.

Close Scope Z_scope.
Close Scope string_scope.

(* ================================================================= *)
(** * Further properties *)

(** ** Lists, counts and sorted lists *)

Lemma filter_filter_and {A : Type} (f g : A -> bool) (l : list A) :
  filter f (filter g l) = filter (fun x => g x && f x) l.
Proof.
  induction l as [|x l IH]; simpl; [reflexivity|].
  destruct (g x); simpl; [destruct (f x)|]; rewrite IH; reflexivity.
Qed.

Lemma filter_true {A : Type} (l : list A) : filter (fun _ => true) l = l.
Proof. induction l as [|x l IH]; simpl; [|rewrite IH]; reflexivity. Qed.

Lemma filter_length_le {A : Type} (f : A -> bool) (l : list A) :
  (List.length (filter f l) <= List.length l)%nat.
Proof.
  induction l as [|x l IH]; simpl; [lia|]. destruct (f x); simpl; lia.
Qed.

Lemma len_seleccionar_le (mask : Persona -> bool) (df : DataFrame) :
  (0 <= len (seleccionar mask df) <= len df)%Z.
Proof.
  unfold len, seleccionar. cbn [filas].
  pose proof (filter_length_le mask (filas df)). lia.
Qed.

Lemma firstn_prefijo {A : Type} (n : nat) (l : list A) :
  exists resto, l = firstn n l ++ resto.
Proof. exists (skipn n l). symmetry. apply firstn_skipn. Qed.

Lemma hasta_prefijo {A : Type} (n : Z) (l : list A) :
  exists resto, l = hasta n l ++ resto.
Proof. unfold hasta. destruct (n <? 0)%Z; apply firstn_prefijo. Qed.

Lemma hasta_length {A : Type} (n : Z) (l : list A) :
  (0 <= n)%Z -> (Z.of_nat (List.length (hasta n l)) <= n)%Z.
Proof.
  intros H. unfold hasta. destruct (Z.ltb_spec n 0); [lia|].
  rewrite length_firstn. lia.
Qed.

Lemma hasta_todo {A : Type} (n : Z) (l : list A) :
  (Z.of_nat (List.length l) <= n)%Z -> hasta n l = l.
Proof.
  intros H. unfold hasta. destruct (Z.ltb_spec n 0); [lia|].
  apply firstn_all2. lia.
Qed.

Section PropiedadesOrden.
Context {A : Type}.
Variable clave : A -> Z.

Lemma insertar_desc_perm (x : A) (l : list A) :
  Permutation (insertar_desc clave x l) (x :: l).
Proof.
  induction l as [|y l IH]; simpl; [reflexivity|].
  destruct (clave x <? clave y)%Z; [|reflexivity].
  rewrite IH. apply perm_swap.
Qed.

Lemma ordenar_desc_perm (l : list A) : Permutation (ordenar_desc clave l) l.
Proof.
  induction l as [|x l IH]; simpl; [reflexivity|].
  rewrite insertar_desc_perm. constructor. exact IH.
Qed.

Lemma insertar_desc_sorted (x : A) (l : list A) :
  StronglySorted (fun a b => (clave b <= clave a)%Z) l ->
  StronglySorted (fun a b => (clave b <= clave a)%Z) (insertar_desc clave x l).
Proof.
  induction 1 as [|y l Hs IH Hall]; simpl.
  - repeat constructor.
  - destruct (Z.ltb_spec (clave x) (clave y)).
    + constructor; [exact IH|].
      rewrite Forall_forall in *. intros z Hz.
      apply (Permutation_in _ (insertar_desc_perm x l)) in Hz.
      destruct Hz as [<-|Hz]; [lia | auto].
    + constructor; [constructor; assumption|].
      constructor; [assumption|].
      rewrite Forall_forall in *. intros z Hz.
      specialize (Hall z Hz). cbv beta in Hall. lia.
Qed.

Lemma ordenar_desc_sorted (l : list A) :
  StronglySorted (fun a b => (clave b <= clave a)%Z) (ordenar_desc clave l).
Proof.
  induction l as [|x l IH]; simpl; [constructor|].
  apply insertar_desc_sorted, IH.
Qed.

Lemma insertar_asc_perm (x : A) (l : list A) :
  Permutation (insertar_asc clave x l) (x :: l).
Proof.
  induction l as [|y l IH]; simpl; [reflexivity|].
  destruct (clave y <? clave x)%Z; [|reflexivity].
  rewrite IH. apply perm_swap.
Qed.

Lemma ordenar_asc_perm (l : list A) : Permutation (ordenar_asc clave l) l.
Proof.
  induction l as [|x l IH]; simpl; [reflexivity|].
  rewrite insertar_asc_perm. constructor. exact IH.
Qed.

End PropiedadesOrden.

Lemma sorted_prefijo {A : Type} (R : A -> A -> Prop) (l1 l2 : list A) :
  StronglySorted R (l1 ++ l2) -> StronglySorted R l1.
Proof.
  induction l1 as [|x l1 IH]; simpl; intros H; [constructor|].
  inversion H as [|? ? Hs Hall]; subst. constructor; [auto|].
  apply Forall_app in Hall. tauto.
Qed.

Section PropiedadesContar.
Context {A : Type}.
Variable eqbA : A -> A -> bool.
Hypothesis eqbA_eq : forall a b, eqbA a b = true <-> a = b.

Lemma incrementar_total (x : A) (l : list (A * nat)) :
  total_conteos (incrementar eqbA x l) = S (total_conteos l).
Proof.
  induction l as [|[y n] l IH]; simpl; [reflexivity|].
  destruct (eqbA y x); simpl; [lia | rewrite IH; lia].
Qed.

Lemma contar_desde_total (l : list A) (acc : list (A * nat)) :
  total_conteos (fold_left (fun acc x => incrementar eqbA x acc) l acc)
  = (total_conteos acc + List.length l)%nat.
Proof.
  revert acc; induction l as [|x l IH]; intros acc; simpl; [lia|].
  rewrite IH, incrementar_total. lia.
Qed.

(** The counts of [contar] add up to the number of values. *)
Lemma contar_total (l : list A) :
  total_conteos (contar eqbA l) = List.length l.
Proof. unfold contar. rewrite contar_desde_total. reflexivity. Qed.

Lemma incrementar_positivos (x : A) (l : list (A * nat)) :
  Forall (fun kv => (1 <= snd kv)%nat) l ->
  Forall (fun kv => (1 <= snd kv)%nat) (incrementar eqbA x l).
Proof.
  induction 1 as [|[y n] l Hy Hl IH]; simpl.
  - repeat constructor.
  - destruct (eqbA y x); constructor; simpl in *; auto; lia.
Qed.

Lemma contar_positivos (l : list A) :
  Forall (fun kv => (1 <= snd kv)%nat) (contar eqbA l).
Proof.
  unfold contar.
  assert (H : forall acc, Forall (fun kv => (1 <= snd kv)%nat) acc ->
              Forall (fun kv : A * nat => (1 <= snd kv)%nat)
                (fold_left (fun acc x => incrementar eqbA x acc) l acc)).
  { induction l as [|x l IH]; intros acc Hacc; simpl; [assumption|].
    apply IH, incrementar_positivos, Hacc. }
  apply H. constructor.
Qed.

Lemma total_conteos_ge_length (l : list (A * nat)) :
  Forall (fun kv => (1 <= snd kv)%nat) l ->
  (List.length l <= total_conteos l)%nat.
Proof. induction 1; simpl; lia. Qed.

(** There are at most as many distinct values as values. *)
Lemma contar_length_le (l : list A) :
  (List.length (contar eqbA l) <= List.length l)%nat.
Proof.
  rewrite <- (contar_total l).
  apply total_conteos_ge_length, contar_positivos.
Qed.

Lemma contar_no_vacio (l : list A) : l <> [] -> contar eqbA l <> [].
Proof.
  destruct l as [|x l]; [congruence|]. intros _ H.
  assert (Hin : In x (map fst (contar eqbA (x :: l)))).
  { unfold contar. apply (contar_desde_claves eqbA eqbA_eq). left. left.
    reflexivity. }
  rewrite H in Hin. contradiction.
Qed.

Lemma incrementar_NoDup (x : A) (l : list (A * nat)) :
  NoDup (map fst l) -> NoDup (map fst (incrementar eqbA x l)).
Proof.
  induction l as [|[y n] l IH]; simpl; intros H.
  - constructor; [intros []|constructor].
  - inversion H as [|? ? Hy Hl]; subst.
    destruct (eqbA y x) eqn:E; simpl.
    + constructor; assumption.
    + constructor; [|auto].
      rewrite (incrementar_claves eqbA eqbA_eq). intros [->|Hin]; [|tauto].
      assert (eqbA x x = true) by (apply eqbA_eq; reflexivity). congruence.
Qed.

(** The values of [contar] are distinct. *)
Lemma contar_NoDup (l : list A) : NoDup (map fst (contar eqbA l)).
Proof.
  unfold contar.
  assert (H : forall acc, NoDup (map fst acc) ->
              NoDup (map fst (fold_left (fun acc x => incrementar eqbA x acc)
                                l acc))).
  { induction l as [|x l IH]; intros acc Hacc; simpl; [assumption|].
    apply IH, incrementar_NoDup, Hacc. }
  apply H. constructor.
Qed.

Lemma insertar_por_conteo_perm (x : A * nat) (l : list (A * nat)) :
  Permutation (insertar_por_conteo x l) (x :: l).
Proof.
  induction l as [|y l IH]; simpl; [reflexivity|].
  destruct (snd x <? snd y)%nat; [|reflexivity].
  rewrite IH. apply perm_swap.
Qed.

(** [value_counts] rearranges the counts of [contar]. *)
Lemma value_counts_perm (l : list A) :
  Permutation (value_counts eqbA l) (contar eqbA l).
Proof.
  unfold value_counts.
  induction (contar eqbA l) as [|x c IH]; simpl; [reflexivity|].
  rewrite insertar_por_conteo_perm. constructor. exact IH.
Qed.

Lemma total_conteos_perm (l l' : list (A * nat)) :
  Permutation l l' -> total_conteos l = total_conteos l'.
Proof. induction 1; simpl; lia. Qed.

Lemma insertar_por_conteo_sorted (x : A * nat) (l : list (A * nat)) :
  StronglySorted (fun a b => (snd b <= snd a)%nat) l ->
  StronglySorted (fun a b => (snd b <= snd a)%nat) (insertar_por_conteo x l).
Proof.
  induction 1 as [|y l Hs IH Hall]; simpl.
  - repeat constructor.
  - destruct (Nat.ltb_spec (snd x) (snd y)).
    + constructor; [exact IH|].
      rewrite Forall_forall in *. intros z Hz.
      apply (Permutation_in _ (insertar_por_conteo_perm x l)) in Hz.
      destruct Hz as [<-|Hz]; [lia | auto].
    + constructor; [constructor; assumption|].
      constructor; [assumption|].
      rewrite Forall_forall in *. intros z Hz.
      specialize (Hall z Hz). cbv beta in Hall. lia.
Qed.

(** [value_counts] lists the largest count first. *)
Lemma value_counts_sorted (l : list A) :
  StronglySorted (fun a b => (snd b <= snd a)%nat) (value_counts eqbA l).
Proof.
  unfold value_counts.
  induction (contar eqbA l) as [|x c IH]; simpl; [constructor|].
  apply insertar_por_conteo_sorted, IH.
Qed.

Lemma value_counts_total (l : list A) :
  total_conteos (value_counts eqbA l) = List.length l.
Proof.
  rewrite (total_conteos_perm _ _ (value_counts_perm l)). apply contar_total.
Qed.

Lemma value_counts_length (l : list A) :
  List.length (value_counts eqbA l) = List.length (contar eqbA l).
Proof. apply Permutation_length, value_counts_perm. Qed.

Lemma total_conteos_app (l1 l2 : list (A * nat)) :
  total_conteos (l1 ++ l2) = (total_conteos l1 + total_conteos l2)%nat.
Proof. induction l1 as [|x l1 IH]; simpl; [|rewrite IH]; lia. Qed.

Lemma buscar_conteo_In (x : A) (n : nat) (l : list (A * nat)) :
  NoDup (map fst l) ->
  (buscar_conteo eqbA x l = Some n <-> In (x, n) l).
Proof.
  induction l as [|[y m] l IH]; simpl; intros H.
  - split; [discriminate | contradiction].
  - inversion H as [|? ? Hy Hl]; subst.
    destruct (eqbA y x) eqn:E.
    + apply eqbA_eq in E. subst y. split.
      * intros [= ->]. left. reflexivity.
      * intros [[= ->]|Hin]; [reflexivity|].
        exfalso. apply Hy. apply in_map_iff. exists (x, n). tauto.
    + rewrite (IH Hl). split; [tauto|].
      intros [[= -> ->]|Hin]; [|assumption].
      assert (eqbA x x = true) by (apply eqbA_eq; reflexivity). congruence.
Qed.

Lemma index_of_lt (x : A) (l : list A) (i : nat) :
  index_of eqbA x l = Some i -> (i < List.length l)%nat.
Proof.
  revert i; induction l as [|y l IH]; simpl; intros i; [discriminate|].
  destruct (eqbA y x); [intros [= <-]; lia|].
  destruct (index_of eqbA x l) as [j|]; [|discriminate].
  intros [= <-]. specialize (IH j eq_refl). lia.
Qed.
End PropiedadesContar.

(* ================================================================= *)
(** ** The filters, for any regular-expression engine *)

Ltac casos_booleanos :=
  repeat match goal with
         | |- context [andb ?a _] =>
             lazymatch a with
             | andb _ _ => fail
             | true => fail
             | false => fail
             | _ => destruct a
             end
         | |- context [andb _ ?a] =>
             lazymatch a with
             | andb _ _ => fail
             | true => fail
             | false => fail
             | _ => destruct a
             end
         end;
  reflexivity.

Ltac textos_distintos :=
  repeat match goal with
         | H : eqb _ _ = true |- _ => apply eqb_eq in H
         end;
  subst;
  match goal with
  | H : _ = _ |- _ => vm_compute in H; discriminate H
  end.

Lemma otra_es_yes_spec (col : str) (p : Persona) :
  otra_es_yes col p = true
  <-> buscar col (Col.otras p) = Some (PyStr.py "yes"%string).
Proof.
  unfold otra_es_yes, es_yes.
  destruct (buscar col (Col.otras p)) as [v|].
  - rewrite eqb_eq. split; [intros ->; reflexivity | intros [= ->]; reflexivity].
  - split; discriminate.
Qed.

Lemma es_yes_spec (v : str) : es_yes v = true <-> v = PyStr.py "yes"%string.
Proof. apply eqb_eq. Qed.

Section PropiedadesFiltros.

Context {Regex : Type}.
Variable re_compile : str -> option Regex.
Variable re_search : Regex -> str -> bool.

Open Scope string_scope.
Open Scope Z_scope.

Lemma mascara_final_forallb (c0 : Persona -> bool)
  (cs : list (Persona -> bool)) (p : Persona) :
  mascara_final c0 cs p = c0 p && forallb (fun c => c p) cs.
Proof.
  unfold mascara_final. revert c0.
  induction cs as [|c cs IH]; intros c0; simpl.
  - rewrite andb_true_r. reflexivity.
  - rewrite IH, andb_assoc. reflexivity.
Qed.

Lemma aplicar_filtros_forallb (df df_segmento : DataFrame)
  (criterios : Criterios) :
  aplicar_filtros re_compile re_search df criterios = Some df_segmento ->
  exists conds,
    condiciones re_compile re_search (columns df) criterios = Some conds
    /\ df_segmento
       = mkDataFrame (columns df)
           (filter (fun p => forallb (fun c => c p) conds) (filas df)).
Proof.
  unfold aplicar_filtros.
  destruct (condiciones re_compile re_search (columns df) criterios)
    as [[|c0 cs]|]; intros H; try discriminate H; injection H as <-.
  - exists []. split; [reflexivity|]. simpl. rewrite filter_true.
    destruct df; reflexivity.
  - exists (c0 :: cs). split; [reflexivity|]. unfold seleccionar. f_equal.
    apply filter_ext. intros p. rewrite mascara_final_forallb. reflexivity.
Qed.

(** X7.  The rows that [aplicar_filtros] returns are the rows of the
    table, in their order, that meet every criterion given: the age
    within the range, both ends included; the sex, after the synonym
    table; the location pattern found in the neighbourhood, the block
    or the zone; each deprivation asked for equal to "yes"; and the
    eligibility column of the program equal to "yes" when the table
    has that column.  The columns are those of the table. *)
Theorem aplicar_filtros_caracterizacion (df df_segmento : DataFrame)
  (criterios : Criterios) :
  aplicar_filtros re_compile re_search df criterios = Some df_segmento ->
  columns df_segmento = columns df
  /\ exists mask,
       filas df_segmento = filter mask (filas df)
       /\ forall p,
            mask p = true <->
            ((forall r, rango_edad criterios = Some r ->
                        fst r <= Col.edad_persona p <= snd r)
             /\ (forall s, dado (sexo criterios) = Some s ->
                           Col.sexo_persona p = sexo_map s)
             /\ (forall pat r, dado (ubicacion criterios) = Some pat ->
                               re_compile pat = Some r ->
                               mascara_ubicacion re_search r p = true)
             /\ (carencia_salud criterios = true ->
                 Col.presencia_carencia_salud_persona p = py "yes")
             /\ (carencia_educacion criterios = true ->
                 Col.presencia_rezago_educativo_persona p = py "yes")
             /\ (carencia_seguridad_social criterios = true ->
                 Col.presencia_carencia_seguridad_social_persona p = py "yes")
             /\ (forall programa,
                   dado (programa_social criterios) = Some programa ->
                   In (columna_de_programa programa) (columns df) ->
                   buscar (columna_de_programa programa) (Col.otras p)
                   = Some (py "yes"))).
Proof.
  intros H. apply aplicar_filtros_forallb in H.
  destruct H as [conds [Hc ->]]. split; [reflexivity|].
  exists (fun p => forallb (fun c => c p) conds). split; [reflexivity|].
  intros p. unfold condiciones in Hc.
  destruct (condicion_ubicacion re_compile re_search criterios) as [cu|] eqn:Hu;
    [|discriminate].
  injection Hc as <-. rewrite !forallb_app, !andb_true_iff.
  assert (He : forallb (fun c => c p) (condicion_edad criterios) = true
               <-> forall r, rango_edad criterios = Some r ->
                             fst r <= Col.edad_persona p <= snd r).
  { unfold condicion_edad. destruct (rango_edad criterios) as [r|]; simpl.
    - rewrite andb_true_r. unfold en_rango_edad.
      rewrite andb_true_iff, !Z.leb_le. split.
      + intros Hr r' [= <-]. exact Hr.
      + intros Hr. apply Hr. reflexivity.
    - split; [intros _ r; discriminate | reflexivity]. }
  assert (Hs : forallb (fun c => c p) (condicion_sexo criterios) = true
               <-> forall s, dado (sexo criterios) = Some s ->
                             Col.sexo_persona p = sexo_map s).
  { unfold condicion_sexo. destruct (dado (sexo criterios)) as [s|]; simpl.
    - rewrite andb_true_r. unfold es_sexo. rewrite eqb_eq. split.
      + intros Hr s' [= <-]. exact Hr.
      + intros Hr. apply Hr. reflexivity.
    - split; [intros _ s; discriminate | reflexivity]. }
  assert (Hub : forallb (fun c => c p) cu = true
                <-> forall pat r, dado (ubicacion criterios) = Some pat ->
                                  re_compile pat = Some r ->
                                  mascara_ubicacion re_search r p = true).
  { unfold condicion_ubicacion in Hu.
    destruct (dado (ubicacion criterios)) as [pat|].
    - destruct (re_compile pat) as [r|] eqn:Hr; [|discriminate].
      injection Hu as <-. simpl. rewrite andb_true_r. split.
      + intros Hm pat' r' [= <-] Hr'. rewrite Hr in Hr'.
        injection Hr' as <-. exact Hm.
      + intros Hm. exact (Hm pat r eq_refl Hr).
    - injection Hu as <-. split; [intros _ pat r; discriminate | reflexivity]. }
  assert (Hca : forallb (fun c => c p) (condiciones_carencias criterios) = true
                <-> (carencia_salud criterios = true ->
                     Col.presencia_carencia_salud_persona p = py "yes")
                    /\ (carencia_educacion criterios = true ->
                        Col.presencia_rezago_educativo_persona p = py "yes")
                    /\ (carencia_seguridad_social criterios = true ->
                        Col.presencia_carencia_seguridad_social_persona p
                        = py "yes")).
  { unfold condiciones_carencias.
    destruct (carencia_salud criterios), (carencia_educacion criterios),
      (carencia_seguridad_social criterios); simpl;
      rewrite ?andb_true_r, ?andb_true_iff, ?es_yes_spec;
      intuition congruence. }
  assert (Hp : forallb (fun c => c p)
                 (condicion_programa (columns df) criterios) = true
               <-> forall programa,
                     dado (programa_social criterios) = Some programa ->
                     In (columna_de_programa programa) (columns df) ->
                     buscar (columna_de_programa programa) (Col.otras p)
                     = Some (py "yes")).
  { unfold condicion_programa.
    destruct (dado (programa_social criterios)) as [programa|].
    - destruct (mem (columna_de_programa programa) (columns df)) eqn:Hm; simpl.
      + rewrite andb_true_r, otra_es_yes_spec. split.
        * intros Hb programa' [= <-] _. exact Hb.
        * intros Hb. apply (Hb programa eq_refl). apply mem_In, Hm.
      + split; [|reflexivity]. intros _ programa' [= <-] Hin.
        apply mem_In in Hin. congruence.
    - split; [intros _ programa; discriminate | reflexivity]. }
  rewrite He, Hs, Hub, Hca, Hp. tauto.
Qed.

(** The result of [aplicar_filtros] has at most the rows of the
    table. *)
Lemma aplicar_filtros_len (df df_segmento : DataFrame) (criterios : Criterios) :
  aplicar_filtros re_compile re_search df criterios = Some df_segmento ->
  0 <= len df_segmento <= len df.
Proof.
  intros H. apply aplicar_filtros_forallb in H. destruct H as [conds [_ ->]].
  unfold len. cbn [filas].
  pose proof (filter_length_le (fun p => forallb (fun c => c p) conds)
                (filas df)). lia.
Qed.

(** X8.  [_aplicar_filtros_basicos], which filters step by step, selects
    the same rows as [aplicar_filtros] on the criteria set with the
    same age range, sex, location and deprivation, and raises when it
    does. *)
Theorem filtros_basicos_coinciden (df : DataFrame)
  (rango : option (Z * Z)) (ubic sexo_dado carencia : option str) :
  _aplicar_filtros_basicos re_compile re_search df rango ubic sexo_dado carencia
  = aplicar_filtros re_compile re_search df
      (criterios_basicos rango ubic sexo_dado carencia).
Proof.
  unfold _aplicar_filtros_basicos, aplicar_filtros, condiciones,
    criterios_basicos, condicion_edad, condicion_sexo, condicion_ubicacion,
    condiciones_carencias, condicion_programa, carencia_map.
  cbn [rango_edad sexo ubicacion carencia_salud carencia_educacion
         carencia_seguridad_social programa_social dado].
  destruct rango as [r|]; destruct (dado sexo_dado) as [s|];
    (destruct (dado ubic) as [u|]; [destruct (re_compile u) as [re|]|]);
    try reflexivity;
    (destruct (dado carencia) as [c|];
     [destruct (eqb c (py "salud")) eqn:E1;
      destruct (eqb c (py "educacion")) eqn:E2;
      destruct (eqb c (py "seguridad_social")) eqn:E3;
      try textos_distintos|]);
    cbn [app];
    try reflexivity;
    f_equal; unfold seleccionar, mascara_final;
    cbn [columns filas fold_left]; f_equal;
    rewrite ?filter_filter_and; apply filter_ext; intros p;
    rewrite ?andb_assoc; reflexivity.
Qed.

(** X9.  The filter of the cross-tabulation selects the same rows as
    [aplicar_filtros] when the criteria have no location and the sex,
    if given, is written in full: the cross-tabulation ignores the
    location and compares the sex without the synonym table. *)
Theorem filtros_tabla_cruzada_coinciden (df : DataFrame) (filtros : Criterios) :
  dado (ubicacion filtros) = None ->
  (forall s, dado (sexo filtros) = Some s -> sexo_map s = s) ->
  aplicar_filtros re_compile re_search df filtros
  = Some (_aplicar_filtros_tabla_cruzada df filtros).
Proof.
  intros Hu Hs.
  unfold _aplicar_filtros_tabla_cruzada, aplicar_filtros, condiciones,
    condicion_edad, condicion_sexo, condicion_ubicacion,
    condiciones_carencias, condicion_programa.
  rewrite Hu.
  destruct (dado (sexo filtros)) as [s|];
    [rewrite (Hs s eq_refl)|]; clear Hs;
    destruct (rango_edad filtros) as [r|];
    destruct (carencia_salud filtros);
    destruct (carencia_educacion filtros);
    destruct (carencia_seguridad_social filtros);
    (destruct (dado (programa_social filtros)) as [programa|];
     [cbn [columns seleccionar];
      destruct (mem (columna_de_programa programa) (columns df))|]);
    cbn [app];
    try (destruct df; reflexivity);
    f_equal; unfold seleccionar, mascara_final;
    cbn [columns filas fold_left]; f_equal;
    rewrite ?filter_filter_and; apply filter_ext; intros p;
    casos_booleanos.
Qed.

Close Scope Z_scope.
Close Scope string_scope.

End PropiedadesFiltros.

(* ================================================================= *)
(** ** Counts of a column of strings *)

Lemma buscar_conteo_incrementar (x y : str) (acc : list (str * nat)) :
  buscar_conteo eqb x (incrementar eqb y acc)
  = if eqb y x
    then Some (S (match buscar_conteo eqb x acc with
                  | Some n => n
                  | None => O
                  end))
    else buscar_conteo eqb x acc.
Proof.
  induction acc as [|[k n] acc IH]; simpl.
  - reflexivity.
  - destruct (eqb k y) eqn:Eky; simpl.
    + apply eqb_eq in Eky. subst k.
      destruct (eqb y x); reflexivity.
    + destruct (eqb k x) eqn:Ekx.
      * apply eqb_eq in Ekx. subst k.
        destruct (eqb y x) eqn:Eyx; [|reflexivity].
        apply eqb_eq in Eyx. subst y. rewrite eqb_refl in Eky. discriminate.
      * exact IH.
Qed.

Lemma buscar_conteo_contar_desde (x : str) (l : list str)
  (acc : list (str * nat)) :
  match buscar_conteo eqb x
          (fold_left (fun acc y => incrementar eqb y acc) l acc) with
  | Some n => n
  | None => O
  end
  = (match buscar_conteo eqb x acc with Some n => n | None => O end
     + veces x l)%nat.
Proof.
  revert acc; induction l as [|y l IH]; intros acc; simpl.
  - unfold veces. simpl. lia.
  - rewrite IH, buscar_conteo_incrementar. unfold veces. simpl.
    destruct (eqb y x) eqn:E.
    + apply eqb_eq in E. subst y. rewrite eqb_refl. simpl. lia.
    + assert (eqb x y = false) as ->.
      { apply eqb_neq. apply eqb_neq in E. congruence. }
      reflexivity.
Qed.

(** [value_counts] gives each value the number of times it occurs. *)
Lemma value_counts_veces (x : str) (l : list str) :
  In x l ->
  buscar_conteo eqb x (value_counts eqb l) = Some (veces x l).
Proof.
  intros Hin.
  assert (Hc : buscar_conteo eqb x (contar eqb l) = Some (veces x l)).
  { pose proof (buscar_conteo_contar_desde x l []) as H. simpl in H.
    fold (contar eqb l) in H.
    destruct (buscar_conteo_Some eqb eqb_eq x (contar eqb l)) as [n Hn].
    { unfold contar. apply (contar_desde_claves eqb eqb_eq). tauto. }
    rewrite Hn in *. congruence. }
  apply (buscar_conteo_In eqb eqb_eq).
  - apply (Permutation_NoDup (l := map fst (contar eqb l))).
    + apply Permutation_map, Permutation_sym, value_counts_perm.
    + apply (contar_NoDup eqb eqb_eq).
  - apply (Permutation_in (l := contar eqb l)).
    + apply Permutation_sym, value_counts_perm.
    + apply (buscar_conteo_In eqb eqb_eq); [apply (contar_NoDup eqb eqb_eq)|].
      exact Hc.
Qed.

Open Scope string_scope.
Open Scope Z_scope.

(** X26.  The rank of a neighbourhood: a location string equal to the
    neighbourhood of some row gets a position between 1 and the number
    of distinct neighbourhoods, and its population is the number of
    rows of that neighbourhood. *)
Theorem ranking_posicion_y_poblacion (df : DataFrame) (ubic : str) :
  (exists p, In p (filas df) /\ Col.colonia p = Some ubic) ->
  exists r,
    _obtener_ranking_colonia df ubic = Some r
    /\ 1 <= Ranking.posicion r <= Ranking.de_total r
    /\ Ranking.de_total r = nunique eqb (colonias df)
    /\ Ranking.poblacion r = Z.of_nat (veces ubic (colonias df)).
Proof.
  intros H. apply colonias_In in H.
  unfold _obtener_ranking_colonia.
  rewrite (value_counts_veces _ _ H).
  assert (Hk : In ubic (map fst (value_counts eqb (colonias df))))
    by (apply (value_counts_claves eqb eqb_eq); exact H).
  destruct (index_of_Some eqb eqb_eq _ _ Hk) as [i Hi]. rewrite Hi.
  eexists. split; [reflexivity|].
  cbn [Ranking.posicion Ranking.de_total Ranking.poblacion].
  apply index_of_lt in Hi. rewrite length_map in Hi.
  split; [lia|]. split; [|reflexivity].
  unfold nunique. rewrite value_counts_length. reflexivity.
Qed.

(* ================================================================= *)
(** ** Bounds of the statistics *)

Lemma porcentaje_de_entre (k num den : Z) :
  0 <= k -> 0 < den -> 0 <= num <= den ->
  0 <= porcentaje_de k num den <= 100 * 10 ^ k.
Proof.
  intros Hk Hd Hn. unfold porcentaje_de.
  assert (0 < 10 ^ k) by (apply Z.pow_pos_nonneg; lia).
  apply round_half_even_between; [assumption|]. nia.
Qed.

Lemma suma_a_enteros {A : Type} (l : list (A * nat)) :
  suma (map snd (a_enteros l)) = Z.of_nat (total_conteos l).
Proof.
  induction l as [|[k n] l IH]; [reflexivity|].
  unfold a_enteros in *. cbn [map suma fold_right total_conteos fst snd].
  fold (suma (map snd (map (fun kv : A * nat => (fst kv, Z.of_nat (snd kv))) l))).
  rewrite IH. unfold total_conteos. lia.
Qed.

Lemma suma_conteos_enteros {A : Type} (l : list (A * nat)) :
  suma (map (fun g => Z.of_nat (snd g)) l) = Z.of_nat (total_conteos l).
Proof.
  induction l as [|[k n] l IH]; [reflexivity|].
  cbn [map suma fold_right total_conteos fst snd].
  fold (suma (map (fun g : A * nat => Z.of_nat (snd g)) l)).
  rewrite IH. unfold total_conteos. lia.
Qed.

Lemma nunique_entre {A : Type} (eqbA : A -> A -> bool)
  (eqbA_eq : forall a b, eqbA a b = true <-> a = b) (l : list A) :
  l <> [] -> 1 <= nunique eqbA l <= Z.of_nat (List.length l).
Proof.
  intros H. unfold nunique.
  pose proof (contar_length_le eqbA l).
  pose proof (contar_no_vacio eqbA eqbA_eq l H).
  destruct (contar eqbA l); [congruence|]. simpl in *. lia.
Qed.

Lemma minimo_cota (x : Z) (xs : list Z) :
  minimo x xs <= x /\ forall y, In y xs -> minimo x xs <= y.
Proof.
  revert x; induction xs as [|z xs IH]; intros x; simpl.
  - split; [lia | contradiction].
  - destruct (IH (Z.min x z)) as [H1 H2]. split; [lia|].
    intros y [<-|Hy]; [lia | auto].
Qed.

Lemma maximo_cota (x : Z) (xs : list Z) :
  x <= maximo x xs /\ forall y, In y xs -> y <= maximo x xs.
Proof.
  revert x; induction xs as [|z xs IH]; intros x; simpl.
  - split; [lia | contradiction].
  - destruct (IH (Z.max x z)) as [H1 H2]. split; [lia|].
    intros y [<-|Hy]; [lia | auto].
Qed.

Lemma mean_no_vacio (xs : list Z) :
  xs <> [] -> mean xs = Some (suma xs, Z.of_nat (List.length xs)).
Proof. destruct xs; [congruence | reflexivity]. Qed.

(** The mean age rounded to one decimal lies between the smallest and
    the largest age; the mean is in tenths. *)
Lemma edad_promedio_entre_extremos (e : Z) (es : list Z) :
  minimo e es <= maximo e es
  /\ 10 * minimo e es
     <= redondear 1 (suma (e :: es)) (Z.of_nat (List.length (e :: es)))
     <= 10 * maximo e es.
Proof.
  pose proof (minimo_cota e es) as [Hm1 Hm2].
  pose proof (maximo_cota e es) as [HM1 HM2].
  split; [lia|].
  unfold redondear. change (10 ^ 1) with 10.
  assert (Hs : minimo e es * Z.of_nat (List.length (e :: es))
               <= suma (e :: es)
               <= maximo e es * Z.of_nat (List.length (e :: es))).
  { apply suma_entre. intros x [<-|Hx]; [lia|].
    specialize (Hm2 x Hx). specialize (HM2 x Hx). lia. }
  apply round_half_even_between; [simpl; lia | lia].
Qed.

(* ================================================================= *)
(** ** Demographic profiler, further *)

(** X10.  In a profile the total is the number of rows, the counts by sex
    add up to the total, the households are between 1 and the total,
    and the mean of persons per household (hundredths) is at least
    1.00 and at most the total. *)
Theorem perfil_invariantes (df_segmento : DataFrame) (perfil : Perfil.t) :
  generar_perfil_segmento df_segmento = Some perfil ->
  Perfil.total_personas perfil = len df_segmento
  /\ 0 < Perfil.total_personas perfil
  /\ suma (map snd (Perfil.distribucion_sexo perfil))
     = Perfil.total_personas perfil
  /\ 1 <= Perfil.hogares_afectados perfil <= Perfil.total_personas perfil
  /\ 100 <= Perfil.personas_por_hogar perfil
     <= 100 * Perfil.total_personas perfil.
Proof.
  unfold generar_perfil_segmento.
  destruct (Z.eqb_spec (len df_segmento) 0) as [|Hn]; [discriminate|].
  intros [= <-].
  cbn [Perfil.total_personas Perfil.distribucion_sexo Perfil.hogares_afectados
         Perfil.personas_por_hogar].
  assert (Hne : map Col.id_hogar (filas df_segmento) <> []).
  { unfold len in Hn. destruct (filas df_segmento); [simpl in Hn; lia|].
    discriminate. }
  assert (Hlen : Z.of_nat (List.length (map Col.id_hogar (filas df_segmento)))
                 = len df_segmento).
  { unfold len. rewrite length_map. reflexivity. }
  pose proof (nunique_entre Z.eqb Z.eqb_eq _ Hne) as Hu.
  split; [reflexivity|]. split; [unfold len in *; lia|]. split.
  - rewrite suma_a_enteros, value_counts_total, length_map. reflexivity.
  - split; [lia|].
    unfold nunique in Hu.
    set (grupos := contar Z.eqb (map Col.id_hogar (filas df_segmento))) in *.
    assert (Hs : suma (map (fun g => Z.of_nat (snd g)) grupos) = len df_segmento).
    { rewrite suma_conteos_enteros. unfold grupos. rewrite contar_total.
      exact Hlen. }
    rewrite mean_no_vacio.
    + rewrite Hs, length_map. cbn [round_mean].
      unfold redondear. change (10 ^ 2) with 100.
      apply round_half_even_between; [lia | nia].
    + intros Eg. apply (f_equal (@List.length Z)) in Eg.
      rewrite length_map in Eg. simpl in Eg. lia.
Qed.

Close Scope Z_scope.
Close Scope string_scope.

(* ================================================================= *)
(** ** Eligibility analysis, further *)

Lemma conteo_le_total {A : Type} (kv : A * nat) (l : list (A * nat)) :
  In kv l -> (snd kv <= total_conteos l)%nat.
Proof.
  induction l as [|x l IH]; simpl; [contradiction|].
  intros [->|H]; [lia|]. specialize (IH H). lia.
Qed.


Section PropiedadesElegibilidad.

Context {Regex : Type}.
Variable re_compile : str -> option Regex.
Variable re_search : Regex -> str -> bool.
Variable str_lower : str -> str.

Open Scope string_scope.
Open Scope Z_scope.

Lemma filtros_basicos_subtabla (df df_filtrado : DataFrame)
  (rango : option (Z * Z)) (ubic sexo_dado carencia : option str) :
  _aplicar_filtros_basicos re_compile re_search df rango ubic sexo_dado
    carencia = Some df_filtrado ->
  columns df_filtrado = columns df /\ 0 <= len df_filtrado <= len df.
Proof.
  unfold _aplicar_filtros_basicos.
  destruct rango as [r|]; destruct (dado sexo_dado) as [s|];
    (destruct (dado ubic) as [u|]; [destruct (re_compile u) as [re|]|]);
    try discriminate;
    (destruct (dado carencia) as [c|];
     [destruct (carencia_map c) as [columna|]|]);
    intros [= <-]; (split; [reflexivity|]);
    repeat match goal with
           | |- context [seleccionar ?m ?d] =>
               lazymatch goal with
               | H : 0 <= len (seleccionar m d) <= len d |- _ => fail
               | _ => pose proof (len_seleccionar_le m d)
               end
           end;
    unfold len in *; lia.
Qed.

(** A completed analysis comes from a non-empty filtered table of an
    instance that has the attribute [mapeo_programas]; its three first
    sections are computed from the eligible rows of that table, and
    the last two are the context and the comparison of the location,
    when one is given. *)
Lemma analizar_elegibilidad_secciones (self : AnalizadorProgramasSociales.t)
  (programa : str)
  (rango : option (Z * Z)) (ubic sexo_dado carencia : option str)
  (r : Elegibilidad.t) :
  let df := AnalizadorProgramasSociales.df self in
  analizar_elegibilidad_programa re_compile re_search str_lower self programa
    rango ubic sexo_dado carencia = Some (ResultadoElegibilidadOk r) ->
  exists df_filtrado,
    _aplicar_filtros_basicos re_compile re_search df rango ubic sexo_dado
      carencia = Some df_filtrado
    /\ 0 < len df_filtrado
    /\ Elegibilidad.seccion_1_poblacion_elegible r
       = seccion_1 df df_filtrado
           (seleccionar (otra_es_yes (columna_de_programa programa))
              df_filtrado)
    /\ Elegibilidad.seccion_2_perfil_elegibles r
       = seccion_2 (seleccionar (otra_es_yes (columna_de_programa programa))
                      df_filtrado)
    /\ Elegibilidad.seccion_3_carencias_detectadas r
       = seccion_3 (seleccionar (otra_es_yes (columna_de_programa programa))
                      df_filtrado)
    /\ Elegibilidad.seccion_4_contexto_colonia r
       = match dado ubic with
         | Some u => _obtener_contexto_colonia re_compile re_search df u
         | None => None
         end
    /\ Elegibilidad.seccion_5_comparativa r
       = match dado ubic with
         | Some u => _generar_comparativa str_lower programa u df_filtrado
         | None => None
         end
    /\ mem (columna_de_programa programa) (columns df) = true
    /\ AnalizadorProgramasSociales.mapeo_programas self <> None.
Proof.
  cbv zeta. unfold analizar_elegibilidad_programa.
  destruct (mem (columna_de_programa programa)
              (columns (AnalizadorProgramasSociales.df self)));
    cbn [negb].
  2:{ destruct (AnalizadorProgramasSociales.programas_nombres self);
        [destruct (AnalizadorProgramasSociales.programas_disponibles self)|];
        discriminate. }
  destruct (_aplicar_filtros_basicos re_compile re_search
              (AnalizadorProgramasSociales.df self) rango ubic
              sexo_dado carencia) as [d|] eqn:Hf; [|discriminate].
  destruct (Z.eqb_spec (len d) 0) as [|Hn]; [discriminate|].
  assert (0 < len d) by (unfold len in *; lia).
  destruct (AnalizadorProgramasSociales.mapeo_programas self) as [mapeo|].
  2:{ destruct (dado ubic) as [u|]; [|discriminate].
      destruct (_obtener_contexto_colonia re_compile re_search
                  (AnalizadorProgramasSociales.df self) u);
        [|discriminate].
      destruct (_generar_comparativa str_lower programa u d);
        discriminate. }
  destruct (dado ubic) as [u|].
  - destruct (_obtener_contexto_colonia re_compile re_search
                (AnalizadorProgramasSociales.df self) u);
      [|discriminate].
    destruct (_generar_comparativa str_lower programa u d) eqn:Ek;
      [|discriminate].
    intros [= <-]. exists d.
    repeat split; try assumption; try reflexivity;
      try (symmetry; exact Ek); discriminate.
  - intros [= <-]. exists d.
    repeat split; try assumption; try reflexivity; discriminate.
Qed.

(** X11.  In a completed eligibility analysis the eligible people are at
    most the filtered ones: both rates lie in [0,100], the households
    are at most the eligible people, and every deprivation count of
    section 3 is at most the eligible people, with its percentage in
    [0,100].  Rates are in hundredths. *)
Theorem elegibilidad_tasas_acotadas (self : AnalizadorProgramasSociales.t)
  (programa : str)
  (rango : option (Z * Z)) (ubic sexo_dado carencia : option str)
  (r : Elegibilidad.t) :
  analizar_elegibilidad_programa re_compile re_search str_lower self programa
    rango ubic sexo_dado carencia = Some (ResultadoElegibilidadOk r) ->
  let s1 := Elegibilidad.seccion_1_poblacion_elegible r in
  0 <= PoblacionElegible.total_elegibles s1
  <= len (AnalizadorProgramasSociales.df self)
  /\ 0 <= PoblacionElegible.tasa_elegibilidad s1 <= 10000
  /\ 0 <= PoblacionElegible.porcentaje_del_total_estudio s1 <= 10000
  /\ 0 <= PoblacionElegible.hogares_afectados s1
     <= PoblacionElegible.total_elegibles s1
  /\ Forall (fun kv =>
               0 <= Conteo.cantidad (snd kv)
               <= PoblacionElegible.total_elegibles s1
               /\ 0 <= Conteo.porcentaje (snd kv) <= 10000)
       (Elegibilidad.seccion_3_carencias_detectadas r).
Proof.
  intros H. apply analizar_elegibilidad_secciones in H.
  destruct H as (d & Hf & Hd & -> & _ & -> & _).
  apply filtros_basicos_subtabla in Hf. destruct Hf as [_ Hlen].
  set (df := AnalizadorProgramasSociales.df self) in *.
  set (e := seleccionar (otra_es_yes (columna_de_programa programa)) d).
  pose proof (len_seleccionar_le (otra_es_yes (columna_de_programa programa)) d)
    as He. fold e in He.
  cbv zeta. unfold seccion_1.
  cbn [PoblacionElegible.total_elegibles PoblacionElegible.tasa_elegibilidad
         PoblacionElegible.porcentaje_del_total_estudio
         PoblacionElegible.hogares_afectados].
  destruct (Z.ltb_spec 0 (len d)) as [_|]; [|lia].
  destruct (Z.ltb_spec 0 (len df)) as [_|]; [|lia].
  split; [lia|]. split; [apply (porcentaje_de_entre 2); lia|].
  split; [apply (porcentaje_de_entre 2); lia|]. split.
  - destruct (Z.ltb_spec 0 (len e)) as [Hpos|]; [|lia].
    assert (Hne : map Col.id_hogar (filas e) <> []).
    { unfold len in Hpos. destruct (filas e); [simpl in Hpos; lia|].
      discriminate. }
    pose proof (nunique_entre Z.eqb Z.eqb_eq _ Hne) as Hu.
    rewrite length_map in Hu. unfold len. lia.
  - unfold seccion_3. apply Forall_forall. intros kv Hkv.
    apply in_map_iff in Hkv. destruct Hkv as [c [<- _]].
    cbn [snd Conteo.cantidad Conteo.porcentaje].
    assert (Hc : 0 <= cuantos_yes (snd (fst c)) e <= len e).
    { unfold cuantos_yes, len.
      pose proof (filter_length_le (fun p => es_yes (snd (fst c) p)) (filas e)).
      lia. }
    split; [exact Hc|].
    destruct (Z.ltb_spec 0 (len e)); [|lia].
    apply (porcentaje_de_entre 2); lia.
Qed.

(** X12.  In a completed eligibility analysis with eligible people, the
    smallest age is at most the largest, the mean age lies between
    them, the counts by sex add up to the eligible people and the
    percentages by sex lie in [0,100]; with no eligible people the
    whole profile is zero.  The mean and the percentages by sex are
    in tenths. *)
Theorem elegibilidad_perfil_edades (self : AnalizadorProgramasSociales.t)
  (programa : str)
  (rango : option (Z * Z)) (ubic sexo_dado carencia : option str)
  (r : Elegibilidad.t) :
  analizar_elegibilidad_programa re_compile re_search str_lower self programa
    rango ubic sexo_dado carencia = Some (ResultadoElegibilidadOk r) ->
  let total :=
    PoblacionElegible.total_elegibles
      (Elegibilidad.seccion_1_poblacion_elegible r) in
  let s2 := Elegibilidad.seccion_2_perfil_elegibles r in
  (total = 0 -> s2 = PerfilElegibles.mk 0 0 0 [] [])
  /\ (0 < total ->
      PerfilElegibles.edad_minima s2 <= PerfilElegibles.edad_maxima s2
      /\ 10 * PerfilElegibles.edad_minima s2
         <= PerfilElegibles.edad_promedio s2
         <= 10 * PerfilElegibles.edad_maxima s2
      /\ suma (map snd (PerfilElegibles.distribucion_sexo s2)) = total
      /\ Forall (fun kv => 0 <= snd kv <= 1000)
           (PerfilElegibles.distribucion_sexo_porcentaje s2)).
Proof.
  intros H. apply analizar_elegibilidad_secciones in H.
  destruct H as (d & _ & _ & -> & -> & _).
  set (df := AnalizadorProgramasSociales.df self) in *.
  set (e := seleccionar (otra_es_yes (columna_de_programa programa)) d).
  cbv zeta. unfold seccion_1. cbn [PoblacionElegible.total_elegibles].
  unfold seccion_2, edades.
  assert (Hlen : len e = Z.of_nat (List.length (map Col.edad_persona (filas e)))).
  { unfold len. rewrite length_map. reflexivity. }
  destruct (map Col.edad_persona (filas e)) as [|x xs] eqn:Ex.
  - split; [reflexivity|]. simpl in Hlen. lia.
  - split; [simpl in Hlen; lia|]. intros _.
    cbn [PerfilElegibles.edad_minima PerfilElegibles.edad_maxima
           PerfilElegibles.edad_promedio PerfilElegibles.distribucion_sexo
           PerfilElegibles.distribucion_sexo_porcentaje].
    rewrite Hlen.
    pose proof (edad_promedio_entre_extremos x xs) as [H1 H2].
    split; [exact H1|]. split; [exact H2|].
    assert (Ht : total_conteos
                   (value_counts eqb (map Col.sexo_persona (filas e)))
                 = List.length (x :: xs)).
    { rewrite value_counts_total, length_map, <- Ex, length_map.
      reflexivity. }
    split.
    + rewrite suma_a_enteros, Ht. reflexivity.
    + apply Forall_forall. intros kv Hkv.
      apply in_map_iff in Hkv. destruct Hkv as [c [<- Hc]].
      cbn [snd]. apply conteo_le_total in Hc. rewrite Ht in Hc.
      apply (porcentaje_de_entre 1); simpl List.length in *; lia.
Qed.

Close Scope Z_scope.
Close Scope string_scope.

End PropiedadesElegibilidad.

(* ================================================================= *)
(** ** Inter-neighbourhood comparison *)

Open Scope string_scope.
Open Scope Z_scope.



Lemma insertar_por_clave_perm (x : str * nat) (l : list (str * nat)) :
  Permutation (insertar_por_clave x l) (x :: l).
Proof.
  induction l as [|y l IH]; simpl; [reflexivity|].
  destruct (str_ltb (fst y) (fst x)); [|reflexivity].
  rewrite IH. apply perm_swap.
Qed.

Lemma grupos_por_colonia_perm (df : DataFrame) :
  Permutation (grupos_por_colonia df) (contar eqb (colonias df)).
Proof.
  unfold grupos_por_colonia.
  induction (contar eqb (colonias df)) as [|x c IH]; simpl; [reflexivity|].
  rewrite insertar_por_clave_perm. constructor. exact IH.
Qed.



Lemma grupos_por_colonia_vacio (df : DataFrame) :
  grupos_por_colonia df = [] <-> colonias df = [].
Proof.
  pose proof (grupos_por_colonia_perm df) as Hp. split; intros H.
  - rewrite H in Hp. apply Permutation_nil in Hp.
    destruct (colonias df) as [|c cs] eqn:E; [reflexivity|].
    exfalso. apply (contar_no_vacio eqb eqb_eq (c :: cs)); [discriminate|].
    exact Hp.
  - unfold grupos_por_colonia. rewrite H. reflexivity.
Qed.

Lemma colonias_vacio (df : DataFrame) :
  colonias df = [] <-> forall p, In p (filas df) -> Col.colonia p = None.
Proof.
  split.
  - intros H p Hp. destruct (Col.colonia p) as [c|] eqn:E; [|reflexivity].
    assert (Hin : In c (colonias df)) by (apply colonias_In; exists p; tauto).
    rewrite H in Hin. destruct Hin.
  - intros H. destruct (colonias df) as [|c cs] eqn:E; [reflexivity|].
    assert (Hin : In c (colonias df)) by (rewrite E; left; reflexivity).
    apply colonias_In in Hin. destruct Hin as [p [Hp Hc]].
    rewrite (H p Hp) in Hc. discriminate Hc.
Qed.

Lemma comparativa_lanza (str_lower : str -> str) (programa ubic : str)
  (df_filtrado : DataFrame) :
  _generar_comparativa str_lower programa ubic df_filtrado = None
  <-> (forall p, In p (filas df_filtrado) -> Col.colonia p = None)
      \/ mem (columna_de_programa programa) (columns df_filtrado) = false.
Proof.
  rewrite <- colonias_vacio, <- grupos_por_colonia_vacio.
  unfold _generar_comparativa.
  destruct (grupos_por_colonia df_filtrado).
  - split; [left|]; reflexivity.
  - destruct (mem (columna_de_programa programa) (columns df_filtrado));
      cbn [negb]; split; try discriminate.
    + intros [H|H]; discriminate H.
    + right. reflexivity.
    + reflexivity.
Qed.


(* ================================================================= *)
(** ** Cross-tabulation, further *)

Lemma edad_grupo_presente (edad : Z) :
  match edad_grupo edad with Some _ => true | None => false end
  = (0 <=? edad) && (edad <? 120).
Proof.
  unfold edad_grupo, cut, bins. cbn [searchsorted_right].
  destruct (Z.leb_spec 0 edad); destruct (Z.ltb_spec edad 120); simpl;
    repeat match goal with
           | |- context [?a <=? ?b] => destruct (Z.leb_spec a b); try lia
           end;
    reflexivity.
Qed.

Lemma tabla_de_TablaCruzada (contados pares : list (str * str)) :
  tabla_de contados = TablaCruzada pares -> contados = pares.
Proof.
  destruct contados; [discriminate|]. intros [= <-]. reflexivity.
Qed.

Lemma pares_contados_length {A : Type} (g : A -> option str * option str)
  (l : list A) :
  List.length (pares_contados (map g l))
  = List.length
      (filter (fun x =>
                 match fst (g x) with Some _ => true | None => false end
                 && match snd (g x) with Some _ => true | None => false end)
         l).
Proof.
  induction l as [|x l IH]; simpl; [reflexivity|].
  destruct (g x) as [[f|] [c|]]; simpl; rewrite IH; reflexivity.
Qed.

(** X14.  A cross-tabulation that is returned comes from a filtered table
    with rows, and its grand total is the number of those rows that
    have a label on both axes: a grouped age has one when it lies in
    [0,120), any other value when it is not missing.  The total is at
    most the number of rows of the filtered table. *)
Theorem tabla_cruzada_total_registros (df : DataFrame)
  (variable_filas variable_columnas : str) (filtros : option Criterios)
  (agrupar_edad : bool) (pares : list (str * str)) :
  analizar_tabla_cruzada df variable_filas variable_columnas filtros
    agrupar_edad = TablaCruzada pares ->
  let df_filtrado :=
    match filtros with
    | Some f => _aplicar_filtros_tabla_cruzada df f
    | None => df
    end in
  0 < len df_filtrado
  /\ total_registros pares
     = len (seleccionar
              (fun p => etiqueta_presente agrupar_edad variable_filas p
                        && etiqueta_presente agrupar_edad variable_columnas p)
              df_filtrado)
  /\ total_registros pares <= len df_filtrado.
Proof.
  cbv zeta. unfold analizar_tabla_cruzada.
  destruct (mem variable_filas (columns df)); cbn [negb]; [|discriminate].
  destruct (mem variable_columnas (columns df)); cbn [negb]; [|discriminate].
  set (d := match filtros with
            | Some f => _aplicar_filtros_tabla_cruzada df f
            | None => df
            end).
  destruct (Z.eqb_spec (len d) 0) as [|Hn]; [discriminate|].
  assert (Hpos : 0 < len d) by (unfold len in *; lia).
  assert (Hgoal : forall n,
            n = len (seleccionar
                       (fun p => etiqueta_presente agrupar_edad variable_filas p
                                 && etiqueta_presente agrupar_edad
                                      variable_columnas p) d) ->
            0 < len d /\ n = len (seleccionar
                       (fun p => etiqueta_presente agrupar_edad variable_filas p
                                 && etiqueta_presente agrupar_edad
                                      variable_columnas p) d)
            /\ n <= len d).
  { intros n ->. split; [exact Hpos|]. split; [reflexivity|].
    apply len_seleccionar_le. }
  destruct ((eqb variable_filas (py "edad_persona")
             || eqb variable_columnas (py "edad_persona")) && agrupar_edad)
    eqn:Eb; intros Ht; apply tabla_de_TablaCruzada in Ht; subst pares;
    apply Hgoal; unfold total_registros, len, seleccionar;
    cbn [filas]; f_equal.
  - apply andb_true_iff in Eb. destruct Eb as [_ ->].
    unfold _agrupar_edades. rewrite map_map, pares_contados_length.
    f_equal. apply filter_ext. intros p. cbn [fst snd].
    unfold valor_agrupado, etiqueta_presente. cbn [fst snd].
    rewrite !andb_true_r.
    destruct (eqb variable_filas (py "edad_persona"));
      destruct (eqb variable_columnas (py "edad_persona"));
      rewrite ?edad_grupo_presente; reflexivity.
  - rewrite pares_contados_length. f_equal. apply filter_ext. intros p.
    cbn [fst snd]. unfold etiqueta_presente.
    destruct agrupar_edad.
    + rewrite andb_true_r in Eb. apply orb_false_iff in Eb.
      destruct Eb as [-> ->]. reflexivity.
    + rewrite !andb_false_r. reflexivity.
Qed.

Close Scope Z_scope.
Close Scope string_scope.

(* ================================================================= *)
(** ** Substrings *)

Lemma startswith_spec (s prefix : str) :
  startswith s prefix = true <-> exists post, s = prefix ++ post.
Proof.
  revert s; induction prefix as [|c prefix IH]; intros s; simpl.
  - split; [intros _; exists s; reflexivity | reflexivity].
  - destruct s as [|d s].
    + split; [discriminate | intros [post H]; discriminate H].
    + rewrite andb_true_iff, N.eqb_eq, IH. split.
      * intros [-> [post ->]]. exists post. reflexivity.
      * intros [post [= -> ->]]. split; [reflexivity|]. exists post.
        reflexivity.
Qed.

Lemma contains_spec (sub s : str) :
  contains sub s = true <-> exists pre post, s = pre ++ sub ++ post.
Proof.
  induction s as [|c s IH].
  - simpl. rewrite orb_false_r, startswith_spec. split.
    + intros [post H]. exists [], post. exact H.
    + intros [pre [post H]]. destruct pre as [|x pre]; [|discriminate H].
      exists post. exact H.
  - cbn [contains]. rewrite orb_true_iff, startswith_spec, IH. split.
    + intros [[post H]|[pre [post H]]].
      * exists [], post. exact H.
      * exists (c :: pre), post. rewrite H. reflexivity.
    + intros [pre [post H]]. destruct pre as [|x pre].
      * left. exists post. exact H.
      * right. injection H as _ H. exists pre, post. exact H.
Qed.

(** A substring of a substring is a substring. *)
Lemma contains_trans (a b c : str) :
  contains a b = true -> contains b c = true -> contains a c = true.
Proof.
  rewrite !contains_spec. intros [p1 [q1 ->]] [p2 [q2 ->]].
  exists (p2 ++ p1), (q1 ++ q2). rewrite <- !app_assoc. reflexivity.
Qed.

Lemma contains_refl (a : str) : contains a a = true.
Proof. apply contains_spec. exists [], []. rewrite app_nil_r. reflexivity. Qed.

(* ================================================================= *)
(** ** Query translator, further *)

Section TraductorCarencias.

Variable texto : str.

Lemma carencias_paso (a : Acumulado) (t : str * Mapeo) :
  let a' := paso_termino texto a t in
  carencia_salud (ac_criterios a')
  = carencia_salud (ac_criterios a) || enciende texto 0 t
  /\ carencia_educacion (ac_criterios a')
     = carencia_educacion (ac_criterios a) || enciende texto 1 t
  /\ carencia_seguridad_social (ac_criterios a')
     = carencia_seguridad_social (ac_criterios a) || enciende texto 2 t.
Proof.
  cbv zeta. unfold paso_termino, enciende, filtro_de_termino.
  destruct t as [t m]. cbn [fst snd].
  destruct (contains t texto); cbn [andb];
    [|rewrite !orb_false_r; repeat split].
  destruct m as [v|v|v [f|]|v|v|v]; cbn [aplicar_mapeo ac_criterios];
    try (rewrite !orb_false_r; repeat split; fail).
  - destruct (rango_edad (ac_criterios a)); cbn [ac_criterios];
      rewrite !orb_false_r; repeat split.
  - unfold aplicar_filtro_carencia.
    destruct (contains (py "salud") t);
      [|destruct (contains (py "educación") t || contains (py "educacion") t
                  || contains (py "rezago") t);
        [|destruct (contains (py "seguridad_social") t
                    || contains (py "social") t)]];
      cbn; rewrite ?orb_false_r, ?orb_true_r; repeat split.
Qed.

Lemma carencias_buscar_terminos (ts : list (str * Mapeo)) (a : Acumulado) :
  let a' := buscar_terminos texto ts a in
  carencia_salud (ac_criterios a')
  = carencia_salud (ac_criterios a) || existsb (enciende texto 0) ts
  /\ carencia_educacion (ac_criterios a')
     = carencia_educacion (ac_criterios a) || existsb (enciende texto 1) ts
  /\ carencia_seguridad_social (ac_criterios a')
     = carencia_seguridad_social (ac_criterios a) || existsb (enciende texto 2) ts.
Proof.
  cbv zeta. revert a; induction ts as [|t ts IH]; intros a.
  - simpl. rewrite !orb_false_r. repeat split.
  - unfold buscar_terminos in *. cbn [fold_left existsb].
    destruct (IH (paso_termino texto a t)) as (-> & -> & ->).
    destruct (carencias_paso a t) as (-> & -> & ->).
    rewrite !orb_assoc. repeat split.
Qed.

(** When every term that turns a filter on contains one of the
    key phrases, and every key phrase is itself such a term, the
    filter is on exactly when the text contains a key phrase. *)
Lemma enciende_por_claves (k : nat) (claves : list str)
  (ts : list (str * Mapeo)) :
  forallb (fun t => match filtro_de_termino t with
                    | Some j =>
                        if (j =? k)%nat
                        then existsb (fun c => contains c (fst t)) claves
                        else true
                    | None => true
                    end) ts = true ->
  forallb (fun c =>
             existsb (fun t => eqb (fst t) c
                               && match filtro_de_termino t with
                                  | Some j => (j =? k)%nat
                                  | None => false
                                  end) ts) claves = true ->
  existsb (enciende texto k) ts = existsb (fun c => contains c texto) claves.
Proof.
  intros H1 H2. apply eq_true_iff_eq.
  rewrite !existsb_exists. rewrite forallb_forall in H1, H2. split.
  - intros [t [Ht He]]. unfold enciende in He.
    apply andb_true_iff in He. destruct He as [Hc Hf].
    specialize (H1 t Ht).
    destruct (filtro_de_termino t) as [j|]; [|discriminate].
    rewrite Hf in H1. apply existsb_exists in H1.
    destruct H1 as [c [Hin Hcc]]. exists c. split; [assumption|].
    exact (contains_trans _ _ _ Hcc Hc).
  - intros [c [Hin Hc]]. specialize (H2 c Hin).
    apply existsb_exists in H2. destruct H2 as [t [Ht He]].
    apply andb_true_iff in He. destruct He as [Heq Hf].
    apply eqb_eq in Heq. exists t. split; [assumption|].
    unfold enciende. rewrite Heq, Hc, Hf. reflexivity.
Qed.

End TraductorCarencias.

Lemma detectar_conserva_carencias (texto : str) (c : Criterios) :
  let c' := detectar_ordenamiento texto (detectar_segmentacion texto c) in
  carencia_salud c' = carencia_salud c
  /\ carencia_educacion c' = carencia_educacion c
  /\ carencia_seguridad_social c' = carencia_seguridad_social c.
Proof.
  unfold detectar_ordenamiento, detectar_segmentacion.
  repeat match goal with |- context [if ?b then _ else _] => destruct b end;
    repeat split.
Qed.

Open Scope string_scope.

(** X4.  Which queries turn on the deprivation filters: health, when the
    text contains "salud"; education, when it contains "educación" or
    "rezago educativo"; social security, when it contains "seguridad
    social" or "carencia social".  The other deprivation phrases of the
    dictionary ("sin afiliación", "no asiste a la escuela", ...) add a
    detected variable and no filter. *)
Theorem filtros_de_carencia_por_texto (consulta : str) :
  let c := criterios_demograficos (traducir_consulta_natural consulta) in
  let texto := lower consulta in
  carencia_salud c = contains (py "salud") texto
  /\ carencia_educacion c
     = contains (py "educación") texto
       || contains (py "rezago educativo") texto
  /\ carencia_seguridad_social c
     = contains (py "seguridad social") texto
       || contains (py "carencia social") texto.
Proof.
  cbv zeta. unfold traducir_consulta_natural. cbn [criterios_demograficos].
  destruct (detectar_conserva_carencias (lower consulta)
              (ac_criterios (buscar_terminos (lower consulta) terminos_ordenados
                               (mkAcumulado criterios_vacios [] []))))
    as (-> & -> & ->).
  destruct (carencias_buscar_terminos (lower consulta) terminos_ordenados
              (mkAcumulado criterios_vacios [] [])) as (-> & -> & ->).
  cbn [ac_criterios carencia_salud carencia_educacion
         carencia_seguridad_social criterios_vacios orb].
  rewrite (enciende_por_claves (lower consulta) 0 [py "salud"])
    by (vm_compute; reflexivity).
  rewrite (enciende_por_claves (lower consulta) 1
             [py "educación"; py "rezago educativo"])
    by (vm_compute; reflexivity).
  rewrite (enciende_por_claves (lower consulta) 2
             [py "seguridad social"; py "carencia social"])
    by (vm_compute; reflexivity).
  cbn [existsb]. rewrite !orb_false_r. repeat split.
Qed.

Close Scope string_scope.

(* ================================================================= *)
(** ** Criteria validator *)

Open Scope string_scope.

Lemma clasificar_sin_invalidas (cols vars : list str) :
  Forall (fun v => mem v cols = true
                   \/ startswith v (py "rango_edad_") = true) vars ->
  snd (clasificar_variables cols vars) = [].
Proof.
  induction 1 as [|v vars Hv _ IH]; [reflexivity|].
  cbn [clasificar_variables].
  destruct (mem v cols); [exact IH|].
  destruct Hv as [Hv|Hv]; [discriminate|]. rewrite Hv. exact IH.
Qed.

Lemma clasificar_invalida (cols vars : list str) (v : str) :
  In v vars -> mem v cols = false ->
  startswith v (py "rango_edad_") = false ->
  contains (py "multiple_carencias") v = false ->
  In v (snd (clasificar_variables cols vars)).
Proof.
  intros Hin Hm Hs Hc. induction vars as [|w vars IH]; [contradiction|].
  cbn [clasificar_variables].
  destruct Hin as [->|Hin].
  - rewrite Hm, Hs, Hc. left. reflexivity.
  - specialize (IH Hin).
    destruct (mem w cols); [exact IH|].
    destruct (startswith w (py "rango_edad_")); [exact IH|].
    destruct (contains (py "multiple_carencias") w); [exact IH|].
    right. exact IH.
Qed.

(** The valid variables are columns of the table and the invalid ones
    are not. *)
Lemma clasificar_validas (cols vars : list str) (v : str) :
  (In v (fst (clasificar_variables cols vars)) -> In v vars /\ In v cols)
  /\ (In v (snd (clasificar_variables cols vars)) ->
      In v vars /\ ~ In v cols).
Proof.
  induction vars as [|w vars [IH1 IH2]]; [split; intros []|].
  cbn [clasificar_variables].
  destruct (mem w cols) eqn:Hm; cbn [fst snd In].
  - split.
    + intros [<-|H]; [split; [tauto | apply mem_In, Hm] | tauto].
    + tauto.
  - destruct (startswith w (py "rango_edad_")); [tauto|].
    destruct (contains (py "multiple_carencias") w); [tauto|].
    cbn [fst snd In]. split; [tauto|].
    intros [<-|H]; [|tauto]. split; [tauto|].
    intros Hin. apply mem_In in Hin. congruence.
Qed.

Section TraductorVariables.

Variable texto : str.

Lemma variables_paso (a : Acumulado) (t : str * Mapeo) :
  In t _mapear_grupos_poblacionales ->
  Forall variable_conocida (ac_variables a) ->
  Forall variable_conocida (ac_variables (paso_termino texto a t)).
Proof.
  intros Ht Ha. unfold paso_termino.
  destruct (contains (fst t) texto); [|exact Ha].
  assert (Hc : forall v, In v (match snd t with
                               | Sexo _ => [py "sexo_persona"]
                               | Columna valor _ => [valor]
                               | Programa valor => [columna_de_programa valor]
                               | _ => []
                               end) -> variable_conocida v).
  { intros v Hv. right. unfold columnas_referidas. apply in_flat_map.
    exists t. split; assumption. }
  destruct t as [t m]. cbn [fst snd] in *.
  destruct m as [v|v|v f|v|v|v]; cbn [aplicar_mapeo ac_variables];
    try exact Ha.
  - destruct (rango_edad (ac_criterios a)); cbn [ac_variables];
      [exact Ha|].
    apply Forall_app. split; [exact Ha|]. constructor; [|constructor].
    left. apply startswith_app.
  - apply Forall_app. split; [exact Ha|]. constructor; [|constructor].
    apply Hc. left. reflexivity.
  - apply Forall_app. split; [exact Ha|]. constructor; [|constructor].
    apply Hc. left. reflexivity.
  - apply Forall_app. split; [exact Ha|]. constructor; [|constructor].
    apply Hc. left. reflexivity.
Qed.

Lemma variables_buscar_terminos (ts : list (str * Mapeo)) (a : Acumulado) :
  (forall t, In t ts -> In t _mapear_grupos_poblacionales) ->
  Forall variable_conocida (ac_variables a) ->
  Forall variable_conocida (ac_variables (buscar_terminos texto ts a)).
Proof.
  revert a; induction ts as [|t ts IH]; intros a Hts Ha; [exact Ha|].
  unfold buscar_terminos in *. cbn [fold_left].
  apply IH.
  - intros t' Ht'. apply Hts. right. exact Ht'.
  - apply variables_paso; [apply Hts; left; reflexivity | exact Ha].
Qed.

Lemma programa_paso (a : Acumulado) (t : str * Mapeo) :
  In t _mapear_grupos_poblacionales ->
  programa_anotado a -> programa_anotado (paso_termino texto a t).
Proof.
  intros Ht Ha. unfold paso_termino.
  destruct (contains (fst t) texto); [|exact Ha].
  assert (Hp : forall v, snd t = Programa v ->
                         In v programas_del_diccionario).
  { intros v Hv. unfold programas_del_diccionario. apply in_flat_map.
    exists t. split; [assumption|]. rewrite Hv. left. reflexivity. }
  destruct t as [t m]. cbn [fst snd] in *. unfold programa_anotado in *.
  destruct m as [v|v|v f|v|v|v]; cbn [aplicar_mapeo ac_variables ac_criterios];
    try exact Ha.
  - destruct (rango_edad (ac_criterios a)); cbn [ac_variables ac_criterios];
      [exact Ha|].
    intros p Hpp. cbn in Hpp. destruct (Ha p Hpp) as [H1 H2].
    split; [apply in_or_app; tauto | exact H2].
  - intros p Hpp. cbn in Hpp. destruct (Ha p Hpp) as [H1 H2].
    split; [apply in_or_app; tauto | exact H2].
  - intros p Hpp.
    assert (Hpp' : programa_social (ac_criterios a) = Some p).
    { destruct f; [rewrite programa_filtro_carencia in Hpp|]; exact Hpp. }
    destruct (Ha p Hpp') as [H1 H2].
    split; [apply in_or_app; tauto | exact H2].
  - intros p Hpp. cbn in Hpp. injection Hpp as <-.
    split; [apply in_or_app; right; left; reflexivity|].
    apply Hp. reflexivity.
Qed.

Lemma programa_buscar_terminos_anotado (ts : list (str * Mapeo))
  (a : Acumulado) :
  (forall t, In t ts -> In t _mapear_grupos_poblacionales) ->
  programa_anotado a -> programa_anotado (buscar_terminos texto ts a).
Proof.
  revert a; induction ts as [|t ts IH]; intros a Hts Ha; [exact Ha|].
  unfold buscar_terminos in *. cbn [fold_left].
  apply IH.
  - intros t' Ht'. apply Hts. right. exact Ht'.
  - apply programa_paso; [apply Hts; left; reflexivity | exact Ha].
Qed.

End TraductorVariables.

Lemma terminos_ordenados_del_diccionario (t : str * Mapeo) :
  In t terminos_ordenados -> In t _mapear_grupos_poblacionales.
Proof. exact (proj1 (proj2 terminos_ordenados_longitud_descendente t)). Qed.

(** Every variable that a translation detects is an age-range concept
    or one of the columns that the dictionary refers to. *)
Lemma variables_detectadas_conocidas (consulta : str) (v : str) :
  In v (variables_detectadas (traducir_consulta_natural consulta)) ->
  startswith v (py "rango_edad_") = true \/ In v columnas_referidas.
Proof.
  unfold traducir_consulta_natural. cbn [variables_detectadas].
  intros H. apply nodup_In in H.
  pose proof (variables_buscar_terminos (lower consulta) terminos_ordenados
                (mkAcumulado criterios_vacios [] [])
                terminos_ordenados_del_diccionario (Forall_nil _)) as Hf.
  rewrite Forall_forall in Hf. exact (Hf v H).
Qed.

(** X15.  On a table that has every column the dictionary refers to, the
    validation of a translated query finds no invalid variable, and the
    query is executable exactly when the translation detected some
    criterion, that is, when its status is "éxito". *)
Theorem validacion_con_esquema_completo (df : DataFrame) (consulta : str) :
  (forall c, In c columnas_referidas -> In c (columns df)) ->
  let traduccion := traducir_consulta_natural consulta in
  let v := validar_variables_mejorado df traduccion in
  Validacion.variables_invalidas v = []
  /\ Validacion.columnas_validas v = true
  /\ Validacion.ejecutable v
     = hay_criterios (criterios_demograficos traduccion)
  /\ Validacion.ejecutable v = eqb (estado traduccion) (py "éxito").
Proof.
  intros Hcols. cbv zeta. unfold validar_variables_mejorado.
  cbn [Validacion.variables_invalidas Validacion.columnas_validas
         Validacion.ejecutable].
  rewrite clasificar_sin_invalidas.
  - split; [reflexivity|]. split; [reflexivity|].
    rewrite andb_true_r. split; [reflexivity|].
    unfold traducir_consulta_natural. cbn [criterios_demograficos estado].
    destruct (hay_criterios _); vm_compute; reflexivity.
  - apply Forall_forall. intros v Hv.
    destruct (variables_detectadas_conocidas consulta v Hv) as [H|H].
    + right. exact H.
    + left. apply mem_In, Hcols, H.
Qed.

Lemma columna_de_programa_no_es_rango (programa : str) :
  startswith (columna_de_programa programa) (py "rango_edad_") = false.
Proof. vm_compute. reflexivity. Qed.

Lemma programas_del_diccionario_sin_concepto (programa : str) :
  In programa programas_del_diccionario ->
  contains (py "multiple_carencias") (columna_de_programa programa) = false.
Proof.
  assert (Hall : forallb (fun p => negb (contains (py "multiple_carencias")
                                           (columna_de_programa p)))
                   programas_del_diccionario = true)
    by (vm_compute; reflexivity).
  rewrite forallb_forall in Hall. intros H. specialize (Hall programa H).
  apply negb_true_iff in Hall. exact Hall.
Qed.

Lemma programa_social_traducido (consulta : str) :
  programa_social (criterios_demograficos (traducir_consulta_natural consulta)) =
  ultimo_valor valor_programa (lower consulta) terminos_ordenados.
Proof.
  unfold traducir_consulta_natural. cbn [criterios_demograficos].
  destruct (detectar_conserva (lower consulta)
              (ac_criterios (buscar_terminos (lower consulta) terminos_ordenados
                               (mkAcumulado criterios_vacios [] []))))
    as (_ & _ & ->).
  rewrite programa_buscar_terminos.
  destruct (ultimo_valor valor_programa (lower consulta) terminos_ordenados);
    reflexivity.
Qed.

(** The program of a translation is a program of the dictionary and
    its eligibility column is among the detected variables. *)
Lemma programa_traducido_detectado (consulta programa : str) :
  programa_social (criterios_demograficos (traducir_consulta_natural consulta))
  = Some programa ->
  In (columna_de_programa programa)
    (variables_detectadas (traducir_consulta_natural consulta))
  /\ In programa programas_del_diccionario.
Proof.
  rewrite programa_social_traducido.
  unfold traducir_consulta_natural. cbn [variables_detectadas].
  intros Hp.
  pose proof (programa_buscar_terminos (lower consulta) terminos_ordenados
                (mkAcumulado criterios_vacios [] [])) as Hb.
  rewrite Hp in Hb.
  assert (Ha : programa_anotado (mkAcumulado criterios_vacios [] [])).
  { intros p Hpp. discriminate Hpp. }
  destruct (programa_buscar_terminos_anotado (lower consulta)
              terminos_ordenados (mkAcumulado criterios_vacios [] [])
              terminos_ordenados_del_diccionario Ha programa Hb)
    as [Hv Hdic].
  split; [apply nodup_In; exact Hv | exact Hdic].
Qed.

(** X16.  When the translation of a query names a program whose eligibility
    column the table does not have, the validation lists that column
    among the invalid variables and the query is not executable. *)
Theorem validacion_detecta_programa_sin_columna (df : DataFrame)
  (consulta programa : str) :
  let traduccion := traducir_consulta_natural consulta in
  let v := validar_variables_mejorado df traduccion in
  programa_social (criterios_demograficos traduccion) = Some programa ->
  ~ In (columna_de_programa programa) (columns df) ->
  In (columna_de_programa programa) (Validacion.variables_invalidas v)
  /\ Validacion.columnas_validas v = false
  /\ Validacion.ejecutable v = false.
Proof.
  cbv zeta. intros Hp Hcol.
  destruct (programa_traducido_detectado consulta programa Hp) as [Hv Hdic].
  assert (Hin : In (columna_de_programa programa)
                  (snd (clasificar_variables (columns df)
                          (variables_detectadas
                             (traducir_consulta_natural consulta))))).
  { apply clasificar_invalida.
    - exact Hv.
    - destruct (mem (columna_de_programa programa) (columns df)) eqn:Hm;
        [|reflexivity].
      apply mem_In in Hm. exfalso. exact (Hcol Hm).
    - apply columna_de_programa_no_es_rango.
    - apply programas_del_diccionario_sin_concepto, Hdic. }
  unfold validar_variables_mejorado.
  cbn [Validacion.variables_invalidas Validacion.columnas_validas
         Validacion.ejecutable].
  split; [exact Hin|].
  destruct (snd (clasificar_variables (columns df)
                   (variables_detectadas (traducir_consulta_natural consulta))));
    [destruct Hin|].
  rewrite andb_false_r. split; reflexivity.
Qed.

Close Scope string_scope.

(* ================================================================= *)
(** ** Rankings of zones *)

Open Scope string_scope.
Open Scope Z_scope.

Lemma value_counts_positivos (l : list str) :
  Forall (fun kv : str * nat => (1 <= snd kv)%nat) (value_counts eqb l).
Proof.
  eapply Permutation_Forall.
  - apply Permutation_sym, value_counts_perm.
  - apply contar_positivos.
Qed.

Lemma presentes_length {A : Type} (l : list (option A)) :
  (List.length (presentes l) <= List.length l)%nat.
Proof.
  induction l as [|[x|] l IH]; simpl; lia.
Qed.

Lemma etiquetas_length (col : str) (df : DataFrame) :
  Z.of_nat (List.length (etiquetas col df)) <= len df.
Proof.
  unfold etiquetas, len.
  pose proof (presentes_length (map (valor_columna col) (filas df))) as H.
  rewrite length_map in H. lia.
Qed.

Lemma colonias_length (df : DataFrame) :
  Z.of_nat (List.length (colonias df)) <= len df.
Proof.
  unfold colonias, len.
  pose proof (presentes_length (map Col.colonia (filas df))) as H.
  rewrite length_map in H. lia.
Qed.

Lemma sorted_map {A B : Type} (f : A -> B) (R : A -> A -> Prop)
  (S : B -> B -> Prop) (l : list A) :
  (forall a b, R a b -> S (f a) (f b)) ->
  StronglySorted R l -> StronglySorted S (map f l).
Proof.
  intros HRS. induction 1 as [|x l Hs IH Hall]; simpl; constructor.
  - exact IH.
  - rewrite Forall_forall in *. intros y Hy. apply in_map_iff in Hy.
    destruct Hy as [z [<- Hz]]. apply HRS, Hall, Hz.
Qed.

(** The first rows of a list of positive counts, with their
    percentages of a total that is at least the sum of the counts:
    every count is between 1 and the total, every percentage lies in
    [0,100], the counts listed add up to at most the sum of all, and
    the order of the counts is kept. *)
Lemma con_porcentaje_prefijo (total : Z) (conteos top resto : list (str * nat)) :
  conteos = (top ++ resto)%list ->
  Forall (fun kv : str * nat => (1 <= snd kv)%nat) conteos ->
  Z.of_nat (total_conteos conteos) <= total ->
  Forall (fun z => 1 <= Zona.conteo z <= total
                   /\ 0 <= Zona.porcentaje z <= 10000)
    (con_porcentaje total top)
  /\ suma (map Zona.conteo (con_porcentaje total top))
     <= Z.of_nat (total_conteos conteos)
  /\ (List.length (con_porcentaje total top) <= List.length conteos)%nat
  /\ (StronglySorted (fun a b => (snd b <= snd a)%nat) conteos ->
      StronglySorted (fun a b => Zona.conteo b <= Zona.conteo a)
        (con_porcentaje total top))
  /\ (StronglySorted (fun a b => (snd a <= snd b)%nat) conteos ->
      StronglySorted (fun a b => Zona.conteo a <= Zona.conteo b)
        (con_porcentaje total top)).
Proof.
  intros -> Hpos Htot. rewrite total_conteos_app in Htot.
  apply Forall_app in Hpos. destruct Hpos as [Hpos _].
  split; [|split; [|split; [|split]]].
  - unfold con_porcentaje. apply Forall_forall. intros z Hz.
    apply in_map_iff in Hz. destruct Hz as [kv [<- Hkv]].
    cbn [Zona.conteo Zona.porcentaje].
    pose proof (conteo_le_total kv top Hkv).
    rewrite Forall_forall in Hpos. specialize (Hpos kv Hkv). cbv beta in Hpos.
    split; [lia|]. apply (porcentaje_de_entre 2); lia.
  - rewrite total_conteos_app. unfold con_porcentaje. rewrite map_map.
    cbn [Zona.conteo]. rewrite suma_conteos_enteros. lia.
  - unfold con_porcentaje. rewrite length_map, length_app. lia.
  - intros Hs. apply sorted_prefijo in Hs. unfold con_porcentaje.
    apply (sorted_map _ (fun a b : str * nat => (snd b <= snd a)%nat));
      [|exact Hs].
    intros a b Hab. cbn [Zona.conteo]. lia.
  - intros Hs. apply sorted_prefijo in Hs. unfold con_porcentaje.
    apply (sorted_map _ (fun a b : str * nat => (snd a <= snd b)%nat));
      [|exact Hs].
    intros a b Hab. cbn [Zona.conteo]. lia.
Qed.

(** X17.  [analizar_distribucion_geografica]: nothing for an empty segment;
    otherwise at most [top_n] neighbourhoods, the most populated first,
    each with a count between 1 and the rows of the segment and a
    percentage in [0,100]; the counts listed add up to at most the rows
    of the segment, and the neighbourhoods listed are at most the
    distinct ones. *)
Theorem distribucion_geografica_invariantes (df_segmento : DataFrame)
  (top_n : Z) :
  match analizar_distribucion_geografica df_segmento top_n with
  | None => filas df_segmento = []
  | Some d =>
      let top := DistribucionGeografica.top_colonias d in
      filas df_segmento <> []
      /\ (0 <= top_n -> Z.of_nat (List.length top) <= top_n)
      /\ Z.of_nat (List.length top)
         <= DistribucionGeografica.total_colonias_afectadas d
         <= len df_segmento
      /\ StronglySorted (fun a b => Zona.conteo b <= Zona.conteo a) top
      /\ Forall (fun z => 1 <= Zona.conteo z <= len df_segmento
                          /\ 0 <= Zona.porcentaje z <= 10000) top
      /\ suma (map Zona.conteo top) <= len df_segmento
  end.
Proof.
  unfold analizar_distribucion_geografica.
  destruct (Z.eqb_spec (len df_segmento) 0) as [E|E].
  - unfold len in E. destruct (filas df_segmento); [reflexivity|].
    simpl in E. lia.
  - cbv zeta.
    cbn [DistribucionGeografica.top_colonias
           DistribucionGeografica.total_colonias_afectadas].
    set (vc := value_counts eqb (colonias df_segmento)).
    destruct (hasta_prefijo top_n vc) as [resto Hvc].
    pose proof (colonias_length df_segmento) as Hcl.
    assert (Htot : Z.of_nat (total_conteos vc) <= len df_segmento).
    { unfold vc. rewrite value_counts_total. exact Hcl. }
    destruct (con_porcentaje_prefijo (len df_segmento) vc (hasta top_n vc)
                resto Hvc (value_counts_positivos _) Htot)
      as (Hf & Hs & Hl & Hsorted & _).
    split; [intros H; unfold len in E; rewrite H in E; simpl in E; lia|].
    split.
    { intros Hn. unfold con_porcentaje. rewrite length_map.
      apply hasta_length, Hn. }
    split.
    { unfold nunique.
      assert (Hvl : List.length vc
                    = List.length (contar eqb (colonias df_segmento)))
        by apply value_counts_length.
      pose proof (contar_length_le eqb (colonias df_segmento)). lia. }
    split; [apply Hsorted, value_counts_sorted|].
    split; [exact Hf | lia].
Qed.


Close Scope Z_scope.
Close Scope string_scope.

(* ================================================================= *)
(** ** Deprivations without coverage and program gaps *)

Open Scope string_scope.
Open Scope Z_scope.

Lemma mascara_elegible_desde (cols programas : list str)
  (acc : option (Persona -> bool)) (p : Persona) :
  match fold_left
          (fun mascara programa =>
             let columna_programa := columna_de_programa programa in
             if mem columna_programa cols then
               match mascara with
               | None => Some (otra_es_yes columna_programa)
               | Some m => Some (fun p => m p || otra_es_yes columna_programa p)
               end
             else mascara)
          programas acc with
  | Some m => m p
  | None => false
  end
  = match acc with Some m => m p | None => false end
    || existsb (fun programa =>
                  mem (columna_de_programa programa) cols
                  && otra_es_yes (columna_de_programa programa) p)
         programas.
Proof.
  revert acc; induction programas as [|x programas IH]; intros acc.
  - simpl. rewrite orb_false_r. reflexivity.
  - cbn [fold_left existsb]. rewrite IH. cbv zeta.
    destruct (mem (columna_de_programa x) cols); cbn [andb orb].
    + destruct acc as [m|]; cbn; rewrite ?orb_assoc; reflexivity.
    + reflexivity.
Qed.

Lemma perfil_brecha_None (df_brecha : DataFrame) :
  perfil_brecha df_brecha = None <-> len df_brecha = 0.
Proof.
  unfold perfil_brecha, edades, len.
  destruct (filas df_brecha); simpl; split; try reflexivity;
    try discriminate; lia.
Qed.

Lemma perfil_si_hay (df_brecha : DataFrame) :
  (if 0 <? len df_brecha then perfil_brecha df_brecha else None) = None
  <-> len df_brecha = 0.
Proof.
  destruct (Z.ltb_spec 0 (len df_brecha)).
  - apply perfil_brecha_None.
  - unfold len in *. split; [lia | reflexivity].
Qed.

Section PropiedadesBrechas.

Context {Regex : Type}.
Variable re_compile : str -> option Regex.
Variable re_search : Regex -> str -> bool.

Lemma poblacion_con_carencia_filas (df d : DataFrame)
  (columna : Persona -> str) (rango : option (Z * Z)) (ubic : option str) :
  poblacion_con_carencia re_compile re_search df columna rango ubic = Some d ->
  columns d = columns df
  /\ (0 <= len d <= len df)
  /\ forall p, In p (filas d) ->
               In p (filas df) /\ columna p = py "yes"
               /\ (forall r, rango = Some r ->
                             fst r <= Col.edad_persona p <= snd r).
Proof.
  unfold poblacion_con_carencia.
  set (d0 := seleccionar (fun p => es_yes (columna p)) df).
  assert (H0 : columns d0 = columns df /\ 0 <= len d0 <= len df
               /\ forall p, In p (filas d0) ->
                            In p (filas df) /\ columna p = py "yes").
  { split; [reflexivity|]. split; [apply len_seleccionar_le|].
    intros p Hp. unfold d0, seleccionar in Hp. cbn [filas] in Hp.
    apply filter_In in Hp. rewrite es_yes_spec in Hp. exact Hp. }
  destruct H0 as (Hc0 & Hl0 & Hr0).
  set (d1 := match rango with
             | Some r => seleccionar (en_rango_edad r) d0
             | None => d0
             end).
  assert (H1 : columns d1 = columns df /\ 0 <= len d1 <= len df
               /\ forall p, In p (filas d1) ->
                            In p (filas df) /\ columna p = py "yes"
                            /\ (forall r, rango = Some r ->
                                          fst r <= Col.edad_persona p <= snd r)).
  { unfold d1. destruct rango as [r|].
    - split; [exact Hc0|].
      pose proof (len_seleccionar_le (en_rango_edad r) d0).
      split; [lia|]. intros p Hp. unfold seleccionar in Hp.
      cbn [filas] in Hp. apply filter_In in Hp. destruct Hp as [Hp Hr].
      destruct (Hr0 p Hp) as [Ha Hb]. split; [exact Ha|].
      split; [exact Hb|]. intros r' [= <-].
      unfold en_rango_edad in Hr. apply andb_true_iff in Hr.
      rewrite !Z.leb_le in Hr. exact Hr.
    - split; [exact Hc0|]. split; [exact Hl0|].
      intros p Hp. destruct (Hr0 p Hp) as [Ha Hb].
      split; [exact Ha|]. split; [exact Hb|]. intros r; discriminate. }
  destruct H1 as (Hc1 & Hl1 & Hr1).
  destruct (dado ubic) as [pat|].
  - destruct (re_compile pat) as [r|]; [|discriminate].
    intros [= <-]. split; [exact Hc1|].
    pose proof (len_seleccionar_le (mascara_ubicacion re_search r) d1).
    split; [lia|]. intros p Hp. unfold seleccionar in Hp.
    cbn [filas] in Hp. apply filter_In in Hp. apply Hr1, Hp.
  - intros [= <-]. split; [exact Hc1|]. split; [exact Hl1|]. exact Hr1.
Qed.

(** X19.  The gap population of a deprivation: the people counted without
    coverage are people of the table who have the deprivation, are
    within the age range given, and are not eligible for any related
    program that has a column in the table.  They are at most the
    people with the deprivation, the gap rate lies in [0,100]
    (hundredths), and the profile is empty exactly when nobody is
    without coverage. *)
Theorem sin_cobertura_invariantes (df : DataFrame) (carencia : str)
  (rango : option (Z * Z)) (ubic : option str) (r : SinCobertura.t) :
  identificar_carencias_sin_cobertura re_compile re_search df carencia
    rango ubic = SinCoberturaOk r ->
  exists columna df_con,
    carencia_map carencia = Some columna
    /\ poblacion_con_carencia re_compile re_search df columna rango ubic
       = Some df_con
    /\ SinCobertura.total_personas_con_carencia r = len df_con
    /\ SinCobertura.total_personas_sin_cobertura r
       = len (personas_sin_cobertura df df_con carencia)
    /\ 0 <= SinCobertura.total_personas_sin_cobertura r
       <= SinCobertura.total_personas_con_carencia r
    /\ SinCobertura.total_personas_con_carencia r <= len df
    /\ 0 <= SinCobertura.tasa_brecha r <= 10000
    /\ (SinCobertura.perfil_brecha r = None
        <-> SinCobertura.total_personas_sin_cobertura r = 0)
    /\ forall p,
         In p (filas (personas_sin_cobertura df df_con carencia)) ->
         In p (filas df) /\ columna p = py "yes"
         /\ (forall rg, rango = Some rg ->
                        fst rg <= Col.edad_persona p <= snd rg)
         /\ forall programa,
              In programa (_obtener_programas_por_carencia carencia) ->
              In (columna_de_programa programa) (columns df) ->
              buscar (columna_de_programa programa) (Col.otras p)
              <> Some (py "yes").
Proof.
  unfold identificar_carencias_sin_cobertura.
  destruct (carencia_map carencia) as [columna|] eqn:Hmap; [|discriminate].
  destruct (nombre_columna_carencia carencia) as [nombre|]; [|discriminate].
  destruct (mem nombre (columns df)); cbn [negb]; [|discriminate].
  destruct (len (seleccionar (fun p => es_yes (columna p)) df) =? 0);
    [discriminate|].
  destruct (poblacion_con_carencia re_compile re_search df columna rango ubic)
    as [d|] eqn:Hd; [|discriminate].
  destruct (_obtener_programas_por_carencia carencia) as [|x xs] eqn:Hprog;
    [discriminate|].
  rewrite <- Hprog. intros [= <-].
  cbn [SinCobertura.total_personas_con_carencia
         SinCobertura.total_personas_sin_cobertura SinCobertura.tasa_brecha
         SinCobertura.perfil_brecha].
  exists columna, d. split; [reflexivity|]. split; [exact Hd|].
  split; [reflexivity|]. split; [reflexivity|].
  destruct (poblacion_con_carencia_filas _ _ _ _ _ Hd) as (Hc & Hl & Hr).
  set (b := personas_sin_cobertura df d carencia).
  assert (Hb : 0 <= len b <= len d).
  { unfold b, personas_sin_cobertura.
    destruct (mascara_elegible (columns df)
                (_obtener_programas_por_carencia carencia));
      [apply len_seleccionar_le | unfold len; lia]. }
  split; [exact Hb|]. split; [lia|]. split.
  { destruct (Z.ltb_spec 0 (len d)); [|lia].
    apply (porcentaje_de_entre 2); lia. }
  split; [apply perfil_si_hay|].
  intros p Hp.
  assert (Hpd : In p (filas d)
                /\ existsb (fun programa =>
                              mem (columna_de_programa programa) (columns df)
                              && otra_es_yes (columna_de_programa programa) p)
                     (_obtener_programas_por_carencia carencia) = false).
  { unfold b, personas_sin_cobertura, mascara_elegible in Hp.
    pose proof (mascara_elegible_desde (columns df)
                  (_obtener_programas_por_carencia carencia) None p) as Hm.
    cbn [orb] in Hm. unfold mascara_elegible in Hm.
    destruct (fold_left _ (_obtener_programas_por_carencia carencia) None)
      as [m|].
    - unfold seleccionar in Hp. cbn [filas] in Hp.
      apply filter_In in Hp. destruct Hp as [Hp Hn].
      apply negb_true_iff in Hn. split; [exact Hp | congruence].
    - split; [exact Hp | congruence]. }
  destruct Hpd as [Hpd Hex].
  destruct (Hr p Hpd) as (Ha & Hy & Hrg).
  split; [exact Ha|]. split; [exact Hy|]. split; [exact Hrg|].
  intros programa Hin Hcol Hyes.
  assert (Ht : existsb (fun programa =>
                          mem (columna_de_programa programa) (columns df)
                          && otra_es_yes (columna_de_programa programa) p)
                 (_obtener_programas_por_carencia carencia) = true).
  { apply existsb_exists. exists programa. split; [exact Hin|].
    apply andb_true_iff. split; [apply mem_In, Hcol|].
    apply otra_es_yes_spec, Hyes. }
  congruence.
Qed.

(** X20.  When somebody in the table has the deprivation and the age and
    location filters leave nobody, the analysis reports no error: it
    returns zero people, a gap rate of 0.0 and an empty profile.  The
    error "No hay personas con carencia" is for a table in which
    nobody has the deprivation. *)
Theorem sin_cobertura_filtros_sin_filas (df d : DataFrame) (carencia : str)
  (columna : Persona -> str) (rango : option (Z * Z)) (ubic : option str) :
  carencia_map carencia = Some columna ->
  (forall nombre, nombre_columna_carencia carencia = Some nombre ->
                  In nombre (columns df)) ->
  (exists p, In p (filas df) /\ columna p = py "yes") ->
  poblacion_con_carencia re_compile re_search df columna rango ubic = Some d ->
  filas d = [] ->
  identificar_carencias_sin_cobertura re_compile re_search df carencia
    rango ubic
  = SinCoberturaOk
      (SinCobertura.mk carencia 0 0 0
         (_obtener_programas_por_carencia carencia) None).
Proof.
  intros Hmap Hcol [p [Hp Hy]] Hd Hv.
  unfold identificar_carencias_sin_cobertura. rewrite Hmap.
  assert (Hn : exists nombre,
             nombre_columna_carencia carencia = Some nombre
             /\ _obtener_programas_por_carencia carencia <> []).
  { unfold carencia_map in Hmap.
    unfold nombre_columna_carencia, _obtener_programas_por_carencia.
    destruct (eqb carencia (py "salud"));
      [eexists; split; [reflexivity | discriminate]|].
    destruct (eqb carencia (py "educacion"));
      [eexists; split; [reflexivity | discriminate]|].
    destruct (eqb carencia (py "seguridad_social"));
      [eexists; split; [reflexivity | discriminate]|].
    discriminate. }
  destruct Hn as [nombre [Hn Hprog]]. rewrite Hn.
  assert (Hm : mem nombre (columns df) = true) by (apply mem_In, Hcol, Hn).
  rewrite Hm. cbn [negb].
  assert (Hpos : len (seleccionar (fun q => es_yes (columna q)) df) <> 0).
  { unfold len, seleccionar. cbn [filas].
    assert (Hin : In p (filter (fun q => es_yes (columna q)) (filas df))).
    { apply filter_In. split; [exact Hp | apply es_yes_spec, Hy]. }
    destruct (filter (fun q => es_yes (columna q)) (filas df));
      [contradiction | simpl; lia]. }
  destruct (Z.eqb_spec (len (seleccionar (fun q => es_yes (columna q)) df)) 0)
    as [E|_]; [contradiction|].
  rewrite Hd.
  destruct (_obtener_programas_por_carencia carencia) as [|x xs] eqn:Hpr;
    [congruence|].
  rewrite <- Hpr.
  assert (Hb : len (personas_sin_cobertura df d carencia) = 0).
  { unfold personas_sin_cobertura, len.
    destruct (mascara_elegible (columns df)
                (_obtener_programas_por_carencia carencia));
      unfold seleccionar; cbn [filas]; rewrite Hv; reflexivity. }
  rewrite Hb. unfold len. rewrite Hv. reflexivity.
Qed.

(** X21.  The gap of a program: the eligible people who receive no support
    are at most the eligible people, who are at most the rows of the
    table; the gap rate lies in [0,100] (hundredths); the profile is
    empty exactly when the gap is; and a result with eligible people
    is returned only by a table that has the support column. *)
Theorem brecha_programa_invariantes (df : DataFrame) (programa : str)
  (rango : option (Z * Z)) (ubic : option str) (r : BrechaPrograma.t) :
  analizar_brechas_programa_grupo re_compile re_search df programa rango ubic
  = BrechaOk r ->
  BrechaPrograma.programa r = programa
  /\ In (columna_de_programa programa) (columns df)
  /\ 0 <= BrechaPrograma.total_brecha r <= BrechaPrograma.total_elegibles r
  /\ BrechaPrograma.total_elegibles r <= len df
  /\ 0 <= BrechaPrograma.tasa_brecha r <= 10000
  /\ (BrechaPrograma.perfil_brecha r = None
      <-> BrechaPrograma.total_brecha r = 0)
  /\ (0 < BrechaPrograma.total_elegibles r ->
      In (py "recibe_apoyos_sociales") (columns df)).
Proof.
  unfold analizar_brechas_programa_grupo.
  destruct (mem (columna_de_programa programa) (columns df)) eqn:Hp;
    cbn [negb]; [|discriminate].
  destruct (_aplicar_filtros_basicos re_compile re_search df rango ubic
              None None) as [d|] eqn:Hf; [|discriminate].
  destruct (len d =? 0); [discriminate|].
  apply filtros_basicos_subtabla in Hf. destruct Hf as [Hc Hl].
  set (e := seleccionar (otra_es_yes (columna_de_programa programa)) d).
  pose proof (len_seleccionar_le (otra_es_yes (columna_de_programa programa)) d)
    as He. fold e in He.
  destruct (Z.eqb_spec (len e) 0) as [E|E].
  - intros [= <-]. cbn. split; [reflexivity|].
    split; [apply mem_In, Hp|]. split; [lia|]. split; [lia|].
    split; [lia|]. split; [tauto | lia].
  - destruct (mem (py "recibe_apoyos_sociales") (columns e)) eqn:Ha;
      cbn [negb]; [|discriminate].
    intros [= <-].
    cbn [BrechaPrograma.programa BrechaPrograma.total_elegibles
           BrechaPrograma.total_brecha BrechaPrograma.tasa_brecha
           BrechaPrograma.perfil_brecha].
    pose proof (len_seleccionar_le no_recibe_apoyos e) as Hb.
    split; [reflexivity|]. split; [apply mem_In, Hp|].
    split; [lia|]. split; [lia|]. split.
    { destruct (Z.ltb_spec 0 (len e)); [|lia].
      apply (porcentaje_de_entre 2); lia. }
    split; [apply perfil_si_hay|].
    intros _. apply mem_In. unfold e in Ha. cbn [columns seleccionar] in Ha.
    rewrite Hc in Ha. exact Ha.
Qed.

(** X22.  On a table without the support column the gap analysis fails
    only when there are eligible people: with rows after the filters
    and none of them eligible, it returns a gap of zero. *)
Theorem brecha_programa_sin_columna_de_apoyos (df d : DataFrame)
  (programa : str) (rango : option (Z * Z)) (ubic : option str) :
  In (columna_de_programa programa) (columns df) ->
  ~ In (py "recibe_apoyos_sociales") (columns df) ->
  _aplicar_filtros_basicos re_compile re_search df rango ubic None None
  = Some d ->
  filas d <> [] ->
  analizar_brechas_programa_grupo re_compile re_search df programa rango ubic
  = if len (seleccionar (otra_es_yes (columna_de_programa programa)) d) =? 0
    then BrechaOk (BrechaPrograma.mk programa 0 0 0 None)
    else ErrorBrecha
           (py "Columna 'recibe_apoyos_sociales' no encontrada para calcular la brecha").
Proof.
  intros Hp Ha Hf Hne. unfold analizar_brechas_programa_grupo.
  apply mem_In in Hp. rewrite Hp, Hf. cbn [negb].
  destruct (Z.eqb_spec (len d) 0) as [E|_].
  { unfold len in E. destruct (filas d); [congruence | simpl in E; lia]. }
  destruct (len (seleccionar (otra_es_yes (columna_de_programa programa)) d)
            =? 0); [reflexivity|].
  apply filtros_basicos_subtabla in Hf. destruct Hf as [Hc _].
  cbn [columns seleccionar]. rewrite Hc.
  destruct (mem (py "recibe_apoyos_sociales") (columns df)) eqn:Hm;
    [|reflexivity].
  apply mem_In in Hm. exfalso. exact (Ha Hm).
Qed.

Close Scope Z_scope.
Close Scope string_scope.

End PropiedadesBrechas.

(* ================================================================= *)
(** ** Several programs at once *)

Lemma asignar_claves {V : Type} (k k' : str) (v : V) (d : list (str * V)) :
  In k' (map fst (asignar k v d)) <-> k' = k \/ In k' (map fst d).
Proof.
  induction d as [|[x y] d IH]; simpl.
  - intuition congruence.
  - destruct (eqb x k) eqn:E; simpl.
    + apply eqb_eq in E. subst. intuition congruence.
    + rewrite IH. intuition congruence.
Qed.

Lemma asignar_NoDup {V : Type} (k : str) (v : V) (d : list (str * V)) :
  NoDup (map fst d) -> NoDup (map fst (asignar k v d)).
Proof.
  induction d as [|[x y] d IH]; simpl; intros H.
  - constructor; [intros []|constructor].
  - inversion H as [|? ? Hx Hd]; subst.
    destruct (eqb x k) eqn:E; simpl.
    + constructor; assumption.
    + constructor; [|auto]. rewrite asignar_claves. intros [->|Hin]; [|tauto].
      rewrite eqb_refl in E. discriminate.
Qed.

Lemma asignar_In {V : Type} (k k' : str) (v v' : V) (d : list (str * V)) :
  In (k', v') (asignar k v d) -> (k' = k /\ v' = v) \/ In (k', v') d.
Proof.
  induction d as [|[x y] d IH]; simpl.
  - intros [[= <- <-]|[]]. tauto.
  - destruct (eqb x k) eqn:E; simpl.
    + apply eqb_eq in E. subst. intros [[= <- <-]|H]; tauto.
    + intros [H|H]; [tauto|]. apply IH in H. tauto.
Qed.

Lemma asignar_conserva {V : Type} (k k' : str) (v v' : V) (d : list (str * V)) :
  In (k', v') d -> (k' = k -> v' = v) -> In (k', v') (asignar k v d).
Proof.
  induction d as [|[x y] d IH]; simpl; [tauto|].
  intros [[= -> ->]|H] Hk.
  - destruct (eqb k' k) eqn:E; simpl.
    + apply eqb_eq in E. rewrite (Hk E). left. congruence.
    + left. reflexivity.
  - destruct (eqb x k); simpl; [right; exact H | right; apply IH; assumption].
Qed.

Lemma asignar_nueva {V : Type} (k : str) (v : V) (d : list (str * V)) :
  NoDup (map fst d) -> In (k, v) (asignar k v d).
Proof.
  induction d as [|[x y] d IH]; simpl; intros H; [tauto|].
  inversion H as [|? ? Hx Hd]; subst.
  destruct (eqb x k) eqn:E; simpl.
  - apply eqb_eq in E. subst. tauto.
  - right. apply IH, Hd.
Qed.

Lemma ordenar_desc_cabeza {A : Type} (clave : A -> Z) (l : list A) (x : A)
  (resto : list A) :
  ordenar_desc clave l = x :: resto ->
  In x l /\ forall y, In y l -> (clave y <= clave x)%Z.
Proof.
  intros H.
  pose proof (ordenar_desc_perm clave l) as Hp.
  pose proof (ordenar_desc_sorted clave l) as Hs.
  rewrite H in Hp, Hs. split.
  - apply (Permutation_in _ Hp). left. reflexivity.
  - intros y Hy. apply (Permutation_in _ (Permutation_sym Hp)) in Hy.
    inversion Hs as [|? ? _ Hall]; subst. rewrite Forall_forall in Hall.
    destruct Hy as [<-|Hy]; [lia | exact (Hall y Hy)].
Qed.

Section PropiedadesMultiple.

Context {Regex : Type}.
Variable re_compile : str -> option Regex.
Variable re_search : Regex -> str -> bool.
Variable str_lower : str -> str.

Open Scope string_scope.
Open Scope Z_scope.

Variable self : AnalizadorProgramasSociales.t.
Variable rango : option (Z * Z).
Variable ubic : option str.

(** The entries kept by the loop are completed analyses: each holds,
    under the name of a program, the result of that program. *)
Lemma analizar_cada_invariante (programas : list str)
  (acc res : list (str * Elegibilidad.t)) :
  NoDup (map fst acc) ->
  (forall k r, In (k, r) acc ->
               analizar_elegibilidad_programa re_compile re_search str_lower
                 self k rango ubic None None
               = Some (ResultadoElegibilidadOk r)) ->
  analizar_cada re_compile re_search str_lower self programas rango ubic acc
  = Some res ->
  NoDup (map fst res)
  /\ forall k r,
       In (k, r) res <->
       (In (k, r) acc
        \/ (In k programas
            /\ analizar_elegibilidad_programa re_compile re_search str_lower
                 self k rango ubic None None
               = Some (ResultadoElegibilidadOk r))).
Proof.
  revert acc; induction programas as [|x programas IH]; intros acc Hnd Hacc.
  - simpl. intros [= <-]. split; [exact Hnd|]. intros k r. simpl. tauto.
  - cbn [analizar_cada].
    destruct (analizar_elegibilidad_programa re_compile re_search str_lower
                self x rango ubic None None) as [[e l1 l2|e|rx]|] eqn:Hx;
      try discriminate.
    + intros H. destruct (IH acc Hnd Hacc H) as [H1 H2].
      split; [exact H1|]. intros k r. rewrite H2. simpl. split.
      * tauto.
      * intros [Ha|[[<-|Hin] Hk]]; [tauto | congruence | tauto].
    + intros H. destruct (IH acc Hnd Hacc H) as [H1 H2].
      split; [exact H1|]. intros k r. rewrite H2. simpl. split.
      * tauto.
      * intros [Ha|[[<-|Hin] Hk]]; [tauto | congruence | tauto].
    + intros H.
      assert (Hacc' : forall k r, In (k, r) (asignar x rx acc) ->
                analizar_elegibilidad_programa re_compile re_search str_lower
                  self k rango ubic None None
                = Some (ResultadoElegibilidadOk r)).
      { intros k r Hin. apply asignar_In in Hin.
        destruct Hin as [[-> ->]|Hin]; [exact Hx | exact (Hacc k r Hin)]. }
      destruct (IH (asignar x rx acc) (asignar_NoDup x rx acc Hnd) Hacc' H)
        as [H1 H2].
      split; [exact H1|]. intros k r. rewrite H2. simpl. split.
      * intros [Ha|[Hin Hk]]; [|tauto].
        apply asignar_In in Ha. destruct Ha as [[-> ->]|Ha]; tauto.
      * intros [Ha|[[<-|Hin] Hk]].
        -- left. apply asignar_conserva; [exact Ha|].
           intros ->. specialize (Hacc x r Ha). congruence.
        -- left. assert (r = rx) as -> by congruence.
           apply asignar_nueva, Hnd.
        -- tauto.
Qed.

(** The loop raises exactly when the analysis of some program of the
    list does. *)
Lemma analizar_cada_lanza (programas : list str)
  (acc : list (str * Elegibilidad.t)) :
  analizar_cada re_compile re_search str_lower self programas rango ubic acc
  = None
  <-> exists k,
        In k programas
        /\ analizar_elegibilidad_programa re_compile re_search str_lower
             self k rango ubic None None = None.
Proof.
  revert acc; induction programas as [|x programas IH]; intros acc.
  - simpl. split; [discriminate | intros [k [[] _]]].
  - cbn [analizar_cada].
    destruct (analizar_elegibilidad_programa re_compile re_search str_lower
                self x rango ubic None None) as [[e l1 l2|e|rx]|] eqn:Hx.
    + rewrite IH. split; intros [k [Hk Hn]]; exists k.
      * split; [right; exact Hk | exact Hn].
      * destruct Hk as [<-|Hk]; [congruence | tauto].
    + rewrite IH. split; intros [k [Hk Hn]]; exists k.
      * split; [right; exact Hk | exact Hn].
      * destruct Hk as [<-|Hk]; [congruence | tauto].
    + rewrite IH. split; intros [k [Hk Hn]]; exists k.
      * split; [right; exact Hk | exact Hn].
      * destruct Hk as [<-|Hk]; [congruence | tauto].
    + split; [|reflexivity]. intros _. exists x.
      split; [left; reflexivity | exact Hx].
Qed.

(** X23.  The analysis of several programs raises exactly when the analysis
    of some program of the list raises.  When it returns, it keeps one
    entry for each program of the list whose own analysis is
    completed, and only those: the programs whose analysis returns an
    error dictionary are left out and no error is reported.  The
    program reported as the one of largest eligibility has at least
    as many eligible people as any other, and the ranking has at most
    [top_n] names, all of them programs analysed. *)
Theorem elegibilidad_multiple_invariantes (programas : list str)
  (top_n : Z) :
  match analizar_elegibilidad_multiple re_compile re_search str_lower self
          programas rango ubic top_n with
  | None =>
      exists k,
        In k programas
        /\ analizar_elegibilidad_programa re_compile re_search str_lower
             self k rango ubic None None = None
  | Some m =>
      (forall k, In k programas ->
                 analizar_elegibilidad_programa re_compile re_search
                   str_lower self k rango ubic None None <> None)
      /\ NoDup (map fst (Multiple.analisis_individual m))
      /\ (forall k r,
            In (k, r) (Multiple.analisis_individual m) <->
            In k programas
            /\ analizar_elegibilidad_programa re_compile re_search str_lower
                 self k rango ubic None None
               = Some (ResultadoElegibilidadOk r))
      /\ Multiple.total_programas_analizados m
         = Z.of_nat (List.length (Multiple.analisis_individual m))
      /\ Multiple.total_programas_analizados m
         <= Z.of_nat (List.length programas)
      /\ match Multiple.analisis_comparativo m with
         | None => Multiple.analisis_individual m = []
         | Some c =>
             (exists mayor r_mayor,
                Comparativo.programa_mayor_elegibilidad c = Some mayor
                /\ In (mayor, r_mayor) (Multiple.analisis_individual m)
                /\ forall kv, In kv (Multiple.analisis_individual m) ->
                              elegibles_de kv
                              <= elegibles_de (mayor, r_mayor))
             /\ (forall k, In k (Comparativo.ranking_elegibles c) ->
                           In k (map fst (Multiple.analisis_individual m)))
             /\ (0 <= top_n ->
                 Z.of_nat (List.length (Comparativo.ranking_elegibles c))
                 <= top_n)
         end
  end.
Proof.
  unfold analizar_elegibilidad_multiple.
  destruct (analizar_cada re_compile re_search str_lower self programas rango
              ubic [])
    as [res|] eqn:Hres.
  2:{ apply analizar_cada_lanza in Hres. exact Hres. }
  cbn [Multiple.analisis_individual Multiple.analisis_comparativo
         Multiple.total_programas_analizados].
  destruct (analizar_cada_invariante programas [] res (NoDup_nil _)
              ltac:(intros k r []) Hres) as [Hnd Hin].
  split.
  { intros k Hk Hn.
    assert (Hl : analizar_cada re_compile re_search str_lower self programas
                   rango ubic [] = None).
    { apply analizar_cada_lanza. exists k. split; assumption. }
    rewrite Hl in Hres. discriminate Hres. }
  split; [exact Hnd|]. split.
  { intros k r. rewrite Hin. simpl. tauto. }
  split; [reflexivity|]. split.
  { assert (Hincl : incl (map fst res) programas).
    { intros k Hk. apply in_map_iff in Hk. destruct Hk as [[k' r] [<- Hk]].
      apply Hin in Hk. simpl in Hk. tauto. }
    pose proof (NoDup_incl_length Hnd Hincl) as Hl.
    rewrite length_map in Hl. lia. }
  destruct res as [|kv0 res']; [reflexivity|].
  set (res := kv0 :: res') in *.
  cbn [Comparativo.programa_mayor_elegibilidad Comparativo.ranking_elegibles].
  pose proof (ordenar_desc_perm elegibles_de res) as Hperm.
  split; [|split].
  - destruct (ordenar_desc elegibles_de res) as [|[mayor r_mayor] resto] eqn:Eo.
    { apply Permutation_length in Hperm. simpl in Hperm. discriminate. }
    destruct (ordenar_desc_cabeza elegibles_de res _ _ Eo) as [H1 H2].
    exists mayor, r_mayor. split; [reflexivity|]. split; assumption.
  - intros k Hk.
    destruct (hasta_prefijo top_n (map fst (ordenar_desc elegibles_de res)))
      as [resto Hr].
    assert (Hk' : In k (map fst (ordenar_desc elegibles_de res))).
    { rewrite Hr. apply in_or_app. left. exact Hk. }
    apply in_map_iff in Hk'. destruct Hk' as [kv [<- Hkv]].
    apply in_map. apply (Permutation_in _ Hperm). exact Hkv.
  - intros H0. apply hasta_length, H0.
Qed.

(** The analysis of a program when the filters leave nobody: the
    error of the empty population for a program that has its column,
    and for a program without a column the error with the catalog,
    which reads two attributes of the instance. *)
Lemma analizar_sin_poblacion (programa : str) (d : DataFrame) :
  _aplicar_filtros_basicos re_compile re_search
    (AnalizadorProgramasSociales.df self) rango ubic None None = Some d ->
  filas d = [] ->
  analizar_elegibilidad_programa re_compile re_search str_lower self programa
    rango ubic None None
  = if mem (columna_de_programa programa)
         (columns (AnalizadorProgramasSociales.df self))
    then Some (ErrorSinPersonas
                 (py "No hay personas que cumplan los criterios especificados"))
    else
      match AnalizadorProgramasSociales.programas_nombres self,
            AnalizadorProgramasSociales.programas_disponibles self with
      | Some nombres, Some disponibles =>
          Some (ErrorProgramaNoEncontrado
                  (py "Programa '" ++ programa ++ py "' no encontrado")%list
                  nombres disponibles)
      | _, _ => None
      end.
Proof.
  intros Hf Hv. unfold analizar_elegibilidad_programa.
  destruct (mem (columna_de_programa programa)
              (columns (AnalizadorProgramasSociales.df self)));
    cbn [negb]; [|reflexivity].
  rewrite Hf. unfold len. rewrite Hv. reflexivity.
Qed.

(** X24.  With nobody after the age and location filters, the analysis of
    several programs returns no entry, no comparison and totals of
    zero when every program of the list has its column in the table
    or the instance has the attributes of the catalog: the error of
    each program is left out and none is reported.  It raises when
    some program of the list has no column and the instance lacks
    one of those attributes. *)
Theorem elegibilidad_multiple_sin_poblacion (programas : list str)
  (top_n : Z) (d : DataFrame) :
  _aplicar_filtros_basicos re_compile re_search
    (AnalizadorProgramasSociales.df self) rango ubic None None = Some d ->
  filas d = [] ->
  ((forall k, In k programas ->
              In (columna_de_programa k)
                (columns (AnalizadorProgramasSociales.df self))
              \/ (AnalizadorProgramasSociales.programas_nombres self <> None
                  /\ AnalizadorProgramasSociales.programas_disponibles self
                     <> None)) ->
   analizar_elegibilidad_multiple re_compile re_search str_lower self
     programas rango ubic top_n = Some (Multiple.mk [] None 0 0))
  /\ ((exists k,
         In k programas
         /\ ~ In (columna_de_programa k)
                (columns (AnalizadorProgramasSociales.df self))
         /\ (AnalizadorProgramasSociales.programas_nombres self = None
             \/ AnalizadorProgramasSociales.programas_disponibles self
                = None)) ->
      analizar_elegibilidad_multiple re_compile re_search str_lower self
        programas rango ubic top_n = None).
Proof.
  intros Hf Hv. unfold analizar_elegibilidad_multiple. split.
  - intros Hall.
    assert (H : analizar_cada re_compile re_search str_lower self programas
                  rango ubic [] = Some []).
    { induction programas as [|x programas' IH]; [reflexivity|].
      cbn [analizar_cada]. rewrite (analizar_sin_poblacion x d Hf Hv).
      assert (IH' := IH (fun k Hk => Hall k (or_intror Hk))).
      destruct (mem (columna_de_programa x)
                  (columns (AnalizadorProgramasSociales.df self))) eqn:Hm;
        [exact IH'|].
      destruct (Hall x (or_introl eq_refl)) as [Hin|[Hn Hd]].
      - apply mem_In in Hin. rewrite Hin in Hm. discriminate Hm.
      - destruct (AnalizadorProgramasSociales.programas_nombres self);
          [|exfalso; exact (Hn eq_refl)].
        destruct (AnalizadorProgramasSociales.programas_disponibles self);
          [|exfalso; exact (Hd eq_refl)].
        exact IH'. }
    rewrite H. reflexivity.
  - intros [k [Hk [Hcol Hattr]]].
    assert (H : analizar_cada re_compile re_search str_lower self programas
                  rango ubic [] = None).
    { apply analizar_cada_lanza. exists k. split; [exact Hk|].
      rewrite (analizar_sin_poblacion k d Hf Hv).
      destruct (mem (columna_de_programa k)
                  (columns (AnalizadorProgramasSociales.df self))) eqn:Hm.
      - apply mem_In in Hm. exfalso. exact (Hcol Hm).
      - destruct Hattr as [-> | ->]; [reflexivity|].
        destruct (AnalizadorProgramasSociales.programas_nombres self);
          reflexivity. }
    rewrite H. reflexivity.
Qed.

Close Scope Z_scope.
Close Scope string_scope.

End PropiedadesMultiple.

(* ================================================================= *)
(** ** The complete flow *)

Lemma insertar_asc_sorted {A : Type} (clave : A -> Z) (x : A) (l : list A) :
  StronglySorted (fun a b => (clave a <= clave b)%Z) l ->
  StronglySorted (fun a b => (clave a <= clave b)%Z) (insertar_asc clave x l).
Proof.
  induction 1 as [|y l Hs IH Hall]; simpl.
  - repeat constructor.
  - destruct (Z.ltb_spec (clave y) (clave x)).
    + constructor; [exact IH|].
      eapply Permutation_Forall;
        [apply Permutation_sym, insertar_asc_perm|].
      constructor; [lia | exact Hall].
    + constructor; [constructor; assumption|].
      constructor; [lia|].
      rewrite Forall_forall in *. intros z Hz. specialize (Hall z Hz).
      cbv beta in Hall. lia.
Qed.

Lemma ordenar_asc_sorted {A : Type} (clave : A -> Z) (l : list A) :
  StronglySorted (fun a b => (clave a <= clave b)%Z) (ordenar_asc clave l).
Proof.
  induction l as [|x l IH]; simpl; [constructor|].
  apply insertar_asc_sorted, IH.
Qed.

Lemma sorted_impl {A : Type} (R S : A -> A -> Prop) (l : list A) :
  (forall a b, R a b -> S a b) -> StronglySorted R l -> StronglySorted S l.
Proof.
  intros H Hs. rewrite <- (map_id l). exact (sorted_map id R S l H Hs).
Qed.

(** The geographic analysis of a segment: the places are at most the
    rows; at most [limite] of them are listed, each with a count between
    1 and the rows and a percentage in [0,100]; the counts listed add up
    to at most the rows, and go down when the order is "descendente"
    and up for any other order. *)
Lemma analisis_geografico_de_invariantes (df_segmento : DataFrame)
  (geo_col orden : str) (limite : Z) :
  let g := analisis_geografico_de df_segmento geo_col orden limite in
  let top := AnalisisGeografico.top_ubicaciones g in
  (AnalisisGeografico.columna_geografica g = geo_col
   /\ Z.of_nat (List.length top) <= AnalisisGeografico.total_ubicaciones g
      <= len df_segmento
   /\ (0 <= limite -> Z.of_nat (List.length top) <= limite)
   /\ Forall (fun z => 1 <= Zona.conteo z <= len df_segmento
                       /\ 0 <= Zona.porcentaje z <= 10000) top
   /\ suma (map Zona.conteo top) <= len df_segmento
   /\ (orden = py "descendente" ->
       StronglySorted (fun a b => Zona.conteo b <= Zona.conteo a) top)
   /\ (orden <> py "descendente" ->
       StronglySorted (fun a b => Zona.conteo a <= Zona.conteo b) top))%Z.
Proof.
  cbv zeta. unfold analisis_geografico_de.
  cbn [AnalisisGeografico.columna_geografica AnalisisGeografico.top_ubicaciones
         AnalisisGeografico.total_ubicaciones].
  set (vc := value_counts eqb (etiquetas geo_col df_segmento)).
  set (conteos := if eqb orden (py "descendente")
                  then ordenar_desc (fun kv => Z.of_nat (snd kv)) vc
                  else ordenar_asc (fun kv => Z.of_nat (snd kv)) vc).
  assert (Hperm : Permutation conteos vc).
  { unfold conteos. destruct (eqb orden (py "descendente"));
      [apply ordenar_desc_perm | apply ordenar_asc_perm]. }
  pose proof (etiquetas_length geo_col df_segmento) as Hel.
  assert (Htot : (Z.of_nat (total_conteos conteos) <= len df_segmento)%Z).
  { rewrite (total_conteos_perm _ _ Hperm). unfold vc.
    rewrite value_counts_total. exact Hel. }
  assert (Hpos : Forall (fun kv : str * nat => (1 <= snd kv)%nat) conteos).
  { eapply Permutation_Forall; [apply Permutation_sym, Hperm|].
    apply value_counts_positivos. }
  destruct (hasta_prefijo limite conteos) as [resto Hc].
  destruct (con_porcentaje_prefijo (len df_segmento) conteos
              (hasta limite conteos) resto Hc Hpos Htot)
    as (Hf & Hs & Hl & Hdesc & Hasc).
  split; [reflexivity|]. split.
  { split; [lia|]. rewrite (Permutation_length Hperm). unfold vc.
    rewrite value_counts_length.
    pose proof (contar_length_le eqb (etiquetas geo_col df_segmento)). lia. }
  split.
  { intros H0. unfold con_porcentaje. rewrite length_map.
    apply hasta_length, H0. }
  split; [exact Hf|]. split; [lia|]. split.
  - intros ->. apply Hdesc. unfold conteos. rewrite eqb_refl.
    apply (sorted_impl
             (fun a b : str * nat => (Z.of_nat (snd b) <= Z.of_nat (snd a))%Z));
      [intros a b; lia|].
    apply (ordenar_desc_sorted (fun kv : str * nat => Z.of_nat (snd kv))).
  - intros Hne. apply Hasc. unfold conteos.
    destruct (eqb orden (py "descendente")) eqn:E.
    + apply eqb_eq in E. exfalso. exact (Hne E).
    + apply (sorted_impl
               (fun a b : str * nat => (Z.of_nat (snd a) <= Z.of_nat (snd b))%Z));
        [intros a b; lia|].
      apply (ordenar_asc_sorted (fun kv : str * nat => Z.of_nat (snd kv))).
Qed.

Section PropiedadesFlujo.

Context {Regex : Type}.
Variable re_compile : str -> option Regex.
Variable re_search : Regex -> str -> bool.

Open Scope string_scope.
Open Scope Z_scope.

(** X25.  The complete flow, when it returns its dictionary of results: the
    segment is the one of [aplicar_filtros] on the same criteria; its
    size and its share of the table (in [0,100]) are reported.  With
    an empty segment the flow reports the error and neither the
    geographic analysis nor the profile; otherwise there is no error,
    the profile is the one of the segment and counts its rows, and a
    geographic analysis is present only for a column of the table,
    with the places ordered as the criteria (or, without an order in
    them, the argument) say. *)
Theorem flujo_completo_invariantes (df : DataFrame) (criterios : Criterios)
  (segmentacion : option str) (orden_defecto : str) (limite : Z)
  (r : Flujo.t) :
  analizar_flujo_completo re_compile re_search df criterios segmentacion
    orden_defecto limite = FlujoOk r ->
  exists df_segmento,
    aplicar_filtros re_compile re_search df criterios = Some df_segmento
    /\ Flujo.criterios_aplicados r = criterios
    /\ Flujo.total_personas_segmento r = len df_segmento
    /\ 0 <= Flujo.total_personas_segmento r <= len df
    /\ 0 <= Flujo.porcentaje_poblacion_total r <= 10000
    /\ (Flujo.total_personas_segmento r = 0 ->
        Flujo.error r
        = Some (py "No se encontraron personas con los criterios especificados")
        /\ Flujo.analisis_geografico r = None
        /\ Flujo.perfil_demografico r = None)
    /\ (0 < Flujo.total_personas_segmento r ->
        Flujo.error r = None
        /\ exists perfil,
             Flujo.perfil_demografico r = Some (Some perfil)
             /\ generar_perfil_segmento df_segmento = Some perfil
             /\ Perfil.total_personas perfil
                = Flujo.total_personas_segmento r)
    /\ forall g, Flujo.analisis_geografico r = Some g ->
         let top := AnalisisGeografico.top_ubicaciones g in
         let orden := match ordenamiento criterios with
                      | Some o => o
                      | None => orden_defecto
                      end in
         In (AnalisisGeografico.columna_geografica g) (columns df)
         /\ Z.of_nat (List.length top)
            <= AnalisisGeografico.total_ubicaciones g
            <= Flujo.total_personas_segmento r
         /\ (0 <= limite -> Z.of_nat (List.length top) <= limite)
         /\ Forall (fun z => 1 <= Zona.conteo z
                             <= Flujo.total_personas_segmento r
                             /\ 0 <= Zona.porcentaje z <= 10000) top
         /\ suma (map Zona.conteo top) <= Flujo.total_personas_segmento r
         /\ (orden = py "descendente" ->
             StronglySorted (fun a b => Zona.conteo b <= Zona.conteo a) top)
         /\ (orden <> py "descendente" ->
             StronglySorted (fun a b => Zona.conteo a <= Zona.conteo b) top).
Proof.
  unfold analizar_flujo_completo.
  destruct (aplicar_filtros re_compile re_search df criterios)
    as [s|] eqn:Hs; [|discriminate].
  pose proof (aplicar_filtros_len re_compile re_search df s criterios Hs)
    as Hlen.
  assert (Hcols : columns s = columns df).
  { apply aplicar_filtros_forallb in Hs. destruct Hs as [conds [_ ->]].
    reflexivity. }
  assert (Hpct : 0 <= (if 0 <? len df
                       then porcentaje_de 2 (len s) (len df) else 0)
                 <= 10000).
  { destruct (Z.ltb_spec 0 (len df)); [|lia].
    apply (porcentaje_de_entre 2); lia. }
  cbv zeta. intros H. exists s. split; [reflexivity|].
  destruct (Z.eqb_spec (len s) 0) as [E|E]; injection H as <-;
    cbn [Flujo.criterios_aplicados Flujo.total_personas_segmento
           Flujo.porcentaje_poblacion_total Flujo.error
           Flujo.analisis_geografico Flujo.perfil_demografico].
  - split; [reflexivity|]. split; [reflexivity|]. split; [lia|].
    split; [exact Hpct|]. split; [intros _; repeat split|].
    split; [lia|]. intros g Hg. discriminate Hg.
  - split; [reflexivity|]. split; [reflexivity|]. split; [lia|].
    split; [exact Hpct|]. split; [intros E0; exfalso; exact (E E0)|].
    split.
    + intros _. split; [reflexivity|].
      unfold generar_perfil_segmento.
      destruct (Z.eqb_spec (len s) 0) as [E0|_]; [exfalso; exact (E E0)|].
      eexists. split; [reflexivity|]. split; reflexivity.
    + intros g.
      destruct (dado (o_bien segmentacion (segmentacion_geografica criterios)))
        as [col|]; [|discriminate].
      destruct (mem col (columns s)) eqn:Hm; [|discriminate].
      intros [= <-].
      pose proof (analisis_geografico_de_invariantes s col
                    (match ordenamiento criterios with
                     | Some o => o
                     | None => orden_defecto
                     end) limite) as Hg.
      cbv zeta in Hg. destruct Hg as (Hg1 & Hg2 & Hg3 & Hg4 & Hg5 & Hg6 & Hg7).
      cbv zeta. rewrite Hg1. split.
      { rewrite <- Hcols. apply mem_In, Hm. }
      repeat split; try assumption; try tauto.
Qed.

Close Scope Z_scope.
Close Scope string_scope.

End PropiedadesFlujo.

(* ================================================================= *)
(** ** Characterisation of a neighbourhood *)

Open Scope string_scope.
Open Scope Z_scope.

Lemma cuantos_yes_entre (f : Persona -> str) (df : DataFrame) :
  0 <= cuantos_yes f df <= len df.
Proof.
  unfold cuantos_yes, len.
  pose proof (filter_length_le (fun p => es_yes (f p)) (filas df)). lia.
Qed.

(** X27.  [_caracterizar_colonia] gives nothing for a neighbourhood without
    rows.  Otherwise it counts the three deprivations, each count at
    most the rows, and the level is one of "Muy Alta", "Alta",
    "Moderada" and "Baja", never "Sin datos": the level is "Baja" when
    nobody has a deprivation and "Muy Alta" when everybody has the
    three. *)
Theorem caracterizacion_colonia_invariantes (df_colonia : DataFrame) :
  match _caracterizar_colonia df_colonia with
  | None => filas df_colonia = []
  | Some c =>
      let nivel := Caracteristicas.nivel_vulnerabilidad c in
      let carencias := Caracteristicas.carencias_principales c in
      filas df_colonia <> []
      /\ map fst carencias
         = [py "salud"; py "educacion"; py "seguridad_social"]
      /\ Forall (fun kv => 0 <= snd kv <= len df_colonia) carencias
      /\ In nivel [py "Muy Alta"; py "Alta"; py "Moderada"; py "Baja"]
      /\ nivel <> py "Sin datos"
      /\ (Forall (fun kv => snd kv = 0) carencias -> nivel = py "Baja")
      /\ (Forall (fun kv => snd kv = len df_colonia) carencias ->
          nivel = py "Muy Alta")
  end.
Proof.
  unfold _caracterizar_colonia.
  destruct (Z.ltb_spec 0 (len df_colonia)) as [Hpos|Hle].
  - cbv zeta.
    cbn [Caracteristicas.nivel_vulnerabilidad
           Caracteristicas.carencias_principales].
    pose proof (cuantos_yes_entre Col.presencia_carencia_salud_persona
                  df_colonia) as Ha.
    pose proof (cuantos_yes_entre Col.presencia_rezago_educativo_persona
                  df_colonia) as Hb.
    pose proof (cuantos_yes_entre
                  Col.presencia_carencia_seguridad_social_persona df_colonia)
      as Hc.
    set (a := cuantos_yes Col.presencia_carencia_salud_persona df_colonia) in *.
    set (b := cuantos_yes Col.presencia_rezago_educativo_persona df_colonia)
      in *.
    set (c := cuantos_yes Col.presencia_carencia_seguridad_social_persona
                df_colonia) in *.
    set (n := len df_colonia) in *.
    split.
    { intros H. unfold n, len in Hpos. rewrite H in Hpos. simpl in Hpos. lia. }
    split; [reflexivity|].
    split; [repeat constructor; cbn [snd]; lia|].
    unfold _clasificar_vulnerabilidad.
    destruct (Z.eqb_spec n 0) as [|_]; [lia|].
    cbv zeta. cbn [map snd suma fold_right List.length].
    change (suma (map snd [(py "salud", a); (py "educacion", b);
                           (py "seguridad_social", c)]))
      with (a + (b + (c + 0))).
    destruct (Z.ltb_spec (60 * (Z.of_nat 3 * n)) ((a + (b + (c + 0))) * 100));
      [|destruct (Z.ltb_spec (45 * (Z.of_nat 3 * n))
                    ((a + (b + (c + 0))) * 100));
        [|destruct (Z.ltb_spec (30 * (Z.of_nat 3 * n))
                      ((a + (b + (c + 0))) * 100))]].
    all: split; [cbn [In]; tauto|].
    all: split; [intros E; vm_compute in E; discriminate E|].
    all: split; intros HF;
      repeat match goal with
             | H : Forall _ (_ :: _) |- _ =>
                 let x := fresh "Hx" in
                 let y := fresh "Hy" in
                 inversion H as [|? ? x y]; subst; clear H
             end;
      cbn [snd] in *; try reflexivity; exfalso; lia.
  - unfold len in Hle. destruct (filas df_colonia); [reflexivity|].
    simpl in Hle. lia.
Qed.

Close Scope Z_scope.
Close Scope string_scope.

(* ================================================================= *)
(** ** Legacy validator *)

Open Scope string_scope.
Open Scope Z_scope.

Lemma clasificar_variables_filtros (cols variables : list str) :
  fst (clasificar_variables cols variables)
  = filter (fun v => mem v cols) variables
  /\ snd (clasificar_variables cols variables)
     = filter (fun v => negb (mem v cols
                              || startswith v (py "rango_edad_")
                              || contains (py "multiple_carencias") v))
         variables.
Proof.
  induction variables as [|v l [IH1 IH2]]; [split; reflexivity|].
  cbn [clasificar_variables filter].
  destruct (mem v cols); cbn [orb negb fst snd].
  - rewrite IH1, IH2. split; reflexivity.
  - destruct (startswith v (py "rango_edad_")); cbn [orb negb fst snd];
      [split; assumption|].
    destruct (contains (py "multiple_carencias") v); cbn [orb negb fst snd];
      [split; assumption|].
    rewrite IH1, IH2. split; reflexivity.
Qed.

(** X28.  The legacy validator returns as valid the variables that are
    columns of the table, in their order, and as invalid the ones that
    are neither a column nor a concept (a name that starts with
    "rango_edad_" or contains "multiple_carencias"); a concept is in
    neither list.  [todas_validas] says that no variable is invalid, so
    it can hold with variables that are not among the valid ones.  On
    the variables of a translation the two lists are those of
    [validar_variables_mejorado], and [todas_validas] is its
    [columnas_validas], whether the translation has criteria or not. *)
Theorem validar_variables_legacy (df : DataFrame) (variables : list str) :
  let v := validar_variables df variables in
  let concepto x := startswith x (py "rango_edad_")
                    || contains (py "multiple_carencias") x in
  ValidacionLegacy.validas v = filter (fun x => mem x (columns df)) variables
  /\ ValidacionLegacy.invalidas v
     = filter (fun x => negb (mem x (columns df)) && negb (concepto x))
         variables
  /\ ValidacionLegacy.todas_validas v
     = forallb (fun x => mem x (columns df) || concepto x) variables
  /\ forall traduccion,
       variables_detectadas traduccion = variables ->
       let m := validar_variables_mejorado df traduccion in
       ValidacionLegacy.validas v = Validacion.variables_validas m
       /\ ValidacionLegacy.invalidas v = Validacion.variables_invalidas m
       /\ ValidacionLegacy.todas_validas v = Validacion.columnas_validas m.
Proof.
  cbv zeta. unfold validar_variables.
  cbn [ValidacionLegacy.validas ValidacionLegacy.invalidas
         ValidacionLegacy.todas_validas andb].
  destruct (clasificar_variables_filtros (columns df) variables) as [H1 H2].
  split; [exact H1|]. split.
  { rewrite H2. apply filter_ext. intros x.
    rewrite <- orb_assoc, negb_orb. reflexivity. }
  split.
  { rewrite H2. clear H1 H2.
    induction variables as [|x l IH]; [reflexivity|].
    cbn [filter forallb]. rewrite <- orb_assoc.
    destruct (mem x (columns df)
              || (startswith x (py "rango_edad_")
                  || contains (py "multiple_carencias") x));
      cbn [negb andb]; [exact IH | reflexivity]. }
  intros traduccion <-. unfold validar_variables_mejorado.
  cbn [Validacion.variables_validas Validacion.variables_invalidas
         Validacion.columnas_validas].
  repeat split.
Qed.

(* ================================================================= *)
(** ** Distribution of a categorical column *)

(** X29.  [analizar_distribucion_categorica] reports an error exactly when
    the table has no such column.  Otherwise the records counted are at
    most the rows, the categories at most the records; at most [top_n]
    categories are listed, the most frequent first, each with a count
    between 1 and the records and a percentage in [0,100]; the counts
    listed add up to at most the records, and to the records when
    [top_n] is at least the number of categories. *)
Theorem distribucion_categorica_invariantes (df : DataFrame) (columna : str)
  (top_n : Z) :
  match analizar_distribucion_categorica df columna top_n with
  | ErrorCategorica _ => ~ In columna (columns df)
  | CategoricaOk r =>
      let d := DistribucionCategorica.distribucion r in
      let total := DistribucionCategorica.total_registros r in
      In columna (columns df)
      /\ 0 <= DistribucionCategorica.categorias_unicas r <= total
      /\ total <= len df
      /\ Z.of_nat (List.length d) <= DistribucionCategorica.categorias_unicas r
      /\ (0 <= top_n -> Z.of_nat (List.length d) <= top_n)
      /\ StronglySorted (fun a b => Zona.conteo b <= Zona.conteo a) d
      /\ Forall (fun z => 1 <= Zona.conteo z <= total
                          /\ 0 <= Zona.porcentaje z <= 10000) d
      /\ suma (map Zona.conteo d) <= total
      /\ (DistribucionCategorica.categorias_unicas r <= top_n ->
          suma (map Zona.conteo d) = total)
  end.
Proof.
  unfold analizar_distribucion_categorica.
  destruct (mem columna (columns df)) eqn:Hm; cbn [negb].
  - cbv zeta.
    cbn [DistribucionCategorica.distribucion
           DistribucionCategorica.total_registros
           DistribucionCategorica.categorias_unicas].
    set (datos := etiquetas columna df).
    set (vc := value_counts eqb datos).
    set (total := Z.of_nat (List.length datos)).
    destruct (hasta_prefijo top_n vc) as [resto Hvc].
    assert (Htot : Z.of_nat (total_conteos vc) <= total).
    { unfold vc, total. rewrite value_counts_total. lia. }
    destruct (con_porcentaje_prefijo total vc (hasta top_n vc) resto Hvc
                (value_counts_positivos _) Htot)
      as (Hf & Hs & Hl & Hsorted & _).
    assert (Hvl : (List.length vc <= List.length datos)%nat).
    { unfold vc. rewrite value_counts_length. apply contar_length_le. }
    split; [apply mem_In, Hm|].
    split; [unfold total; lia|].
    split; [apply etiquetas_length|].
    split; [lia|]. split.
    { intros H0. unfold con_porcentaje. rewrite length_map.
      apply hasta_length, H0. }
    split; [apply Hsorted, value_counts_sorted|].
    split; [exact Hf|]. split.
    { unfold vc in Hs at 2. rewrite value_counts_total in Hs. exact Hs. }
    intros Hn. rewrite (hasta_todo top_n vc Hn).
    unfold con_porcentaje. rewrite map_map. cbn [Zona.conteo].
    rewrite suma_conteos_enteros. unfold vc. rewrite value_counts_total.
    reflexivity.
  - intros H. apply mem_In in H. rewrite H in Hm. discriminate Hm.
Qed.

(* ================================================================= *)
(** ** Gaps of several programs *)

Lemma ordenar_desc_map {A B : Type} (f : A -> B) (clave : B -> Z)
  (l : list A) :
  ordenar_desc clave (map f l) = map f (ordenar_desc (fun x => clave (f x)) l).
Proof.
  induction l as [|x l IH]; [reflexivity|].
  cbn [map ordenar_desc fold_right].
  fold (ordenar_desc clave (map f l)).
  fold (ordenar_desc (fun x => clave (f x)) l).
  rewrite IH. generalize (ordenar_desc (fun x => clave (f x)) l) as s.
  induction s as [|y s IHs]; [reflexivity|].
  cbn [map insertar_desc].
  destruct (clave (f x) <? clave (f y)); cbn [map]; [rewrite IHs|];
    reflexivity.
Qed.

Section PropiedadesBrechasMultiprograma.

Context {Regex : Type}.
Variable re_compile : str -> option Regex.
Variable re_search : Regex -> str -> bool.
Variable str_lower : str -> str.

(** X30.  The comparison of gaps between programs and the analysis of
    several programs go together: one raises when the other does, and
    otherwise they keep the same results by program and the same
    totals, and name the same program as the one of largest
    eligibility.  The ranking of the comparison of gaps holds every
    program analysed once, the one with most eligible people first;
    the ranking of the analysis of several programs is its first
    [top_n] names. *)
Theorem brechas_multiprograma_como_multiple
  (self : AnalizadorProgramasSociales.t)
  (programas : list str) (rango : option (Z * Z)) (ubic : option str)
  (top_n : Z) :
  match analizar_brechas_multiprograma re_compile re_search str_lower self
          programas rango ubic,
        analizar_elegibilidad_multiple re_compile re_search str_lower self
          programas rango ubic top_n with
  | ExcepcionBrechasMultiprograma, None => True
  | BrechasMultiprogramaOk b, Some m =>
      BrechasMultiprograma.resultados_por_programa b
      = Multiple.analisis_individual m
      /\ map fst (BrechasMultiprograma.comparativa_resumida b)
         = map fst (Multiple.analisis_individual m)
      /\ BrechasMultiprograma.total_programas_analizados b
         = Multiple.total_programas_analizados m
      /\ BrechasMultiprograma.total_elegibles_agregado b
         = Multiple.total_elegibles_todos m
      /\ match BrechasMultiprograma.analisis_comparativo b,
               Multiple.analisis_comparativo m with
         | None, None => Multiple.analisis_individual m = []
         | Some cb, Some cm =>
             ComparativoBrechas.programa_mas_cobertura cb
             = Comparativo.programa_mayor_elegibilidad cm
             /\ Comparativo.ranking_elegibles cm
                = hasta top_n (ComparativoBrechas.ranking_por_elegibles cb)
             /\ Permutation (ComparativoBrechas.ranking_por_elegibles cb)
                  (map fst (Multiple.analisis_individual m))
             /\ exists ordenados,
                  Permutation ordenados (Multiple.analisis_individual m)
                  /\ StronglySorted
                       (fun a b => elegibles_de b <= elegibles_de a)
                       ordenados
                  /\ ComparativoBrechas.ranking_por_elegibles cb
                     = map fst ordenados
         | _, _ => False
         end
  | _, _ => False
  end.
Proof.
  unfold analizar_brechas_multiprograma, analizar_elegibilidad_multiple.
  destruct (analizar_cada re_compile re_search str_lower self programas rango
              ubic [])
    as [res|]; [|exact I].
  cbv zeta.
  cbn [BrechasMultiprograma.resultados_por_programa
         BrechasMultiprograma.comparativa_resumida
         BrechasMultiprograma.total_programas_analizados
         BrechasMultiprograma.total_elegibles_agregado
         BrechasMultiprograma.analisis_comparativo
         Multiple.analisis_individual Multiple.total_programas_analizados
         Multiple.total_elegibles_todos Multiple.analisis_comparativo].
  split; [reflexivity|].
  split; [rewrite map_map; reflexivity|].
  split; [reflexivity|].
  split; [rewrite map_map; reflexivity|].
  destruct res as [|kv0 res']; [reflexivity|].
  set (res := kv0 :: res').
  change (map (fun kv : str * Elegibilidad.t =>
                 (fst kv,
                  (PoblacionElegible.total_elegibles
                     (Elegibilidad.seccion_1_poblacion_elegible (snd kv)),
                   PoblacionElegible.tasa_elegibilidad
                     (Elegibilidad.seccion_1_poblacion_elegible (snd kv)))))
            (kv0 :: res'))
    with (map (fun kv : str * Elegibilidad.t =>
                 (fst kv,
                  (PoblacionElegible.total_elegibles
                     (Elegibilidad.seccion_1_poblacion_elegible (snd kv)),
                   PoblacionElegible.tasa_elegibilidad
                     (Elegibilidad.seccion_1_poblacion_elegible (snd kv)))))
            res).
  set (f := fun kv : str * Elegibilidad.t =>
              (fst kv,
               (PoblacionElegible.total_elegibles
                  (Elegibilidad.seccion_1_poblacion_elegible (snd kv)),
                PoblacionElegible.tasa_elegibilidad
                  (Elegibilidad.seccion_1_poblacion_elegible (snd kv))))).
  assert (Hord : map fst (ordenar_desc (fun kv : str * (Z * Z) => fst (snd kv))
                            (map f res))
                 = map fst (ordenar_desc elegibles_de res)).
  { rewrite ordenar_desc_map, map_map. reflexivity. }
  destruct (map f res) as [|c0 cs] eqn:Ef; [discriminate Ef|].
  rewrite <- Ef in Hord |- *.
  cbn [ComparativoBrechas.programa_mas_cobertura
         ComparativoBrechas.ranking_por_elegibles
         Comparativo.programa_mayor_elegibilidad
         Comparativo.ranking_elegibles].
  rewrite Hord.
  split; [reflexivity|]. split; [reflexivity|]. split.
  { apply Permutation_map, ordenar_desc_perm. }
  exists (ordenar_desc elegibles_de res).
  split; [apply ordenar_desc_perm|].
  split; [apply ordenar_desc_sorted | reflexivity].
Qed.

End PropiedadesBrechasMultiprograma.

Close Scope Z_scope.
Close Scope string_scope.

(* ================================================================= *)
(** ** The eligibility analysis and the attributes of the instance *)

Lemma veces_positivo (x : str) (l : list str) : In x l -> (1 <= veces x l)%nat.
Proof.
  unfold veces. induction l as [|y l IH]; simpl; [contradiction|].
  intros [->|H].
  - rewrite eqb_refl. simpl. lia.
  - destruct (eqb x y); simpl; [lia | exact (IH H)].
Qed.

Section PropiedadesDeLaInstancia.

Context {Regex : Type}.
Variable re_compile : str -> option Regex.
Variable re_search : Regex -> str -> bool.
Variable str_lower : str -> str.

Open Scope string_scope.
Open Scope Z_scope.

(** C8 (code bug): the class keeps the [__init__] of line 1312, which
    takes [api_key] and assigns neither [programas_nombres] nor
    [programas_disponibles], so the call
    [AnalizadorProgramasSociales(df_completo)] of the coordinator
    raises, and for a program whose eligibility column is not a
    column of the table the analysis raises on every instance that
    lacks one of the two attributes, as the instance that this
    [__init__] assigns does: no error dictionary with the catalog is
    returned.  On the instance of the [__init__] of line 571, which
    the class body replaces, the analysis returns the error
    dictionary with the program names and the eligibility columns of
    the table: the columns listed are all the eligibility columns,
    and every program whose column exists is among the names (a name
    that does not contain the prefix of the columns). *)
Theorem programa_desconocido_lanza_sin_catalogo (df : DataFrame)
  (programa : str) (rango_edad : option (Z * Z))
  (ubicacion sexo carencia : option str) :
  mem (columna_de_programa programa) (columns df) = false ->
  init_de_la_clase = Some InitLinea1312
  /\ construir df = None
  /\ (forall self,
        AnalizadorProgramasSociales.df self = df ->
        AnalizadorProgramasSociales.programas_nombres self = None
        \/ AnalizadorProgramasSociales.programas_disponibles self = None ->
        analizar_elegibilidad_programa re_compile re_search str_lower self
          programa rango_edad ubicacion sexo carencia = None)
  /\ analizar_elegibilidad_programa re_compile re_search str_lower
       (init_linea_1312 df) programa rango_edad ubicacion sexo carencia
     = None
  /\ exists nombres columnas,
       analizar_elegibilidad_programa re_compile re_search str_lower
         (init_linea_571 df) programa rango_edad ubicacion sexo carencia
       = Some (ErrorProgramaNoEncontrado
                 (py "Programa '" ++ programa ++ py "' no encontrado")%list
                 nombres columnas)
       /\ (forall col, In col columnas
                       <-> In col (columns df)
                           /\ startswith col (py "es_elegible_") = true)
       /\ (forall p, In (columna_de_programa p) (columns df) ->
                     replace p (py "es_elegible_") [] = p ->
                     In p nombres).
Proof.
  intros H.
  split; [reflexivity|]. split; [reflexivity|]. split.
  { intros self Hdf Hattr. unfold analizar_elegibilidad_programa.
    rewrite Hdf, H. cbn [negb].
    destruct Hattr as [-> | ->]; [reflexivity|].
    destruct (AnalizadorProgramasSociales.programas_nombres self);
      reflexivity. }
  split.
  { unfold analizar_elegibilidad_programa, init_linea_1312.
    cbn [AnalizadorProgramasSociales.df
           AnalizadorProgramasSociales.programas_nombres
           AnalizadorProgramasSociales.programas_disponibles].
    rewrite H. reflexivity. }
  eexists. eexists. split; [|split].
  - unfold analizar_elegibilidad_programa, init_linea_571.
    cbn [AnalizadorProgramasSociales.df
           AnalizadorProgramasSociales.programas_nombres
           AnalizadorProgramasSociales.programas_disponibles].
    rewrite H. reflexivity.
  - intros col.
    apply (filter_In (fun c => startswith c (py "es_elegible_"))).
  - intros p Hp Hrep. apply in_map_iff.
    exists (columna_de_programa p). split.
    + unfold columna_de_programa. rewrite replace_prefix; [exact Hrep|].
      discriminate.
    + apply (filter_In (fun c => startswith c (py "es_elegible_"))).
      split; [exact Hp | apply startswith_app].
Qed.

(** C2 (as the code has it): for a program whose eligibility column
    the table has, when the base filters yield no row the analysis
    returns the error dictionary "No hay personas que cumplan los
    criterios especificados", whatever the attributes of the
    instance.  When the filters yield rows and none of them is
    eligible, every result that the analysis returns is a completed
    one whose sections 1 and 2 are all zero; it returns one exactly
    when the instance has the attribute [mapeo_programas] and either
    no location is given or some filtered row has a neighbourhood,
    and raises otherwise. *)
Theorem sin_filas_devuelve_error (self : AnalizadorProgramasSociales.t)
  (programa : str)
  (rango_edad : option (Z * Z)) (ubicacion sexo carencia : option str)
  (df_filtrado : DataFrame) :
  mem (columna_de_programa programa)
    (columns (AnalizadorProgramasSociales.df self)) = true ->
  _aplicar_filtros_basicos re_compile re_search
    (AnalizadorProgramasSociales.df self) rango_edad ubicacion sexo carencia
  = Some df_filtrado ->
  (filas df_filtrado = [] ->
   analizar_elegibilidad_programa re_compile re_search str_lower self
     programa rango_edad ubicacion sexo carencia
   = Some (ErrorSinPersonas
             (py "No hay personas que cumplan los criterios especificados")))
  /\ (filas df_filtrado <> [] ->
      filter (otra_es_yes (columna_de_programa programa)) (filas df_filtrado)
      = [] ->
      (forall res,
         analizar_elegibilidad_programa re_compile re_search str_lower self
           programa rango_edad ubicacion sexo carencia = Some res ->
         exists r,
           res = ResultadoElegibilidadOk r
           /\ Elegibilidad.seccion_1_poblacion_elegible r
              = PoblacionElegible.mk 0 0 0 0
           /\ Elegibilidad.seccion_2_perfil_elegibles r
              = PerfilElegibles.mk 0 0 0 [] [])
      /\ (analizar_elegibilidad_programa re_compile re_search str_lower self
            programa rango_edad ubicacion sexo carencia <> None
          <-> AnalizadorProgramasSociales.mapeo_programas self <> None
              /\ (dado ubicacion = None
                  \/ exists p, In p (filas df_filtrado)
                               /\ Col.colonia p <> None))).
Proof.
  intros Hcol Hf. unfold analizar_elegibilidad_programa.
  rewrite Hcol, Hf. cbn [negb]. split.
  - intros Hv. unfold len. rewrite Hv. reflexivity.
  - intros Hne Hel.
    set (df := AnalizadorProgramasSociales.df self) in *.
    assert (Hlen : 0 < len df_filtrado).
    { unfold len. destruct (filas df_filtrado); [congruence|simpl; lia]. }
    destruct (Z.eqb_spec (len df_filtrado) 0) as [E|_]; [lia|].
    assert (Hs1 : seccion_1 df df_filtrado
                    (seleccionar (otra_es_yes (columna_de_programa programa))
                       df_filtrado)
                  = PoblacionElegible.mk 0 0 0 0).
    { unfold seccion_1, seleccionar, len at 1 3 5. cbn [filas].
      rewrite Hel. cbn [List.length Z.of_nat].
      destruct (Z.ltb_spec 0 (len df_filtrado)) as [_|]; [|lia].
      rewrite porcentaje_de_0 by assumption. change (0 <? 0) with false.
      cbv iota.
      destruct (Z.ltb_spec 0 (len df)) as [Hd|_]; [|reflexivity].
      rewrite porcentaje_de_0 by assumption. reflexivity. }
    assert (Hs2 : seccion_2
                    (seleccionar (otra_es_yes (columna_de_programa programa))
                       df_filtrado)
                  = PerfilElegibles.mk 0 0 0 [] []).
    { unfold seccion_2, seleccionar, edades. cbn [filas].
      rewrite Hel. reflexivity. }
    assert (Hcols : mem (columna_de_programa programa) (columns df_filtrado)
                    = true).
    { destruct (filtros_basicos_subtabla _ _ _ _ _ _ _ _ Hf) as [-> _].
      exact Hcol. }
    assert (Hcolonia :
              forall u,
                _generar_comparativa str_lower programa u df_filtrado <> None
                <-> exists p, In p (filas df_filtrado)
                              /\ Col.colonia p <> None).
    { intros u. split.
      - intros Hu.
        destruct (colonias df_filtrado) as [|c cs] eqn:Ec.
        + exfalso. apply Hu. apply comparativa_lanza. left.
          apply colonias_vacio, Ec.
        + assert (Hin : In c (colonias df_filtrado))
            by (rewrite Ec; left; reflexivity).
          apply colonias_In in Hin. destruct Hin as [p [Hp Hc]].
          exists p. split; [exact Hp|]. rewrite Hc. discriminate.
      - intros [p [Hp Hc]] Hn. apply comparativa_lanza in Hn.
        destruct Hn as [Hn|Hn].
        + exact (Hc (Hn p Hp)).
        + rewrite Hcols in Hn. discriminate Hn. }
    destruct (AnalizadorProgramasSociales.mapeo_programas self)
      as [mapeo|] eqn:Hmap;
      destruct (dado ubicacion) as [u|] eqn:Hu.
    + destruct (basicos_compila _ _ _ _ _ _ _ _ _ Hf Hu) as [r Hr].
      unfold _obtener_contexto_colonia. rewrite Hr.
      destruct (_generar_comparativa str_lower programa u df_filtrado)
        as [k|] eqn:Hk.
      * split.
        -- intros res [= <-]. eexists. split; [reflexivity|].
           cbn [Elegibilidad.seccion_1_poblacion_elegible
                  Elegibilidad.seccion_2_perfil_elegibles].
           split; assumption.
        -- split; [|discriminate]. intros _. split; [discriminate|].
           right. apply (Hcolonia u). rewrite Hk. discriminate.
      * split; [discriminate|]. split.
        -- intros Hn. exfalso. apply Hn. reflexivity.
        -- intros [_ [Hd|Hex]]; [discriminate Hd|].
           exfalso. exact (proj2 (Hcolonia u) Hex Hk).
    + split.
      * intros res [= <-]. eexists. split; [reflexivity|].
        cbn [Elegibilidad.seccion_1_poblacion_elegible
               Elegibilidad.seccion_2_perfil_elegibles].
        split; assumption.
      * split; [|discriminate]. intros _. split; [discriminate|].
        left. reflexivity.
    + destruct (basicos_compila _ _ _ _ _ _ _ _ _ Hf Hu) as [r Hr].
      unfold _obtener_contexto_colonia. rewrite Hr.
      destruct (_generar_comparativa str_lower programa u df_filtrado);
        (split; [discriminate|]);
        (split; [intros Hn; exfalso; apply Hn; reflexivity|]);
        intros [Hm _]; exfalso; apply Hm; reflexivity.
    + split; [discriminate|].
      split; [intros Hn; exfalso; apply Hn; reflexivity|].
      intros [Hm _]. exfalso. apply Hm. reflexivity.
Qed.

(** C10: the ranking of a location is computed by equality of the
    location string with the neighbourhood of the rows.  It is the
    empty dictionary exactly when no row has a neighbourhood equal to
    the string; otherwise it holds a position between 1 and the
    number of distinct neighbourhoods and, as population, the number
    of rows of that neighbourhood.  The context of a location raises
    only when the pattern does not compile; otherwise it counts the
    rows that the location pattern selects and carries that ranking,
    and the fourth section of a completed eligibility analysis with
    a location is that context: a string that selects rows by
    containment and equals no neighbourhood gets a context with an
    empty ranking, not a rank and not an error. *)
Theorem ranking_vacio_sin_igualdad_exacta (df : DataFrame) (ubicacion : str) :
  (_obtener_ranking_colonia df ubicacion = None
   <-> forall p, In p (filas df) -> Col.colonia p <> Some ubicacion)
  /\ (forall r,
        _obtener_ranking_colonia df ubicacion = Some r ->
        1 <= Ranking.posicion r <= Ranking.de_total r
        /\ Ranking.de_total r = nunique eqb (colonias df)
        /\ Ranking.poblacion r = Z.of_nat (veces ubicacion (colonias df))
        /\ 1 <= Ranking.poblacion r)
  /\ (_obtener_contexto_colonia re_compile re_search df ubicacion = None
      <-> re_compile ubicacion = None)
  /\ (forall contexto,
        _obtener_contexto_colonia re_compile re_search df ubicacion
        = Some contexto ->
        Contexto.ranking_colonias contexto
        = _obtener_ranking_colonia df ubicacion
        /\ exists r,
             re_compile ubicacion = Some r
             /\ Contexto.poblacion_total contexto
                = len (seleccionar (mascara_ubicacion re_search r) df))
  /\ (forall self programa rango_edad ubic sexo carencia res,
        AnalizadorProgramasSociales.df self = df ->
        dado ubic = Some ubicacion ->
        analizar_elegibilidad_programa re_compile re_search str_lower self
          programa rango_edad ubic sexo carencia
        = Some (ResultadoElegibilidadOk res) ->
        exists contexto,
          Elegibilidad.seccion_4_contexto_colonia res = Some contexto
          /\ _obtener_contexto_colonia re_compile re_search df ubicacion
             = Some contexto
          /\ Contexto.ranking_colonias contexto
             = _obtener_ranking_colonia df ubicacion).
Proof.
  assert (Hctx : forall contexto,
            _obtener_contexto_colonia re_compile re_search df ubicacion
            = Some contexto ->
            Contexto.ranking_colonias contexto
            = _obtener_ranking_colonia df ubicacion
            /\ exists r,
                 re_compile ubicacion = Some r
                 /\ Contexto.poblacion_total contexto
                    = len (seleccionar (mascara_ubicacion re_search r) df)).
  { intros contexto. unfold _obtener_contexto_colonia.
    destruct (re_compile ubicacion) as [r|]; [|discriminate].
    intros [= <-]. cbn [Contexto.ranking_colonias Contexto.poblacion_total].
    split; [reflexivity|]. exists r. split; reflexivity. }
  split; [|split; [|split; [|split]]].
  - split.
    + intros Hn p Hp Hc.
      destruct (ranking_con_igualdad_exacta df ubicacion) as [r Hr].
      { exists p. split; assumption. }
      rewrite Hr in Hn. discriminate Hn.
    + intros H. unfold _obtener_ranking_colonia.
      rewrite (index_of_None eqb eqb_eq); [reflexivity|].
      rewrite (value_counts_claves eqb eqb_eq), colonias_In.
      intros [p [Hp Hc]]. exact (H p Hp Hc).
  - intros r. unfold _obtener_ranking_colonia.
    destruct (index_of eqb ubicacion
                (map fst (value_counts eqb (colonias df)))) as [i|] eqn:Hi;
      [|discriminate].
    destruct (buscar_conteo eqb ubicacion (value_counts eqb (colonias df)))
      as [n|] eqn:Hn; [|discriminate].
    intros [= <-].
    cbn [Ranking.posicion Ranking.de_total Ranking.poblacion].
    assert (Hin : In ubicacion (colonias df)).
    { apply (value_counts_claves eqb eqb_eq).
      destruct (in_dec (list_eq_dec N.eq_dec) ubicacion
                  (map fst (value_counts eqb (colonias df)))) as [Hy|Hno];
        [exact Hy|].
      rewrite (index_of_None eqb eqb_eq _ _ Hno) in Hi. discriminate Hi. }
    rewrite (value_counts_veces _ _ Hin) in Hn. injection Hn as <-.
    pose proof (veces_positivo _ _ Hin) as Hv.
    apply index_of_lt in Hi. rewrite length_map in Hi.
    split; [lia|]. split.
    { unfold nunique. rewrite value_counts_length. reflexivity. }
    split; [reflexivity | lia].
  - unfold _obtener_contexto_colonia.
    destruct (re_compile ubicacion); split; try reflexivity; discriminate.
  - exact Hctx.
  - intros self programa rango_edad ubic sexo carencia res Hdf Hu Hres.
    apply analizar_elegibilidad_secciones in Hres. cbv zeta in Hres.
    destruct Hres as (d & Hf & _ & _ & _ & _ & H4 & _).
    rewrite Hdf, Hu in H4.
    destruct (_obtener_contexto_colonia re_compile re_search df ubicacion)
      as [contexto|] eqn:Ec.
    + exists contexto. split; [exact H4|]. split; [reflexivity|].
      exact (proj1 (Hctx contexto eq_refl)).
    + exfalso. rewrite Hdf in Hf.
      destruct (basicos_compila _ _ _ _ _ _ _ _ _ Hf Hu) as [r Hr].
      unfold _obtener_contexto_colonia in Ec. rewrite Hr in Ec.
      discriminate Ec.
Qed.

Close Scope Z_scope.
Close Scope string_scope.

End PropiedadesDeLaInstancia.

(* ================================================================= *)
(** ** The further properties on the example tables *)

Open Scope string_scope.
Open Scope Z_scope.

Lemma edad_grupo_intervalos_witness :
  0 <= 59 < 120 /\ edad_grupo 59 = Some (py "45-59 años").
Proof.
  split; [lia | apply (edad_grupo_intervalos 59); lia].
Defined.

Lemma edad_grupo_fuera_witness :
  (-1 < 0 \/ 120 <= -1) /\ edad_grupo (-1) = None.
Proof.
  split; [lia | apply (edad_grupo_fuera (-1)); lia].
Defined.

(** The women of 60 and over of the example table are two rows. *)
Lemma aplicar_filtros_caracterizacion_witness :
  let criterios :=
    mkCriterios (Some (60, 130)) (Some (py "M")) None false false false
      None None None in
  exists df_segmento,
    aplicar_filtros literal_compile literal_search tabla_ejemplo criterios
    = Some df_segmento
    /\ len df_segmento = 2
    /\ columns df_segmento = columns tabla_ejemplo.
Proof.
  intros criterios. eexists.
  split; [vm_compute; reflexivity|].
  split; [vm_compute; reflexivity|].
  refine (proj1 (aplicar_filtros_caracterizacion literal_compile literal_search
                   tabla_ejemplo _ criterios _)).
  vm_compute. reflexivity.
Defined.

Lemma filtros_tabla_cruzada_coinciden_witness :
  let filtros :=
    mkCriterios (Some (60, 130)) (Some (py "Mujer")) None true false false
      (Some (py "pension_adultos_mayores")) None None in
  aplicar_filtros literal_compile literal_search tabla_ejemplo filtros
  = Some (_aplicar_filtros_tabla_cruzada tabla_ejemplo filtros).
Proof.
  intros filtros.
  apply (filtros_tabla_cruzada_coinciden literal_compile literal_search
           tabla_ejemplo filtros).
  - reflexivity.
  - intros s H. vm_compute in H. injection H as <-. vm_compute. reflexivity.
Defined.

Lemma ranking_posicion_y_poblacion_witness :
  exists r,
    _obtener_ranking_colonia tabla_ejemplo (py "San Pedro") = Some r
    /\ 1 <= Ranking.posicion r <= Ranking.de_total r
    /\ Ranking.de_total r = nunique eqb (colonias tabla_ejemplo)
    /\ Ranking.poblacion r
       = Z.of_nat (veces (py "San Pedro") (colonias tabla_ejemplo)).
Proof.
  apply (ranking_posicion_y_poblacion tabla_ejemplo (py "San Pedro")).
  exists (persona_ejemplo 3 120 "Mujer" "San Pedro" "yes" "yes" "yes" "yes"
            "yes").
  split; [do 3 right; left; reflexivity | reflexivity].
Defined.

Lemma perfil_invariantes_witness :
  exists perfil,
    generar_perfil_segmento tabla_ejemplo = Some perfil
    /\ Perfil.total_personas perfil = len tabla_ejemplo.
Proof.
  eexists. split; [vm_compute; reflexivity|].
  refine (proj1 (perfil_invariantes tabla_ejemplo _ _)).
  vm_compute. reflexivity.
Defined.

(** The analyses below that complete are run on the instance with the
    attributes of the [__init__] of line 571. *)
Lemma elegibilidad_tasas_acotadas_witness :
  exists r,
    analizar_elegibilidad_programa literal_compile literal_search lower
      (init_linea_571 tabla_ejemplo) (py "pension_adultos_mayores")
      None None None None
    = Some (ResultadoElegibilidadOk r)
    /\ 0 <= PoblacionElegible.total_elegibles
              (Elegibilidad.seccion_1_poblacion_elegible r)
       <= len tabla_ejemplo.
Proof.
  eexists. split; [vm_compute; reflexivity|].
  refine (proj1 (elegibilidad_tasas_acotadas literal_compile literal_search
                   lower (init_linea_571 tabla_ejemplo)
                   (py "pension_adultos_mayores") None None None None _ _)).
  vm_compute. reflexivity.
Defined.

Lemma elegibilidad_perfil_edades_witness :
  exists r,
    analizar_elegibilidad_programa literal_compile literal_search lower
      (init_linea_571 tabla_ejemplo) (py "imss_bienestar")
      None None None None
    = Some (ResultadoElegibilidadOk r)
    /\ (PoblacionElegible.total_elegibles
          (Elegibilidad.seccion_1_poblacion_elegible r) = 0 ->
        Elegibilidad.seccion_2_perfil_elegibles r
        = PerfilElegibles.mk 0 0 0 [] []).
Proof.
  eexists. split; [vm_compute; reflexivity|].
  refine (proj1 (elegibilidad_perfil_edades literal_compile literal_search
                   lower (init_linea_571 tabla_ejemplo) (py "imss_bienestar")
                   None None None None _ _)).
  vm_compute. reflexivity.
Defined.

Lemma tabla_cruzada_total_registros_witness :
  exists pares,
    analizar_tabla_cruzada tabla_ejemplo (py "edad_persona")
      (py "sexo_persona") None true = TablaCruzada pares
    /\ total_registros pares <= len tabla_ejemplo.
Proof.
  eexists. split; [vm_compute; reflexivity|].
  refine (proj2 (proj2 (tabla_cruzada_total_registros tabla_ejemplo
                          (py "edad_persona") (py "sexo_persona") None true
                          _ _))).
  vm_compute. reflexivity.
Defined.

Lemma validacion_con_esquema_completo_witness :
  Validacion.variables_invalidas
    (validar_variables_mejorado tabla_esquema
       (traducir_consulta_natural (py "mujeres con carencia de salud")))
  = [].
Proof.
  refine (proj1 (validacion_con_esquema_completo tabla_esquema
                   (py "mujeres con carencia de salud") _)).
  intros c Hc. right. right. exact Hc.
Defined.

(** "becas benito juárez" translates to the program beca_rita_cetina,
    which the example table has no column for. *)
Lemma validacion_detecta_programa_sin_columna_witness :
  Validacion.ejecutable
    (validar_variables_mejorado tabla_ejemplo
       (traducir_consulta_natural (py "becas benito juárez")))
  = false.
Proof.
  refine (proj2 (proj2 (validacion_detecta_programa_sin_columna tabla_ejemplo
                          (py "becas benito juárez") (py "beca_rita_cetina")
                          _ _))).
  - vm_compute. reflexivity.
  - intros H. apply mem_In in H. vm_compute in H. discriminate H.
Defined.


Lemma sin_cobertura_invariantes_witness :
  exists r,
    identificar_carencias_sin_cobertura literal_compile literal_search
      tabla_ejemplo (py "educacion") None None = SinCoberturaOk r
    /\ 0 <= SinCobertura.total_personas_sin_cobertura r
       <= SinCobertura.total_personas_con_carencia r.
Proof.
  eexists. split; [vm_compute; reflexivity|].
  destruct (sin_cobertura_invariantes literal_compile literal_search
              tabla_ejemplo (py "educacion") None None _
              ltac:(vm_compute; reflexivity))
    as (columna & df_con & _ & _ & _ & _ & H & _).
  exact H.
Defined.

(** Nobody in the example table is between 200 and 300 years old. *)
Lemma sin_cobertura_filtros_sin_filas_witness :
  identificar_carencias_sin_cobertura literal_compile literal_search
    tabla_ejemplo (py "salud") (Some (200, 300)) None
  = SinCoberturaOk
      (SinCobertura.mk (py "salud") 0 0 0
         (_obtener_programas_por_carencia (py "salud")) None).
Proof.
  apply (sin_cobertura_filtros_sin_filas literal_compile literal_search
           tabla_ejemplo tabla_vacia (py "salud")
           Col.presencia_carencia_salud_persona (Some (200, 300)) None).
  - vm_compute. reflexivity.
  - intros nombre H. vm_compute in H. injection H as <-.
    apply mem_In. vm_compute. reflexivity.
  - exists (persona_ejemplo 1 70 "Mujer" "Centro" "yes" "no" "yes" "yes" "no").
    split; [left; reflexivity | vm_compute; reflexivity].
  - vm_compute. reflexivity.
  - reflexivity.
Defined.

Lemma brecha_programa_invariantes_witness :
  exists r,
    analizar_brechas_programa_grupo literal_compile literal_search tabla_apoyos
      (py "pension_adultos_mayores") None None = BrechaOk r
    /\ 0 <= BrechaPrograma.total_brecha r <= BrechaPrograma.total_elegibles r.
Proof.
  eexists. split; [vm_compute; reflexivity|].
  refine (proj1 (proj2 (proj2 (brecha_programa_invariantes literal_compile
                                 literal_search tabla_apoyos
                                 (py "pension_adultos_mayores") None None
                                 _ _)))).
  vm_compute. reflexivity.
Defined.

(** The example table has no column of supports received. *)
Lemma brecha_programa_sin_columna_de_apoyos_witness :
  analizar_brechas_programa_grupo literal_compile literal_search tabla_ejemplo
    (py "pension_adultos_mayores") None None
  = ErrorBrecha
      (py "Columna 'recibe_apoyos_sociales' no encontrada para calcular la brecha").
Proof.
  refine (eq_trans
            (brecha_programa_sin_columna_de_apoyos literal_compile
               literal_search tabla_ejemplo tabla_ejemplo
               (py "pension_adultos_mayores") None None _ _ _ _) _).
  - apply mem_In. vm_compute. reflexivity.
  - intros H. apply mem_In in H. vm_compute in H. discriminate H.
  - vm_compute. reflexivity.
  - discriminate.
  - vm_compute. reflexivity.
Defined.

(** Two programs that the table has columns for and no age filter, on
    the instance with the attributes of the [__init__] of line 571:
    both are analysed, and the one with most eligible people is
    reported first. *)
Lemma elegibilidad_multiple_invariantes_witness :
  exists m,
    analizar_elegibilidad_multiple literal_compile literal_search lower
      (init_linea_571 tabla_ejemplo)
      [py "imss_bienestar"; py "pension_adultos_mayores"] None None 5 = Some m
    /\ Multiple.total_programas_analizados m = 2
    /\ NoDup (map fst (Multiple.analisis_individual m)).
Proof.
  generalize (elegibilidad_multiple_invariantes literal_compile literal_search
                lower (init_linea_571 tabla_ejemplo) None None
                [py "imss_bienestar"; py "pension_adultos_mayores"] 5).
  destruct (analizar_elegibilidad_multiple literal_compile literal_search lower
              (init_linea_571 tabla_ejemplo)
              [py "imss_bienestar"; py "pension_adultos_mayores"] None None 5)
    as [m|] eqn:E.
  - intros (_ & Hnd & _). exists m. split; [reflexivity|].
    split; [|exact Hnd].
    vm_compute in E. injection E as <-. reflexivity.
  - vm_compute in E. discriminate E.
Defined.

(** Nobody in the example table is between 200 and 300 years old; the
    instance has [df] and none of the attributes of the catalog. *)
Lemma elegibilidad_multiple_sin_poblacion_witness :
  analizar_elegibilidad_multiple literal_compile literal_search lower
    (init_linea_1312 tabla_ejemplo)
    [py "pension_adultos_mayores"; py "imss_bienestar"] (Some (200, 300)) None
    5
  = Some (Multiple.mk [] None 0 0).
Proof.
  apply (proj1 (elegibilidad_multiple_sin_poblacion literal_compile
                  literal_search lower (init_linea_1312 tabla_ejemplo)
                  (Some (200, 300)) None
                  [py "pension_adultos_mayores"; py "imss_bienestar"] 5
                  tabla_vacia
                  ltac:(vm_compute; reflexivity) ltac:(reflexivity))).
  intros k [<-|[<-|[]]]; left; apply mem_In; vm_compute; reflexivity.
Defined.

(** The people of 60 and over by neighbourhood, fewest first: three
    people, 60 % of the table. *)
Lemma flujo_completo_invariantes_witness :
  exists r,
    analizar_flujo_completo literal_compile literal_search tabla_ejemplo
      (mkCriterios (Some (60, 130)) None None false false false None
         (Some (py "colonia")) (Some (py "ascendente")))
      None (py "descendente") 10 = FlujoOk r
    /\ Flujo.total_personas_segmento r = 3
    /\ Flujo.porcentaje_poblacion_total r = 6000
    /\ 0 <= Flujo.total_personas_segmento r <= len tabla_ejemplo.
Proof.
  eexists. split; [vm_compute; reflexivity|].
  split; [vm_compute; reflexivity|].
  split; [vm_compute; reflexivity|].
  destruct (flujo_completo_invariantes literal_compile literal_search
              tabla_ejemplo
              (mkCriterios (Some (60, 130)) None None false false false None
                 (Some (py "colonia")) (Some (py "ascendente")))
              None (py "descendente") 10 _ ltac:(vm_compute; reflexivity))
    as (df_segmento & _ & _ & _ & H & _).
  exact H.
Defined.

(* ================================================================= *)
(** ** The eligibility analysis on the example table *)

(** No column of the example table is named after
    "programa_inexistente". *)
Lemma programa_desconocido_lanza_sin_catalogo_witness :
  construir tabla_ejemplo = None
  /\ analizar_elegibilidad_programa literal_compile literal_search lower
       (init_linea_1312 tabla_ejemplo) (py "programa_inexistente")
       None (Some (py "centro")) None None
     = None
  /\ analizar_elegibilidad_programa literal_compile literal_search lower
       (init_linea_571 tabla_ejemplo) (py "programa_inexistente")
       None (Some (py "centro")) None None
     = Some (ErrorProgramaNoEncontrado
               (py "Programa 'programa_inexistente' no encontrado")
               [py "pension_adultos_mayores"; py "imss_bienestar"]
               [py "es_elegible_pension_adultos_mayores";
                py "es_elegible_imss_bienestar"]).
Proof.
  destruct (programa_desconocido_lanza_sin_catalogo literal_compile
              literal_search lower tabla_ejemplo (py "programa_inexistente")
              None (Some (py "centro")) None None
              ltac:(vm_compute; reflexivity))
    as (_ & Hc & _ & H1312 & _).
  split; [exact Hc|]. split; [exact H1312|].
  vm_compute. reflexivity.
Defined.

Lemma sin_filas_devuelve_error_witness :
  analizar_elegibilidad_programa literal_compile literal_search lower
    (init_linea_1312 tabla_ejemplo) (py "pension_adultos_mayores")
    (Some (200, 300)) None None None
  = Some (ErrorSinPersonas
            (py "No hay personas que cumplan los criterios especificados")).
Proof.
  apply (proj1 (sin_filas_devuelve_error literal_compile literal_search lower
                  (init_linea_1312 tabla_ejemplo)
                  (py "pension_adultos_mayores")
                  (Some (200, 300)) None None None tabla_vacia
                  ltac:(vm_compute; reflexivity)
                  ltac:(vm_compute; reflexivity))).
  reflexivity.
Defined.

(** C2, as stated, fails: for a program of the catalog and an age range
    that no row satisfies, the result of the analysis holds an "error"
    key and no statistics, with or without the attributes of the
    catalog on the instance. *)
Lemma sin_filas_no_hay_estadisticas :
  mem (columna_de_programa (py "pension_adultos_mayores"))
    (columns tabla_ejemplo) = true
  /\ option_map len
       (_aplicar_filtros_basicos literal_compile literal_search tabla_ejemplo
          (Some (200, 300)) None None None) = Some 0
  /\ option_map tiene_error
       (analizar_elegibilidad_programa literal_compile literal_search lower
          (init_linea_1312 tabla_ejemplo) (py "pension_adultos_mayores")
          (Some (200, 300)) None None None) = Some true
  /\ option_map tiene_error
       (analizar_elegibilidad_programa literal_compile literal_search lower
          (init_linea_571 tabla_ejemplo) (py "pension_adultos_mayores")
          (Some (200, 300)) None None None) = Some true.
Proof.
  vm_compute. repeat split.
Qed.

(** The location "centro" selects the three rows of "Centro" in the
    location filter and has no rank: no neighbourhood is named
    "centro".  The location "Centro" has the first rank, with its three
    rows. *)
Lemma ranking_vacio_sin_igualdad_exacta_witness :
  option_map len
    (_aplicar_filtros_basicos literal_compile literal_search tabla_ejemplo
       None (Some (py "centro")) None None) = Some 3
  /\ _obtener_ranking_colonia tabla_ejemplo (py "centro") = None
  /\ option_map Contexto.ranking_colonias
       (_obtener_contexto_colonia literal_compile literal_search tabla_ejemplo
          (py "centro")) = Some None
  /\ option_map Contexto.poblacion_total
       (_obtener_contexto_colonia literal_compile literal_search tabla_ejemplo
          (py "centro")) = Some 3
  /\ _obtener_ranking_colonia tabla_ejemplo (py "Centro")
     = Some (Ranking.mk 1 2 3).
Proof.
  assert (H : forall p, In p (filas tabla_ejemplo) ->
                        Col.colonia p <> Some (py "centro")).
  { intros p Hp. unfold tabla_ejemplo, persona_ejemplo in Hp.
    cbn [filas In] in Hp.
    repeat (destruct Hp as [<-|Hp]; [vm_compute; discriminate|]).
    contradiction. }
  destruct (ranking_vacio_sin_igualdad_exacta literal_compile literal_search
              lower tabla_ejemplo (py "centro")) as (Hr & _ & _ & Hc & _).
  apply (proj2 Hr) in H.
  split; [vm_compute; reflexivity|]. split; [exact H|].
  destruct (_obtener_contexto_colonia literal_compile literal_search
              tabla_ejemplo (py "centro")) as [contexto|] eqn:E.
  - cbn [option_map]. destruct (Hc contexto eq_refl) as [Hk _].
    rewrite Hk, H. split; [reflexivity|].
    split; [|vm_compute; reflexivity].
    vm_compute in E. injection E as <-. reflexivity.
  - vm_compute in E. discriminate E.
Defined.

Close Scope Z_scope.
Close Scope string_scope.
